(** * AudioProcessorPlayer: channel routing and processor lifecycle

    A shallow embedding of
    [modules/juce_audio_utils/players/juce_AudioProcessorPlayer.cpp]:
    the buffer set-up routine [initialiseIoBuffers], the layout negotiation
    [findMostSuitableLayout], the control operations [setProcessor],
    [setDoublePrecisionProcessing], [audioDeviceAboutToStart],
    [audioDeviceStopped] and the per-block callback
    [audioDeviceIOCallbackWithContext].

    Conventions.
    - A [float*] is the address of a sample buffer; memory is a finite map
      from addresses to buffers.  An access the C++ leaves undefined (an
      index past the end of a span or vector, a copy through a pointer that
      addresses no buffer or too short a one) makes the operation return
      [None].
    - [jassert] is a debug-build check and has no effect on the result.
    - The player's [CriticalSection] is re-entrant and every operation runs
      to completion while holding it (the callback also holds the
      processor's callback lock), so operations are modelled as sequential
      state transformers.
    - A processor's own code ([prepareToPlay], [releaseResources],
      [processBlock], ...) is opaque: it is recorded in the trace, and
      [processBlock] transforms the samples and the MIDI it is handed.
    - Every call the player makes on a hosted processor or on the MIDI
      output is appended to a trace, together with the handle hosted at the
      time of the call. *)

From Stdlib Require Import ZArith Floats.
From stdpp Require Import base option list gmap.

Local Open Scope Z_scope.

(** ** Machine integers and samples *)

(** [double] is IEEE-754 binary64. *)
Abbreviation double := PrimFloat.float.

(** A [float] sample, as its 32-bit pattern; [zeromem] writes pattern 0. *)
Abbreviation sample := Z.

(** A [double] sample of [conversionBuffer], as its 64-bit pattern. *)
Abbreviation doubleSample := Z.

(** The address held by a [float*]; [nullptr] addresses nothing. *)
Abbreviation ptr := nat.
Abbreviation heap := (gmap nat (list Z)).

Definition nullptr : ptr := 0%nat.

Definition sizeof_float : Z := 4.

(** [(size_t) x] for an [int] x, with a 64-bit [size_t]. *)
Definition to_size_t (x : Z) : Z := x mod 2 ^ 64.

(** [(int) n] for a [size_t] n. *)
Definition to_int (n : Z) : Z :=
  let r := n mod 2 ^ 32 in if r <? 2 ^ 31 then r else r - 2 ^ 32.

(** [(uint64_t) x + y] style arithmetic on the sample counter. *)
Definition to_uint64 (x : Z) : Z := x mod 2 ^ 64.

(** [(double) n] for a [uint64_t] n: round to nearest, ties to even. *)
Definition uint64_to_double (n : Z) : double :=
  SF2Prim (binary_normalize prec emax n 0 false).

Definition jmax (a b : Z) : Z := if a <? b then b else a.

(** ** Memory *)

(** Modelled from the spec: [zeromem (p, numBytes)] (defined outside this
    file) zero-fills [numBytes] bytes, here of a buffer of floats. *)
Definition zeromem (p : ptr) (numBytes : Z) (h : heap) : option heap :=
  d ← h !! p;
  let n := Z.to_nat (numBytes / sizeof_float) in
  if decide (n ≤ length d)%nat
  then Some (<[p := replicate n 0 ++ drop n d]> h)
  else None.

(** [memcpy (dst, src, numBytes)] between buffers of floats. *)
Definition memcpy (dst src : ptr) (numBytes : Z) (h : heap) : option heap :=
  d ← h !! dst;
  s ← h !! src;
  let n := Z.to_nat (numBytes / sizeof_float) in
  if decide (n ≤ length d ∧ n ≤ length s)%nat
  then Some (<[dst := take n s ++ drop n d]> h)
  else None.

(** [AudioBuffer<float>], as far as this file uses it: the write pointer of
    each channel and the number of samples each channel holds. *)
Record AudioBuffer := mkAudioBuffer {
  ab_channels : list ptr;
  ab_numSamples : Z
}.

Definition getNumChannels (b : AudioBuffer) : Z := Z.of_nat (length (ab_channels b)).

Definition getWritePointer (b : AudioBuffer) (channelNumber : Z) : option ptr :=
  if 0 <=? channelNumber then ab_channels b !! Z.to_nat channelNumber else None.

(** ** Loops *)

Fixpoint for_each {S : Type} (body : nat → S → option S) (idxs : list nat) (s : S)
  : option S :=
  match idxs with
  | [] => Some s
  | i :: idxs' => s' ← body i s; for_each body idxs' s'
  end.

(** [for (size_t i = lo; i < hi; ++i) body (i)] *)
Definition for_loop {S : Type} (lo hi : nat) (body : nat → S → option S) (s : S)
  : option S :=
  for_each body (seq lo (hi - lo)) s.

(** ** initialiseIoBuffers *)

(** The variables the loops of [initialiseIoBuffers] update. *)
Record IoState := mkIoState {
  io_channels : list ptr;
  io_totalNumChans : nat;
  io_heap : gmap nat (list Z)
}.

(** [channels[totalNumChans] = p] *)
Definition assignChannel (p : option ptr) (st : IoState) : option IoState :=
  p ← p;
  if decide (io_totalNumChans st < length (io_channels st))%nat
  then Some (mkIoState (<[io_totalNumChans st := p]> (io_channels st))
                       (io_totalNumChans st) (io_heap st))
  else None.

(** [++totalNumChans] *)
Definition nextChannel (st : IoState) : option IoState :=
  Some (mkIoState (io_channels st) (S (io_totalNumChans st)) (io_heap st)).

(** A memory operation on [channels[totalNumChans]]. *)
Definition onCurrentChannel (op : ptr → heap → option heap) (st : IoState)
  : option IoState :=
  c ← io_channels st !! io_totalNumChans st;
  h ← op c (io_heap st);
  Some (mkIoState (io_channels st) (io_totalNumChans st) h).

(** The lambda [prepareInputChannel]. *)
Definition prepareInputChannel (ins : list ptr) (numBytes : Z) (index : nat)
  (st : IoState) : option IoState :=
  match ins with
  | [] => onCurrentChannel (λ c, zeromem c numBytes) st
  | _ :: _ =>
      onCurrentChannel
        (λ c h, src ← ins !! (index mod length ins)%nat; memcpy c src numBytes h) st
  end.

Definition initialiseIoBuffers (ins outs : list ptr) (numSamples : Z)
  (processorIns processorOuts : nat) (tempBuffer : AudioBuffer)
  (channels : list ptr) (h : heap) : option (list ptr * heap) :=
  let numBytes := to_size_t (to_size_t numSamples * sizeof_float) in
  let st0 := mkIoState channels 0 h in
  st ←
    (if decide (processorOuts < processorIns)%nat then
       st1 ← for_loop 0 processorOuts (λ i st,
                st ← assignChannel (outs !! i) st;
                st ← prepareInputChannel ins numBytes i st;
                nextChannel st) st0;
       for_loop processorOuts processorIns (λ i st,
         st ← assignChannel
                (getWritePointer tempBuffer (to_int (Z.of_nat (i - processorOuts)))) st;
         st ← prepareInputChannel ins numBytes i st;
         nextChannel st) st1
     else
       st1 ← for_loop 0 processorIns (λ i st,
                st ← assignChannel (outs !! i) st;
                st ← prepareInputChannel ins numBytes i st;
                nextChannel st) st0;
       for_loop processorIns processorOuts (λ i st,
         st ← assignChannel (outs !! i) st;
         st ← onCurrentChannel
                (λ c, zeromem c (to_size_t (to_size_t numSamples * sizeof_float))) st;
         nextChannel st) st1);
  Some (io_channels st, io_heap st).

(** The first [n] samples of the buffer that slot [i] of [channels]
    addresses. *)
Definition slotSamples (channels : list ptr) (h : heap) (n : nat) (i : nat)
  : option (list sample) :=
  p ← channels !! i; take n <$> h !! p.

(** ** Collaborators of the player *)

Abbreviation procId := nat.

(** [AudioProcessorPlayer::NumChannels]: a pair of [int] channel counts,
    value-initialised to zero.  A [BusesLayout] is represented by the channel
    counts of its main input and output bus, which is all that
    [NumChannels (layout)] reads and all that [toLayout()] sets. *)
Record NumChannels := mkNumChannels { ins : Z; outs : Z }.

Inductive ProcessingPrecision := singlePrecision | doublePrecision.

(** An [AudioWorkgroup] token; [None] is the empty workgroup that [reset()]
    leaves. *)
Abbreviation AudioWorkgroup := (option nat).

(** An [AudioPlayHead*] a processor can hold: one installed by some other
    owner, or the [PlayHead] object local to one callback, with its members
    [hostTimeNs], [sampleCount] and [seconds]. *)
Inductive AudioPlayHead :=
| ExternalPlayHead (id : nat)
| PlayHead (hostTimeNs : option Z) (sampleCountIn : Z) (seconds : double).

(** Modelled from the spec: the processor contract ([AudioProcessor] is
    declared outside this file).  The fields are the answers of the const
    queries [isMidiEffect()], [getBusesLayout()] (main bus channel counts),
    [checkBusesLayoutSupported (chans.toLayout())],
    [supportsDoublePrecisionProcessing()], [isSuspended()],
    [isUsingDoublePrecision()] (through the precision last set) and
    [getPlayHead()] ([None] is [nullptr]). *)
Record AudioProcessor := mkAudioProcessor {
  isMidiEffect : bool;
  getBusesLayout : NumChannels;
  checkBusesLayoutSupported : NumChannels → bool;
  supportsDoublePrecisionProcessing : bool;
  isSuspended : bool;
  processingPrecision : ProcessingPrecision;
  getPlayHead : option AudioPlayHead
}.

Definition isUsingDoublePrecision (proc : AudioProcessor) : bool :=
  match processingPrecision proc with doublePrecision => true | singlePrecision => false end.

(** The non-const member functions of a processor that the player calls. *)
Inductive Hook :=
| setRateAndBufferSizeDetails (newSampleRate : double) (newBlockSize : Z)
| setPlayConfigDetails (numIns numOuts : Z) (newSampleRate : double) (newBlockSize : Z)
| setProcessingPrecision (precision : ProcessingPrecision)
| prepareToPlay (newSampleRate : double) (newBlockSize : Z)
| releaseResources
| audioWorkgroupContextChanged (workgroup : AudioWorkgroup)
| setPlayHead (newPlayHead : option AudioPlayHead)
| processBlock.

(** A [MidiBuffer]: events as (sample position, raw bytes). *)
Abbreviation MidiBuffer := (list (Z * list Z)).

Record MidiOutput := mkMidiOutput {
  midiOutputId : nat;
  isBackgroundThreadRunning : bool
}.

(** What the player does to the world outside it.  A processor call records
    the handle the player hosts when the call is made. *)
Inductive Event :=
| ProcessorCall (hosted : option procId) (target : procId) (hook : Hook)
| sendBlockOfMessages (output : nat) (midi : MidiBuffer) (rate : double)
| sendBlockOfMessagesNow (output : nat) (midi : MidiBuffer).

(** [BigInteger::countNumberOfSetBits] *)
Fixpoint countSetBits (p : positive) : Z :=
  match p with
  | xH => 1
  | xO p' => countSetBits p'
  | xI p' => 1 + countSetBits p'
  end.

Definition countNumberOfSetBits (n : N) : Z :=
  match n with N0 => 0 | Npos p => countSetBits p end.

Record AudioIODevice := mkAudioIODevice {
  getCurrentSampleRate : double;
  getCurrentBufferSizeSamples : Z;
  getActiveInputChannels : N;
  getActiveOutputChannels : N;
  getWorkgroup : AudioWorkgroup
}.

(** The bits of the [float] that holds the rounded value [x] ([x] comes out
    of [binary_normalize], which yields no NaN). *)
Definition floatBits (x : spec_float) : sample :=
  let signBit (s : bool) := if s then 2 ^ 31 else 0 in
  match x with
  | S754_zero s => signBit s
  | S754_infinity s => signBit s + 255 * 2 ^ 23
  | S754_nan => 255 * 2 ^ 23 + 2 ^ 22
  | S754_finite s m e =>
      signBit s + (if Z.pos m <? 2 ^ 23 then Z.pos m
                   else (e + 150) * 2 ^ 23 + (Z.pos m - 2 ^ 23))
  end.

(** The conversions [AudioBuffer::makeCopyOf] applies to each sample.
    [(double) f] is exact: every [float] value is a normal [double].
    [(float) d] rounds to nearest, ties to even, to infinity on overflow.
    A NaN keeps its sign and its payload (the leading 22 bits of it on the
    way to [float]) and comes out quiet. *)
Definition floatToDouble (bits : sample) : doubleSample :=
  let sign := Z.testbit bits 31 in
  let e := (bits / 2 ^ 23) mod 2 ^ 8 in
  let m := bits mod 2 ^ 23 in
  let signBit := if sign then 2 ^ 63 else 0 in
  let signed (x : Z) := if sign then - x else x in
  if e =? 255 then
    if m =? 0 then signBit + 2047 * 2 ^ 52
    else signBit + 2047 * 2 ^ 52 + Z.lor (2 ^ 51) (m * 2 ^ 29)
  else
    match (if e =? 0 then binary_normalize prec emax (signed m) (-149) sign
           else binary_normalize prec emax (signed (m + 2 ^ 23)) (e - 150) sign) with
    | S754_finite _ m' e' => signBit + (e' + 1075) * 2 ^ 52 + (Z.pos m' - 2 ^ 52)
    | _ => signBit
    end.

Definition doubleToFloat (bits : doubleSample) : sample :=
  let sign := Z.testbit bits 63 in
  let e := (bits / 2 ^ 52) mod 2 ^ 11 in
  let m := bits mod 2 ^ 52 in
  let signBit := if sign then 2 ^ 31 else 0 in
  let signed (x : Z) := if sign then - x else x in
  if e =? 2047 then
    if m =? 0 then signBit + 255 * 2 ^ 23
    else signBit + 255 * 2 ^ 23 + Z.lor (2 ^ 22) (m / 2 ^ 29)
  else
    floatBits (if e =? 0 then binary_normalize 24 128 (signed m) (-1074) sign
               else binary_normalize 24 128 (signed (m + 2 ^ 52)) (e - 1075) sign).

(** Code the player calls that lives in other modules: the MIDI collector,
    [AudioBuffer::setSize] (an allocator) and the processor's own
    [processBlock]. *)
Class Collaborators := {
  MidiMessageCollector : Type;
  removeNextBlockOfMessages :
    MidiMessageCollector → MidiBuffer → Z → MidiMessageCollector * MidiBuffer;
  collectorReset : MidiMessageCollector → double → MidiMessageCollector;
  setSize : AudioBuffer → Z → Z → heap → AudioBuffer * heap;
  processBlockFloat :
    procId → list (list sample) → MidiBuffer → list (list sample) * MidiBuffer;
  processBlockDouble :
    procId → list (list doubleSample) → MidiBuffer
    → list (list doubleSample) * MidiBuffer
}.

(** ** The player *)

Section Player.
Context `{Collaborators}.

(** The data members of [AudioProcessorPlayer] (the lock apart). *)
Record Player := mkPlayer {
  processor : option procId;
  sampleRate : double;
  blockSize : Z;
  isPrepared : bool;
  isDoublePrecision : bool;
  deviceChannels : NumChannels;
  defaultProcessorChannels : NumChannels;
  actualProcessorChannels : NumChannels;
  channels : list ptr;
  tempBuffer : AudioBuffer;
  conversionBuffer : list (list doubleSample);
  messageCollector : MidiMessageCollector;
  midiOutput : option MidiOutput;
  sampleCount : Z;
  incomingMidi : MidiBuffer;
  currentDevice : option AudioIODevice;
  currentWorkgroup : AudioWorkgroup
}.

Definition set_processor (v : option procId) (pl : Player) : Player :=
  mkPlayer v (sampleRate pl) (blockSize pl) (isPrepared pl) (isDoublePrecision pl)
    (deviceChannels pl) (defaultProcessorChannels pl) (actualProcessorChannels pl)
    (channels pl) (tempBuffer pl) (conversionBuffer pl) (messageCollector pl)
    (midiOutput pl) (sampleCount pl) (incomingMidi pl) (currentDevice pl)
    (currentWorkgroup pl).
Definition set_sampleRate (v : double) (pl : Player) : Player :=
  mkPlayer (processor pl) v (blockSize pl) (isPrepared pl) (isDoublePrecision pl)
    (deviceChannels pl) (defaultProcessorChannels pl) (actualProcessorChannels pl)
    (channels pl) (tempBuffer pl) (conversionBuffer pl) (messageCollector pl)
    (midiOutput pl) (sampleCount pl) (incomingMidi pl) (currentDevice pl)
    (currentWorkgroup pl).
Definition set_blockSize (v : Z) (pl : Player) : Player :=
  mkPlayer (processor pl) (sampleRate pl) v (isPrepared pl) (isDoublePrecision pl)
    (deviceChannels pl) (defaultProcessorChannels pl) (actualProcessorChannels pl)
    (channels pl) (tempBuffer pl) (conversionBuffer pl) (messageCollector pl)
    (midiOutput pl) (sampleCount pl) (incomingMidi pl) (currentDevice pl)
    (currentWorkgroup pl).
Definition set_isPrepared (v : bool) (pl : Player) : Player :=
  mkPlayer (processor pl) (sampleRate pl) (blockSize pl) v (isDoublePrecision pl)
    (deviceChannels pl) (defaultProcessorChannels pl) (actualProcessorChannels pl)
    (channels pl) (tempBuffer pl) (conversionBuffer pl) (messageCollector pl)
    (midiOutput pl) (sampleCount pl) (incomingMidi pl) (currentDevice pl)
    (currentWorkgroup pl).
Definition set_isDoublePrecision (v : bool) (pl : Player) : Player :=
  mkPlayer (processor pl) (sampleRate pl) (blockSize pl) (isPrepared pl) v
    (deviceChannels pl) (defaultProcessorChannels pl) (actualProcessorChannels pl)
    (channels pl) (tempBuffer pl) (conversionBuffer pl) (messageCollector pl)
    (midiOutput pl) (sampleCount pl) (incomingMidi pl) (currentDevice pl)
    (currentWorkgroup pl).
Definition set_deviceChannels (v : NumChannels) (pl : Player) : Player :=
  mkPlayer (processor pl) (sampleRate pl) (blockSize pl) (isPrepared pl)
    (isDoublePrecision pl) v (defaultProcessorChannels pl) (actualProcessorChannels pl)
    (channels pl) (tempBuffer pl) (conversionBuffer pl) (messageCollector pl)
    (midiOutput pl) (sampleCount pl) (incomingMidi pl) (currentDevice pl)
    (currentWorkgroup pl).
Definition set_defaultProcessorChannels (v : NumChannels) (pl : Player) : Player :=
  mkPlayer (processor pl) (sampleRate pl) (blockSize pl) (isPrepared pl)
    (isDoublePrecision pl) (deviceChannels pl) v (actualProcessorChannels pl) (channels
    pl) (tempBuffer pl) (conversionBuffer pl) (messageCollector pl) (midiOutput pl)
    (sampleCount pl) (incomingMidi pl) (currentDevice pl) (currentWorkgroup pl).
Definition set_actualProcessorChannels (v : NumChannels) (pl : Player) : Player :=
  mkPlayer (processor pl) (sampleRate pl) (blockSize pl) (isPrepared pl)
    (isDoublePrecision pl) (deviceChannels pl) (defaultProcessorChannels pl) v (channels
    pl) (tempBuffer pl) (conversionBuffer pl) (messageCollector pl) (midiOutput pl)
    (sampleCount pl) (incomingMidi pl) (currentDevice pl) (currentWorkgroup pl).
Definition set_channels (v : list ptr) (pl : Player) : Player :=
  mkPlayer (processor pl) (sampleRate pl) (blockSize pl) (isPrepared pl)
    (isDoublePrecision pl) (deviceChannels pl) (defaultProcessorChannels pl)
    (actualProcessorChannels pl) v (tempBuffer pl) (conversionBuffer pl)
    (messageCollector pl) (midiOutput pl) (sampleCount pl) (incomingMidi pl)
    (currentDevice pl) (currentWorkgroup pl).
Definition set_tempBuffer (v : AudioBuffer) (pl : Player) : Player :=
  mkPlayer (processor pl) (sampleRate pl) (blockSize pl) (isPrepared pl)
    (isDoublePrecision pl) (deviceChannels pl) (defaultProcessorChannels pl)
    (actualProcessorChannels pl) (channels pl) v (conversionBuffer pl) (messageCollector
    pl) (midiOutput pl) (sampleCount pl) (incomingMidi pl) (currentDevice pl)
    (currentWorkgroup pl).
Definition set_conversionBuffer (v : list (list doubleSample)) (pl : Player) : Player :=
  mkPlayer (processor pl) (sampleRate pl) (blockSize pl) (isPrepared pl)
    (isDoublePrecision pl) (deviceChannels pl) (defaultProcessorChannels pl)
    (actualProcessorChannels pl) (channels pl) (tempBuffer pl) v (messageCollector pl)
    (midiOutput pl) (sampleCount pl) (incomingMidi pl) (currentDevice pl)
    (currentWorkgroup pl).
Definition set_messageCollector (v : MidiMessageCollector) (pl : Player) : Player :=
  mkPlayer (processor pl) (sampleRate pl) (blockSize pl) (isPrepared pl)
    (isDoublePrecision pl) (deviceChannels pl) (defaultProcessorChannels pl)
    (actualProcessorChannels pl) (channels pl) (tempBuffer pl) (conversionBuffer pl) v
    (midiOutput pl) (sampleCount pl) (incomingMidi pl) (currentDevice pl)
    (currentWorkgroup pl).
Definition set_midiOutput (v : option MidiOutput) (pl : Player) : Player :=
  mkPlayer (processor pl) (sampleRate pl) (blockSize pl) (isPrepared pl)
    (isDoublePrecision pl) (deviceChannels pl) (defaultProcessorChannels pl)
    (actualProcessorChannels pl) (channels pl) (tempBuffer pl) (conversionBuffer pl)
    (messageCollector pl) v (sampleCount pl) (incomingMidi pl) (currentDevice pl)
    (currentWorkgroup pl).
Definition set_sampleCount (v : Z) (pl : Player) : Player :=
  mkPlayer (processor pl) (sampleRate pl) (blockSize pl) (isPrepared pl)
    (isDoublePrecision pl) (deviceChannels pl) (defaultProcessorChannels pl)
    (actualProcessorChannels pl) (channels pl) (tempBuffer pl) (conversionBuffer pl)
    (messageCollector pl) (midiOutput pl) v (incomingMidi pl) (currentDevice pl)
    (currentWorkgroup pl).
Definition set_incomingMidi (v : MidiBuffer) (pl : Player) : Player :=
  mkPlayer (processor pl) (sampleRate pl) (blockSize pl) (isPrepared pl)
    (isDoublePrecision pl) (deviceChannels pl) (defaultProcessorChannels pl)
    (actualProcessorChannels pl) (channels pl) (tempBuffer pl) (conversionBuffer pl)
    (messageCollector pl) (midiOutput pl) (sampleCount pl) v (currentDevice pl)
    (currentWorkgroup pl).
Definition set_currentDevice (v : option AudioIODevice) (pl : Player) : Player :=
  mkPlayer (processor pl) (sampleRate pl) (blockSize pl) (isPrepared pl)
    (isDoublePrecision pl) (deviceChannels pl) (defaultProcessorChannels pl)
    (actualProcessorChannels pl) (channels pl) (tempBuffer pl) (conversionBuffer pl)
    (messageCollector pl) (midiOutput pl) (sampleCount pl) (incomingMidi pl) v
    (currentWorkgroup pl).
Definition set_currentWorkgroup (v : AudioWorkgroup) (pl : Player) : Player :=
  mkPlayer (processor pl) (sampleRate pl) (blockSize pl) (isPrepared pl)
    (isDoublePrecision pl) (deviceChannels pl) (defaultProcessorChannels pl)
    (actualProcessorChannels pl) (channels pl) (tempBuffer pl) (conversionBuffer pl)
    (messageCollector pl) (midiOutput pl) (sampleCount pl) (incomingMidi pl)
    (currentDevice pl) v.

(** The player together with what it points to: the processor objects, the
    sample memory, and the trace of calls made so far. *)
Record World := mkWorld {
  player : Player;
  processors : procId → AudioProcessor;
  memory : gmap nat (list Z);
  trace : list Event
}.

Definition update (f : Player → Player) (w : World) : World :=
  mkWorld (f (player w)) (processors w) (memory w) (trace w).

Definition emit (e : Event) (w : World) : World :=
  mkWorld (player w) (processors w) (memory w) (trace w ++ [e]).

Definition set_memory (h : heap) (w : World) : World :=
  mkWorld (player w) (processors w) h (trace w).

Definition set_processorObject (p : procId) (proc : AudioProcessor) (w : World) : World :=
  mkWorld (player w) (λ q, if decide (q = p) then proc else processors w q)
          (memory w) (trace w).

(** Modelled from the spec: the effect of a processor's member functions
    ([AudioProcessor] is defined outside this file).  [setPrecision] and
    [setPositionSource] store their argument; the other calls run code of the
    processor that changes none of the answers the player reads. *)
Definition applyHook (hk : Hook) (proc : AudioProcessor) : AudioProcessor :=
  match hk with
  | setProcessingPrecision precision =>
      mkAudioProcessor (isMidiEffect proc) (getBusesLayout proc)
        (checkBusesLayoutSupported proc) (supportsDoublePrecisionProcessing proc)
        (isSuspended proc) precision (getPlayHead proc)
  | setPlayHead newPlayHead =>
      mkAudioProcessor (isMidiEffect proc) (getBusesLayout proc)
        (checkBusesLayoutSupported proc) (supportsDoublePrecisionProcessing proc)
        (isSuspended proc) (processingPrecision proc) newPlayHead
  | _ => proc
  end.

(** [target->hook (...)] *)
Definition call (target : procId) (hk : Hook) (w : World) : World :=
  set_processorObject target (applyHook hk (processors w target))
    (emit (ProcessorCall (processor (player w)) target hk) w).

(** *** Layout negotiation *)

(** [std::find_if]: the position of the first element that satisfies [pred]
    (the length of the list when there is none), and the elements [pred] was
    applied to, in the order of the calls. *)
Fixpoint find_if {A : Type} (pred : A → bool) (l : list A) : nat * list A :=
  match l with
  | [] => (0%nat, [])
  | x :: l' =>
      if pred x then (0%nat, [x])
      else let '(it, tried) := find_if pred l' in (S it, x :: tried)
  end.

(** Returns the chosen layout and the layouts passed to
    [checkBusesLayoutSupported], in the order of the calls. *)
Definition findMostSuitableLayout (pl : Player) (proc : AudioProcessor)
  : NumChannels * list NumChannels :=
  if isMidiEffect proc then (mkNumChannels 0 0, [])
  else
    let layouts :=
      deviceChannels pl ::
        (if (ins (deviceChannels pl) =? 0) || (ins (deviceChannels pl) =? 1)
         then [ mkNumChannels (ins (defaultProcessorChannels pl)) (outs (deviceChannels pl));
                mkNumChannels (outs (deviceChannels pl)) (outs (deviceChannels pl)) ]
         else []) in
    let '(it, tried) := find_if (checkBusesLayoutSupported proc) layouts in
    (match layouts !! it with
     | Some chans => chans
     | None => nth 0 layouts (mkNumChannels 0 0)
     end, tried).

(** *** Control operations *)

Definition resizeChannels (w : World) : World :=
  let pl := player w in
  let maxChannels :=
    jmax (ins (deviceChannels pl))
      (jmax (outs (deviceChannels pl))
         (jmax (ins (actualProcessorChannels pl)) (outs (actualProcessorChannels pl)))) in
  let '(tb, h) := setSize (tempBuffer pl) maxChannels (blockSize pl) (memory w) in
  set_memory h
    (update (λ pl, set_tempBuffer tb
                     (set_channels
                        (resize (Z.to_nat (to_size_t maxChannels)) nullptr (channels pl)) pl))
       w).

(** The test [sampleRate > 0 && blockSize > 0]. *)
Definition configurationKnown (pl : Player) : bool :=
  PrimFloat.ltb 0 (sampleRate pl) && (0 <? blockSize pl).

(** The body of [if (processorToPlay != nullptr && sampleRate > 0 && blockSize > 0)],
    for [processorToPlay] = [p]. *)
Definition prepareProcessor (p : procId) (w : World) : World :=
  let w := update (set_defaultProcessorChannels (getBusesLayout (processors w p))) w in
  let w := update (λ pl, set_actualProcessorChannels
                           (findMostSuitableLayout pl (processors w p)).1 pl) w in
  let w :=
    call p (if isMidiEffect (processors w p)
            then setRateAndBufferSizeDetails (sampleRate (player w)) (blockSize (player w))
            else setPlayConfigDetails (ins (actualProcessorChannels (player w)))
                                      (outs (actualProcessorChannels (player w)))
                                      (sampleRate (player w)) (blockSize (player w))) w in
  let supportsDouble :=
    supportsDoublePrecisionProcessing (processors w p) && isDoublePrecision (player w) in
  let w := call p (setProcessingPrecision
                     (if supportsDouble then doublePrecision else singlePrecision)) w in
  call p (prepareToPlay (sampleRate (player w)) (blockSize (player w))) w.

(** The end of [setProcessor]: the swap of the hosted handle and the
    release of the processor hosted before. *)
Definition swapProcessor (processorToPlay : option procId) (w : World) : World :=
  let oldOne := if isPrepared (player w) then processor (player w) else None in
  let w := update (set_processor processorToPlay) w in
  let w := update (set_isPrepared true) w in
  let w := resizeChannels w in
  match oldOne with
  | Some old => call old releaseResources w
  | None => w
  end.

Definition setProcessor (processorToPlay : option procId) (w : World) : World :=
  if decide (processor (player w) = processorToPlay) then w
  else
    let w := update (set_sampleCount 0) w in
    let w := update (set_currentWorkgroup None) w in
    let w :=
      match processorToPlay with
      | Some p => if configurationKnown (player w) then prepareProcessor p w else w
      | None => w
      end in
    swapProcessor processorToPlay w.

(** The part of [setProcessor] after the counter and workgroup resets. *)
Definition attachFrom (processorToPlay : option procId) (w : World) : World :=
  swapProcessor processorToPlay
    match processorToPlay with
    | Some p => if configurationKnown (player w) then prepareProcessor p w else w
    | None => w
    end.

(** The body of [if (processor != nullptr)] in [setDoublePrecisionProcessing],
    for [processor] = [p]. *)
Definition reprepareProcessor (p : procId) (doublePrecisionMode : bool) (w : World)
  : World :=
  let w := call p releaseResources w in
  let supportsDouble :=
    supportsDoublePrecisionProcessing (processors w p) && doublePrecisionMode in
  let w := call p (setProcessingPrecision
                     (if supportsDouble then doublePrecision else singlePrecision)) w in
  call p (prepareToPlay (sampleRate (player w)) (blockSize (player w))) w.

Definition setDoublePrecisionProcessing (doublePrecisionMode : bool) (w : World) : World :=
  if decide (doublePrecisionMode ≠ isDoublePrecision (player w)) then
    let w := update (set_currentWorkgroup None) w in
    let w :=
      match processor (player w) with
      | Some p => reprepareProcessor p doublePrecisionMode w
      | None => w
      end in
    update (set_isDoublePrecision doublePrecisionMode) w
  else w.

(** The test [midiOutput != midiOutputToUse] only saves taking the lock. *)
Definition setMidiOutput (midiOutputToUse : option MidiOutput) (w : World) : World :=
  update (set_midiOutput midiOutputToUse) w.

Definition audioDeviceAboutToStart (device : AudioIODevice) (w : World) : World :=
  let w := update (set_currentDevice (Some device)) w in
  let newSampleRate := getCurrentSampleRate device in
  let newBlockSize := getCurrentBufferSizeSamples device in
  let numChansIn := countNumberOfSetBits (getActiveInputChannels device) in
  let numChansOut := countNumberOfSetBits (getActiveOutputChannels device) in
  let w := update (set_sampleRate newSampleRate) w in
  let w := update (set_blockSize newBlockSize) w in
  let w := update (set_deviceChannels (mkNumChannels numChansIn numChansOut)) w in
  let w := resizeChannels w in
  let w := update (λ pl, set_messageCollector
                           (collectorReset (messageCollector pl) (sampleRate pl)) pl) w in
  let w := update (set_currentWorkgroup None) w in
  match processor (player w) with
  | Some p =>
      let w := if isPrepared (player w) then call p releaseResources w else w in
      let oldProcessor := processor (player w) in
      let w := setProcessor None w in
      setProcessor oldProcessor w
  | None => w
  end.

Definition audioDeviceStopped (w : World) : World :=
  let w :=
    match processor (player w) with
    | Some p => if isPrepared (player w) then call p releaseResources w else w
    | None => w
    end in
  let w := update (set_sampleRate 0%float) w in
  let w := update (set_blockSize 0) w in
  let w := update (set_isPrepared false) w in
  let '(tb, h) := setSize (tempBuffer (player w)) 1 1 (memory w) in
  let w := set_memory h (update (set_tempBuffer tb) w) in
  let w := update (set_currentDevice None) w in
  update (set_currentWorkgroup None) w.

(** *** The per-block callback *)

(** Modelled from the spec: [FloatVectorOperations::clear (dest, num)]
    (defined outside this file) fills [num] samples with silence. *)
Definition clearSamples (dest : ptr) (num : Z) (h : heap) : option heap :=
  d ← h !! dest;
  let n := Z.to_nat num in
  if decide (n ≤ length d)%nat
  then Some (<[dest := replicate n 0 ++ drop n d]> h)
  else None.

(** The final loop of the callback, over the device output channels. *)
Definition clearOutputs (outputChannelData : list ptr) (numSamples : Z) (w : World)
  : option World :=
  h ← for_loop 0 (length outputChannelData) (λ i h,
         dest ← outputChannelData !! i; clearSamples dest numSamples h) (memory w);
  Some (set_memory h w).

(** The samples an [AudioBuffer<float>] that refers to [chans] presents. *)
Definition readBuffer (chans : list ptr) (n : nat) (h : heap)
  : option (list (list sample)) :=
  mapM (λ c, d ← h !! c; if decide (n ≤ length d)%nat then Some (take n d) else None)
       chans.

(** Samples written through such a buffer land in the memory it refers to;
    the buffer keeps its shape. *)
Definition writeBuffer (chans : list ptr) (n : nat) (data : list (list sample))
  (h : heap) : option heap :=
  for_loop 0 (length chans) (λ i h,
    c ← chans !! i;
    d ← h !! c;
    let new := take n (default [] (data !! i)) in
    if decide (n ≤ length d)%nat
    then Some (<[c := new ++ drop (length new) d]> h)
    else None) h.

(** The body of [if (! processor->isSuspended())] up to the MIDI output. *)
Definition runProcessBlock (p : procId) (totalNumChannels numSamples : Z) (w : World)
  : option World :=
  let n := Z.to_nat numSamples in
  let total := Z.to_nat totalNumChannels in
  if decide (total ≤ length (channels (player w)))%nat then
    let chans := take total (channels (player w)) in
    buffer ← readBuffer chans n (memory w);
    if isUsingDoublePrecision (processors w p) then
      let '(converted, midi) :=
        processBlockDouble p (map (map floatToDouble) buffer) (incomingMidi (player w)) in
      let w := call p processBlock w in
      let w := update (set_conversionBuffer converted) w in
      let w := update (set_incomingMidi midi) w in
      h ← writeBuffer chans n (map (map doubleToFloat) converted) (memory w);
      Some (set_memory h w)
    else
      let '(processed, midi) := processBlockFloat p buffer (incomingMidi (player w)) in
      let w := call p processBlock w in
      let w := update (set_incomingMidi midi) w in
      h ← writeBuffer chans n processed (memory w);
      Some (set_memory h w)
  else None.

(** The MIDI forwarding; the time stamp of the queued send is the wall clock
    and is left out of the trace. *)
Definition forwardMidi (w : World) : World :=
  match midiOutput (player w) with
  | Some out =>
      if isBackgroundThreadRunning out
      then emit (sendBlockOfMessages (midiOutputId out) (incomingMidi (player w))
                                     (sampleRate (player w))) w
      else emit (sendBlockOfMessagesNow (midiOutputId out) (incomingMidi (player w))) w
  | None => w
  end.

(** [if (std::exchange (currentWorkgroup, currentDevice->getWorkgroup())
         != currentDevice->getWorkgroup())
      processor->audioWorkgroupContextChanged (currentWorkgroup);] *)
Definition exchangeWorkgroup (p : procId) (device : AudioIODevice) (w : World) : World :=
  let previous := currentWorkgroup (player w) in
  let w := update (set_currentWorkgroup (getWorkgroup device)) w in
  if decide (previous ≠ getWorkgroup device)
  then call p (audioWorkgroupContextChanged (currentWorkgroup (player w))) w
  else w.

(** The body of [if (processor != nullptr)] from the declaration of
    [playHead] on, for [processor] = [p], and what follows it when the
    processor is suspended. *)
Definition hostedBlock (p : procId) (outputChannelData : list ptr)
  (totalNumChannels numSamples : Z) (hostTimeNs : option Z) (w : World) : option World :=
  (* PlayHead playHead { ... }: the members, then the constructor body *)
  let playHead :=
    PlayHead hostTimeNs (sampleCount (player w))
      (PrimFloat.div (uint64_to_double (sampleCount (player w))) (sampleRate (player w))) in
  let useThisPlayhead :=
    match getPlayHead (processors w p) with None => true | Some _ => false end in
  let w := if useThisPlayhead then call p (setPlayHead (Some playHead)) w else w in
  let w := update (λ pl, set_sampleCount
                           (to_uint64 (sampleCount pl + to_uint64 numSamples)) pl) w in
  if negb (isSuspended (processors w p)) then
    w ← runProcessBlock p totalNumChannels numSamples w;
    let w := forwardMidi w in
    (* return: ~PlayHead *)
    Some (if useThisPlayhead then call p (setPlayHead None) w else w)
  else
    (* end of the block: ~PlayHead *)
    let w := if useThisPlayhead then call p (setPlayHead None) w else w in
    clearOutputs outputChannelData numSamples w.

(** The device's channel arrays are lists of channel pointers: the counts
    [numInputChannels] and [numOutputChannels] are their lengths.
    [hostTimeNs] is [context.hostTimeNs], [None] when it is null. *)
Definition audioDeviceIOCallbackWithContext (inputChannelData outputChannelData : list ptr)
  (numSamples : Z) (hostTimeNs : option Z) (w : World) : option World :=
  let '(collector, midi) :=
    removeNextBlockOfMessages (messageCollector (player w)) [] numSamples in
  let w := update (set_incomingMidi midi) w in
  let w := update (set_messageCollector collector) w in
  let actual := actualProcessorChannels (player w) in
  '(chans, h) ← initialiseIoBuffers inputChannelData outputChannelData numSamples
                  (Z.to_nat (to_size_t (ins actual))) (Z.to_nat (to_size_t (outs actual)))
                  (tempBuffer (player w)) (channels (player w)) (memory w);
  let w := set_memory h (update (set_channels chans) w) in
  let totalNumChannels := jmax (ins actual) (outs actual) in
  match processor (player w) with
  | Some p =>
      device ← currentDevice (player w);
      let w := exchangeWorkgroup p device w in
      hostedBlock p outputChannelData totalNumChannels numSamples hostTimeNs w
  | None => clearOutputs outputChannelData numSamples w
  end.

End Player.

(** ** What the routing contract says *)

(** The buffers [initialiseIoBuffers] writes to: the first [processorOuts]
    device outputs, then the scratch channels for the inputs in excess. *)
Definition slotTargets (outs : list ptr) (tempBuffer : AudioBuffer)
  (processorIns processorOuts : nat) : list ptr :=
  take processorOuts outs ++ take (processorIns - processorOuts) (ab_channels tempBuffer).

(** The contract's content of slot [i] for a block of [n] samples, read off
    the memory [h] the call started in. *)
Definition expectedSlot (ins : list ptr) (h : heap) (n processorIns i : nat)
  : option (list sample) :=
  if decide (processorIns ≤ i)%nat then Some (replicate n 0)
  else
    match ins with
    | [] => Some (replicate n 0)
    | _ :: _ => src ← ins !! (i mod length ins)%nat; take n <$> h !! src
    end.

(** [p] addresses a buffer of at least [n] samples. *)
Definition holdsSamples (h : heap) (n : nat) (p : ptr) : Prop :=
  ∃ d, h !! p = Some d ∧ (n ≤ length d)%nat.

(** The call is well defined: the arrays are long enough, the written
    buffers are pairwise distinct and none of them is a device input, and
    every buffer involved holds a block of samples. *)
Record RoutingReady (ins outs : list ptr) (numSamples : Z)
  (processorIns processorOuts : nat) (tempBuffer : AudioBuffer)
  (channels : list ptr) (h : heap) : Prop := {
  rr_numSamples : 0 ≤ numSamples < 2 ^ 31;
  rr_counts : Z.of_nat processorIns < 2 ^ 31;
  rr_channels : (processorIns `max` processorOuts ≤ length channels)%nat;
  rr_outs : (processorOuts ≤ length outs)%nat;
  rr_temp : (processorIns - processorOuts ≤ length (ab_channels tempBuffer))%nat;
  rr_distinct : NoDup (slotTargets outs tempBuffer processorIns processorOuts);
  rr_disjoint :
    Forall (λ p, p ∉ slotTargets outs tempBuffer processorIns processorOuts) ins;
  rr_targets :
    Forall (holdsSamples h (Z.to_nat numSamples))
           (slotTargets outs tempBuffer processorIns processorOuts);
  rr_ins : Forall (holdsSamples h (Z.to_nat numSamples)) ins
}.

(** The invariant of the loops after [k] slots have been set up. *)
Record RoutingInv (ins : list ptr) (targets : list ptr) (h : heap) (n processorIns : nat)
  (channels : list ptr) (k : nat) (st : IoState) : Prop := {
  ri_total : io_totalNumChans st = k;
  ri_length : length (io_channels st) = length channels;
  ri_slots : ∀ j, (j < k)%nat → io_channels st !! j = targets !! j;
  ri_kept : ∀ j, (k ≤ j)%nat → io_channels st !! j = channels !! j;
  ri_content : ∀ j p, (j < k)%nat → targets !! j = Some p →
               take n <$> io_heap st !! p = expectedSlot ins h n processorIns j;
  ri_frame : ∀ p, p ∉ take k targets → io_heap st !! p = h !! p;
  ri_holds : ∀ p, holdsSamples h n p → holdsSamples (io_heap st) n p
}.

(** The invariant of a loop that overwrites the first [n] samples of one
    buffer after the other: no buffer gets shorter than [n]. *)
Definition keepsBlocks (h0 : heap) (n : nat) (h : heap) : Prop :=
  ∀ p, holdsSamples h0 n p → holdsSamples h n p.

(** ** What the lifecycle contract says *)

Section Contract.
Context `{Collaborators}.

(** The candidate layouts of the negotiation, in the order the contract
    lists them: the device's counts; then, for a device with no or one
    input, the processor's default input count with the device's outputs,
    and the device's output count on both sides. *)
Definition negotiationCandidates (device : NumChannels) (defaultIns : Z)
  : list NumChannels :=
  if decide (ins device = 0 ∨ ins device = 1)
  then [device; mkNumChannels defaultIns (outs device);
        mkNumChannels (outs device) (outs device)]
  else [device].

(** The events appended to the trace between [w] and a later [w']. *)
Definition eventsSince (w w' : World) : list Event :=
  drop (length (trace w)) (trace w').

(** The calls of one hook made on processor [p] among [events]. *)
Definition callsOn (p : procId) (select : Hook → bool) (events : list Event) : list Event :=
  filter (λ e, match e with
               | ProcessorCall _ target hk => bool_decide (target = p) && select hk
               | _ => false
               end = true) events.

Definition isRelease (hk : Hook) : bool :=
  match hk with releaseResources => true | _ => false end.
Definition isPrepare (hk : Hook) : bool :=
  match hk with prepareToPlay _ _ => true | _ => false end.
Definition isSetPlayHead (hk : Hook) : bool :=
  match hk with setPlayHead _ => true | _ => false end.
Definition isSetPrecision (hk : Hook) : bool :=
  match hk with setProcessingPrecision _ => true | _ => false end.

Definition isMidiSend (e : Event) : bool :=
  match e with
  | sendBlockOfMessages _ _ _ | sendBlockOfMessagesNow _ _ => true
  | ProcessorCall _ _ _ => false
  end.

Definition isCallOf (select : Hook → bool) (e : Event) : bool :=
  match e with ProcessorCall _ _ hk => select hk | _ => false end.

(** The calls an attach of processor [p] makes on it, before the swap, when
    the device configuration is known. *)
Definition attachHooks (w : World) (p : procId) : list Hook :=
  let proc := processors w p in
  let pl := player w in
  let chosen :=
    (findMostSuitableLayout (set_defaultProcessorChannels (getBusesLayout proc) pl)
       proc).1 in
  [ if isMidiEffect proc
    then setRateAndBufferSizeDetails (sampleRate pl) (blockSize pl)
    else setPlayConfigDetails (ins chosen) (outs chosen) (sampleRate pl) (blockSize pl);
    setProcessingPrecision
      (if supportsDoublePrecisionProcessing proc && isDoublePrecision pl
       then doublePrecision else singlePrecision);
    prepareToPlay (sampleRate pl) (blockSize pl) ].

(** The calls an attach makes on the processor it attaches. *)
Definition attachCalls (w : World) (processorToPlay : option procId) : list Event :=
  match processorToPlay with
  | Some p =>
      if configurationKnown (player w)
      then ProcessorCall (processor (player w)) p <$> attachHooks w p
      else []
  | None => []
  end.

(** Two states of a processor object that give the player the same answers,
    the precision in use apart. *)
Record sameAnswers (a b : AudioProcessor) : Prop := {
  sa_isMidiEffect : isMidiEffect a = isMidiEffect b;
  sa_getBusesLayout : getBusesLayout a = getBusesLayout b;
  sa_checkBusesLayoutSupported : checkBusesLayoutSupported a = checkBusesLayoutSupported b;
  sa_supportsDouble :
    supportsDoublePrecisionProcessing a = supportsDoublePrecisionProcessing b;
  sa_isSuspended : isSuspended a = isSuspended b;
  sa_getPlayHead : getPlayHead a = getPlayHead b
}.

(** The processor an attach releases after the swap. *)
Definition releasedByAttach (w : World) : option procId :=
  if isPrepared (player w) then processor (player w) else None.

(** The callback is well defined on [w]: the routing is, the negotiated
    counts are non-negative [int]s, a hosted processor comes with a device,
    and every device output holds a block of samples. *)
Record BlockReady (inputChannelData outputChannelData : list ptr) (numSamples : Z)
  (w : World) : Prop := {
  br_ins : 0 ≤ ins (actualProcessorChannels (player w)) < 2 ^ 31;
  br_outs : 0 ≤ outs (actualProcessorChannels (player w)) < 2 ^ 31;
  br_routing :
    RoutingReady inputChannelData outputChannelData numSamples
      (Z.to_nat (ins (actualProcessorChannels (player w))))
      (Z.to_nat (outs (actualProcessorChannels (player w))))
      (tempBuffer (player w)) (channels (player w)) (memory w);
  br_device : is_Some (processor (player w)) → is_Some (currentDevice (player w));
  br_outputs : Forall (holdsSamples (memory w) (Z.to_nat numSamples)) outputChannelData
}.

(** Every device output channel holds [n] zeros. *)
Definition outputsSilent (outputChannelData : list ptr) (n : nat) (w : World) : Prop :=
  Forall (λ p, ∃ d, memory w !! p = Some d ∧ take n d = replicate n 0) outputChannelData.

End Contract.

(** ** The player as constructed, and a small world to run it in *)

(** The constructor; the members take the initial values the class
    declaration gives them. *)
Definition newPlayer `{Collaborators} (doDoublePrecisionProcessing : bool)
  (collector : MidiMessageCollector) : Player :=
  mkPlayer None 0%float 0 false doDoublePrecisionProcessing
    (mkNumChannels 0 0) (mkNumChannels 0 0) (mkNumChannels 0 0)
    [] (mkAudioBuffer [] 0) [] collector None 0 [] None None.

(** An allocator for the runs below: a resized buffer gets fresh, zeroed
    channels above every address in use. *)
Definition testSetSize (b : AudioBuffer) (newNumChannels newNumSamples : Z) (h : heap)
  : AudioBuffer * heap :=
  if decide (newNumChannels = getNumChannels b ∧ newNumSamples = ab_numSamples b)
  then (b, h)
  else
    let base := S (max_list ((map_to_list h).*1)) in
    let chans := seq base (Z.to_nat newNumChannels) in
    (mkAudioBuffer chans newNumSamples,
     foldr (λ c, insert c (replicate (Z.to_nat newNumSamples) 0))
           (foldr delete h (ab_channels b)) chans).

(** Collaborators for the runs below: a collector that hands over all it
    holds, and processors that negate the sign of every sample. *)
Definition testCollaborators : Collaborators := {|
  MidiMessageCollector := MidiBuffer;
  removeNextBlockOfMessages := λ pending dest _, ([], dest ++ pending);
  collectorReset := λ _ _, [];
  setSize := testSetSize;
  processBlockFloat := λ _ buffer midi, (map (map (λ x, Z.lxor x (2 ^ 31))) buffer, midi);
  processBlockDouble := λ _ buffer midi, (map (map (λ x, Z.lxor x (2 ^ 63))) buffer, midi)
|}.

(** Processor 1 accepts any layout; processor 2 is the same but suspended;
    processor 3 only accepts stereo in, stereo out, and already has a
    position source. *)
Definition testProcessors (p : procId) : AudioProcessor :=
  match p with
  | 2%nat => mkAudioProcessor false (mkNumChannels 2 2) (λ _, true) true true
               singlePrecision None
  | 3%nat => mkAudioProcessor false (mkNumChannels 2 2)
               (λ c, (ins c =? 2) && (outs c =? 2)) false false
               singlePrecision (Some (ExternalPlayHead 9))
  | _ => mkAudioProcessor false (mkNumChannels 2 2) (λ _, true) true false
           singlePrecision None
  end.

(** Device buffers: inputs at 10 and 11, outputs at 20 and 21, four
    samples each (1.0f is 1065353216, 2.0f is 1073741824). *)
Definition testMemory : gmap nat (list Z) :=
  list_to_map [ (10%nat, [1065353216; 1065353216; 1065353216; 1065353216]);
                (11%nat, [1073741824; 1073741824; 1073741824; 1073741824]);
                (20%nat, [7; 7; 7; 7]); (21%nat, [8; 8; 8; 8]) ].

Definition testWorld : World (H := testCollaborators) :=
  mkWorld (newPlayer (H := testCollaborators) false []) testProcessors testMemory [].

(** One input, two outputs, 44.1 kHz, blocks of four samples. *)
Definition testDevice : AudioIODevice :=
  mkAudioIODevice 44100%float 4 1 3 (Some 5%nat).

(** A device that reports no block size. *)
Definition idleDevice : AudioIODevice :=
  mkAudioIODevice 44100%float 0 1 3 (Some 5%nat).

(** The test world after processor [p] has been attached and the device has
    started. *)
Definition startedWorld (p : procId) : World (H := testCollaborators) :=
  audioDeviceAboutToStart (H := testCollaborators) testDevice
    (setProcessor (H := testCollaborators) (Some p) testWorld).

(** ** The unit test of the source file *)

(** The sample [(float) k]. *)
Definition floatOf (k : nat) : sample :=
  floatBits (binary_normalize 24 128 (Z.of_nat k) 0 false).

(** [getTestBuffer]: [numChannels] channels at the addresses from [base] on,
    channel [i] filled with the value [i + 1]. *)
Definition getTestBuffer (base numChannels numSamples : nat) : list (ptr * list sample) :=
  (λ i, ((base + i)%nat, replicate numSamples (floatOf (i + 1)))) <$> seq 0 numChannels.

(** One iteration of "Buffers are prepared correctly for a variety of
    channel layouts": the buffers, the call, and the check of every channel
    against the value the test expects. *)
Definition unitTestPasses (numIns numOuts numSystemInputs : nat) : bool :=
  let numSamples := 256%nat in
  let systemIns := getTestBuffer 100 numSystemInputs numSamples in
  let systemOuts := getTestBuffer 200 numOuts numSamples in
  let temp := getTestBuffer 300 (numIns `max` numOuts) numSamples in
  let channels := replicate (numIns `max` numOuts) nullptr in
  match initialiseIoBuffers systemIns.*1 systemOuts.*1 (Z.of_nat numSamples) numIns numOuts
          (mkAudioBuffer temp.*1 (Z.of_nat numSamples)) channels
          (list_to_map (systemIns ++ systemOuts ++ temp)) with
  | Some (channels', h) =>
      forallb (λ channelIndex,
        let value :=
          if decide (numIns ≤ channelIndex)%nat then floatOf 0
          else if decide (numSystemInputs = 0)%nat then floatOf 0
          else if decide (numSystemInputs = 1)%nat then floatOf 1
          else floatOf (channelIndex + 1) in
        bool_decide (slotSamples channels' h numSamples channelIndex
                     = Some (replicate numSamples value)))
        (seq 0 (length channels'))
  | None => false
  end.

(** Small buffers for single runs: channel [i] is filled with [i + 1]. *)
Definition test_heap : gmap nat (list Z) :=
  list_to_map [ (10%nat, [1; 1; 1]); (11%nat, [2; 2; 2]);
                (20%nat, [7; 7; 7]); (21%nat, [8; 8; 8]); (22%nat, [9; 9; 9]);
                (30%nat, [5; 5; 5]); (31%nat, [6; 6; 6]) ].

(** ** The rest of the file, and what its properties are stated with *)

(** [~AudioProcessorPlayer()] *)
Definition AudioProcessorPlayer_destructor `{Collaborators} (w : World) : World :=
  setProcessor None w.

(** A channel count: an [int] that is not negative. *)
Definition isCount (z : Z) : Prop := 0 ≤ z < 2 ^ 31.

Definition countLayout (c : NumChannels) : Prop := isCount (ins c) ∧ isCount (outs c).

(** What [prepareInputChannel (index)] does to the buffer of the current
    slot. *)
Definition inputOp (ins : list ptr) (numBytes : Z) (index : nat)
  : ptr → heap → option heap :=
  match ins with
  | [] => λ c, zeromem c numBytes
  | _ :: _ => λ c h, src ← ins !! (index mod length ins)%nat; memcpy c src numBytes h
  end.

(** The common shape of the four loop bodies of [initialiseIoBuffers]. *)
Definition slotBody (target : nat → option ptr) (op : nat → ptr → heap → option heap)
  (i : nat) (st : IoState) : option IoState :=
  st ← assignChannel (target i) st;
  st ← onCurrentChannel (op i) st;
  nextChannel st.

(** The pointer [initialiseIoBuffers] stores in slot [i]. *)
Definition slotTarget (outs : list ptr) (tempBuffer : AudioBuffer) (processorOuts i : nat)
  : option ptr :=
  if decide (i < processorOuts)%nat then outs !! i
  else getWritePointer tempBuffer (to_int (Z.of_nat (i - processorOuts))).

(** [h'] is [h] with the first [n] samples of the buffer at [c] overwritten. *)
Definition blockWritten (n : nat) (c : ptr) (h h' : heap) : Prop :=
  ∃ d new, h !! c = Some d ∧ h' = <[c := new]> h
           ∧ length new = length d ∧ drop n new = drop n d.

(** The assertion of [initialiseIoBuffers],
    [channels.size() >= jmax (processorIns, processorOuts)], on the
    arguments the callback passes for them:
    [(size_t) actualProcessorChannels.ins] and
    [(size_t) actualProcessorChannels.outs]. *)
Definition channelsHaveRoom `{Collaborators} (pl : Player) : Prop :=
  (Z.to_nat (to_size_t (ins (actualProcessorChannels pl)))
   `max` Z.to_nat (to_size_t (outs (actualProcessorChannels pl)))
   ≤ length (channels pl))%nat.

(** One active input, one active output. *)
Definition monoDevice : AudioIODevice :=
  mkAudioIODevice 44100%float 4 1 1 (Some 5%nat).

(** A layout outlives its processor: processor 1 is attached and started on
    [testDevice] (one input, two outputs), then detached; the device stops,
    and [monoDevice] starts. *)
Definition staleLayoutWorld : World (H := testCollaborators) :=
  audioDeviceAboutToStart (H := testCollaborators) monoDevice
    (audioDeviceStopped (H := testCollaborators)
       (setProcessor (H := testCollaborators) None (startedWorld 1))).

(** The MIDI output calls of one block. *)
Definition midiSends (out : option MidiOutput) (midi : MidiBuffer) (rate : double)
  : list Event :=
  match out with
  | Some o =>
      [if isBackgroundThreadRunning o
       then sendBlockOfMessages (midiOutputId o) midi rate
       else sendBlockOfMessagesNow (midiOutputId o) midi]
  | None => []
  end.

(** What [processBlock] of processor [p] makes of a block of [float]
    samples and the block's MIDI: through [conversionBuffer] and back when
    the processor runs in double precision. *)
Definition processedBlock `{Collaborators} (p : procId) (usingDouble : bool)
  (buffer : list (list sample)) (midi : MidiBuffer) : list (list sample) * MidiBuffer :=
  if usingDouble then
    let '(converted, midi) :=
      processBlockDouble p (map (map floatToDouble) buffer) midi in
    (map (map doubleToFloat) converted, midi)
  else processBlockFloat p buffer midi.

(** The calls of one block on the hosted processor [p] and on the MIDI
    output, in order, read off the state [w] the callback starts in;
    [midiOut] is the MIDI the processor leaves. *)
Definition blockCalls `{Collaborators} (w : World) (p : procId) (device : AudioIODevice)
  (hostTimeNs : option Z) (midiOut : MidiBuffer) : list Event :=
  let playHead :=
    PlayHead hostTimeNs (sampleCount (player w))
      (PrimFloat.div (uint64_to_double (sampleCount (player w))) (sampleRate (player w))) in
  let useThisPlayhead :=
    match getPlayHead (processors w p) with None => true | Some _ => false end in
  (if decide (currentWorkgroup (player w) ≠ getWorkgroup device)
   then [ProcessorCall (Some p) p (audioWorkgroupContextChanged (getWorkgroup device))]
   else [])
  ++ (if useThisPlayhead then [ProcessorCall (Some p) p (setPlayHead (Some playHead))]
      else [])
  ++ (if isSuspended (processors w p) then []
      else ProcessorCall (Some p) p processBlock
           :: midiSends (midiOutput (player w)) midiOut (sampleRate (player w)))
  ++ (if useThisPlayhead then [ProcessorCall (Some p) p (setPlayHead None)] else []).

(** [k] callbacks in a row on the same device buffers, as a running audio
    device makes them. *)
Fixpoint runBlocks `{Collaborators} (k : nat) (inputChannelData outputChannelData : list ptr)
  (numSamples : Z) (hostTimeNs : option Z) (w : World) : option World :=
  match k with
  | O => Some w
  | S k =>
      w ← audioDeviceIOCallbackWithContext inputChannelData outputChannelData numSamples
            hostTimeNs w;
      runBlocks k inputChannelData outputChannelData numSamples hostTimeNs w
  end.

(** Processor 4 is a MIDI effect; the others are as in [testProcessors]. *)
Definition midiEffectProcessors (p : procId) : AudioProcessor :=
  match p with
  | 4%nat => mkAudioProcessor true (mkNumChannels 0 0) (λ _, false) false false
               singlePrecision None
  | _ => testProcessors p
  end.

(** The device started with no processor attached. *)
Definition deviceOnlyWorld : World (H := testCollaborators) :=
  audioDeviceAboutToStart (H := testCollaborators) testDevice
    (mkWorld (newPlayer (H := testCollaborators) false []) midiEffectProcessors
             testMemory []).

(** Then a MIDI output is set and the MIDI effect attached. *)
Definition midiEffectWorld : World (H := testCollaborators) :=
  setProcessor (H := testCollaborators) (Some 4%nat)
    (setMidiOutput (H := testCollaborators) (Some (mkMidiOutput 7 true)) deviceOnlyWorld).

(** The members of the player a block of audio has no business changing. *)
Record sameConfiguration `{Collaborators} (pl pl' : Player) : Prop := {
  sc_processor : processor pl' = processor pl;
  sc_sampleRate : sampleRate pl' = sampleRate pl;
  sc_blockSize : blockSize pl' = blockSize pl;
  sc_isPrepared : isPrepared pl' = isPrepared pl;
  sc_isDoublePrecision : isDoublePrecision pl' = isDoublePrecision pl;
  sc_deviceChannels : deviceChannels pl' = deviceChannels pl;
  sc_defaultProcessorChannels : defaultProcessorChannels pl' = defaultProcessorChannels pl;
  sc_actualProcessorChannels : actualProcessorChannels pl' = actualProcessorChannels pl;
  sc_tempBuffer : tempBuffer pl' = tempBuffer pl;
  sc_midiOutput : midiOutput pl' = midiOutput pl;
  sc_currentDevice : currentDevice pl' = currentDevice pl;
  sc_channels : length (channels pl') = length (channels pl)
}.

(** * Properties *)

(** ** Loops and memory operations *)

Lemma for_each_seq_inv {St : Type} (body : nat → St → option St) (I : nat → St → Prop) n :
  ∀ lo s, I lo s →
  (∀ i s, (lo ≤ i < lo + n)%nat → I i s → ∃ s', body i s = Some s' ∧ I (S i) s') →
  ∃ s', for_each body (seq lo n) s = Some s' ∧ I (lo + n)%nat s'.
Proof.
  induction n as [|n IH]; intros lo s Hs Hstep; simpl.
  - exists s. by rewrite Nat.add_0_r.
  - destruct (Hstep lo s) as (s1 & -> & H1); [lia | done |]. simpl.
    destruct (IH (S lo) s1) as (s' & -> & H'); [done | |].
    + intros i s2 ? ?. apply Hstep; [lia | done].
    + exists s'. split; [done|]. by replace (lo + S n)%nat with (S lo + n)%nat by lia.
Qed.

Lemma for_loop_inv {St : Type} (body : nat → St → option St) (I : nat → St → Prop) lo hi s :
  (lo ≤ hi)%nat → I lo s →
  (∀ i s, (lo ≤ i < hi)%nat → I i s → ∃ s', body i s = Some s' ∧ I (S i) s') →
  ∃ s', for_loop lo hi body s = Some s' ∧ I hi s'.
Proof.
  intros Hle Hs Hstep. unfold for_loop.
  destruct (for_each_seq_inv body I (hi - lo) lo s) as (s' & Hrun & H'); [done | |].
  - intros i s2 ? ?. apply Hstep; [lia | done].
  - exists s'. split; [done|]. by replace hi with (lo + (hi - lo))%nat by lia.
Qed.

Lemma numBytes_samples numSamples :
  0 ≤ numSamples < 2 ^ 31 →
  Z.to_nat (to_size_t (to_size_t numSamples * sizeof_float) / sizeof_float)
  = Z.to_nat numSamples.
Proof.
  intros Hn. unfold to_size_t, sizeof_float.
  rewrite (Z.mod_small numSamples) by lia.
  rewrite Z.mod_small by lia.
  by rewrite Z.div_mul.
Qed.

Lemma to_int_small (k : nat) : Z.of_nat k < 2 ^ 31 → to_int (Z.of_nat k) = Z.of_nat k.
Proof.
  intros Hk. unfold to_int.
  rewrite Z.mod_small by lia.
  destruct (Z.ltb_spec (Z.of_nat k) (2 ^ 31)); [done | lia].
Qed.

Lemma zeromem_holds h p numBytes d :
  h !! p = Some d → (Z.to_nat (numBytes / sizeof_float) ≤ length d)%nat →
  zeromem p numBytes h
  = Some (<[p := replicate (Z.to_nat (numBytes / sizeof_float)) 0
                 ++ drop (Z.to_nat (numBytes / sizeof_float)) d]> h).
Proof. intros Hd Hlen. unfold zeromem. rewrite Hd. simpl. by rewrite decide_True. Qed.

Lemma memcpy_holds h dst src numBytes d s :
  h !! dst = Some d → h !! src = Some s →
  (Z.to_nat (numBytes / sizeof_float) ≤ length d)%nat →
  (Z.to_nat (numBytes / sizeof_float) ≤ length s)%nat →
  memcpy dst src numBytes h
  = Some (<[dst := take (Z.to_nat (numBytes / sizeof_float)) s
                   ++ drop (Z.to_nat (numBytes / sizeof_float)) d]> h).
Proof.
  intros Hd Hs Hld Hls. unfold memcpy. rewrite Hd. simpl. rewrite Hs. simpl.
  by rewrite decide_True.
Qed.

(** ** Routing: the loop invariant *)

Section Routing.
Variables (ins targets : list ptr) (h : heap) (n processorIns : nat) (channels : list ptr).
Hypothesis targets_distinct : NoDup targets.

Lemma routing_start : RoutingInv ins targets h n processorIns channels 0 (mkIoState channels 0 h).
Proof. split; simpl; try done; intros; lia. Qed.

Lemma routing_target_untouched k st t :
  RoutingInv ins targets h n processorIns channels k st →
  targets !! k = Some t → io_heap st !! t = h !! t.
Proof.
  intros Hinv Ht. apply (ri_frame _ _ _ _ _ _ _ _ Hinv).
  intros Hin. apply list_elem_of_lookup in Hin as [j Hj].
  apply lookup_take_Some in Hj as [Hj Hjk].
  assert (j = k) by (eapply NoDup_lookup; eauto). lia.
Qed.

Lemma routing_input_untouched k st p :
  RoutingInv ins targets h n processorIns channels k st →
  p ∉ targets → io_heap st !! p = h !! p.
Proof.
  intros Hinv Hp. apply (ri_frame _ _ _ _ _ _ _ _ Hinv).
  intros Hin. apply Hp. by apply (subseteq_take k targets).
Qed.

(** One slot: point it at [t], fill the buffer at [t], move on. *)
Lemma routing_step k st t (op : ptr → heap → option heap) new :
  RoutingInv ins targets h n processorIns channels k st →
  targets !! k = Some t →
  (k < length channels)%nat →
  op t (io_heap st) = Some (<[t := new]> (io_heap st)) →
  (n ≤ length new)%nat →
  expectedSlot ins h n processorIns k = Some (take n new) →
  ∃ st', (st1 ← assignChannel (Some t) st;
          st2 ← onCurrentChannel op st1;
          nextChannel st2) = Some st'
         ∧ RoutingInv ins targets h n processorIns channels (S k) st'.
Proof.
  intros Hinv Ht Hk Hop Hnew Hexp.
  destruct Hinv as [Htot Hlen Hslots Hkept Hcontent Hframe Hholds].
  unfold assignChannel. simpl. rewrite decide_True by lia. simpl.
  unfold onCurrentChannel. simpl.
  rewrite Htot, list_lookup_insert_eq by lia. simpl.
  rewrite Hop. simpl. eexists. split; [done|].
  split; simpl.
  - done.
  - by rewrite length_insert.
  - intros j Hj. destruct (decide (j = k)) as [->|Hne].
    + rewrite list_lookup_insert_eq by lia. done.
    + rewrite list_lookup_insert_ne by done. apply Hslots. lia.
  - intros j Hj. rewrite list_lookup_insert_ne by lia. apply Hkept. lia.
  - intros j p Hj Hp. destruct (decide (j = k)) as [->|Hne].
    + assert (p = t) as -> by congruence.
      rewrite lookup_insert_eq. simpl. by rewrite Hexp.
    + assert (p ≠ t) as Hpt.
      { intros ->. apply Hne. eapply NoDup_lookup; eauto. }
      rewrite lookup_insert_ne by done. apply Hcontent; [lia | done].
  - intros p Hp.
    assert (p ≠ t) as Hpt.
    { intros ->. apply Hp. apply list_elem_of_lookup. exists k.
      apply lookup_take_Some. split; [done | lia]. }
    rewrite lookup_insert_ne by done. apply Hframe.
    intros Hin. apply Hp. apply list_elem_of_lookup in Hin as [j Hj].
    apply lookup_take_Some in Hj as [Hj Hjk].
    apply list_elem_of_lookup. exists j. apply lookup_take_Some. split; [done | lia].
  - intros p Hp. destruct (decide (p = t)) as [->|Hpt].
    + exists new. by rewrite lookup_insert_eq.
    + unfold holdsSamples. rewrite lookup_insert_ne by done. by apply Hholds.
Qed.

End Routing.

(** ** Routing: the loop bodies *)

Section RoutingBodies.
Variables (ins outs : list ptr) (numSamples : Z) (processorIns processorOuts : nat).
Variables (tempBuffer : AudioBuffer) (channels : list ptr) (h : heap).
Hypothesis ready :
  RoutingReady ins outs numSamples processorIns processorOuts tempBuffer channels h.

Let targets := slotTargets outs tempBuffer processorIns processorOuts.
Let n := Z.to_nat numSamples.
Let numBytes := to_size_t (to_size_t numSamples * sizeof_float).

Lemma targets_length : length targets = (processorIns `max` processorOuts)%nat.
Proof.
  subst targets. unfold slotTargets. rewrite List.length_app, !length_take.
  pose proof (rr_outs _ _ _ _ _ _ _ _ ready).
  pose proof (rr_temp _ _ _ _ _ _ _ _ ready). lia.
Qed.

Lemma targets_lookup_outs i :
  (i < processorOuts)%nat → targets !! i = outs !! i.
Proof.
  intros Hi. subst targets. unfold slotTargets.
  pose proof (rr_outs _ _ _ _ _ _ _ _ ready).
  rewrite lookup_app_l by (rewrite length_take; lia).
  by rewrite lookup_take_lt.
Qed.

Lemma targets_lookup_temp i :
  (processorOuts ≤ i < processorIns)%nat →
  targets !! i
  = getWritePointer tempBuffer (to_int (Z.of_nat (i - processorOuts))).
Proof.
  intros Hi. subst targets. unfold slotTargets, getWritePointer.
  pose proof (rr_outs _ _ _ _ _ _ _ _ ready).
  pose proof (rr_counts _ _ _ _ _ _ _ _ ready).
  rewrite to_int_small by lia.
  destruct (Z.leb_spec 0 (Z.of_nat (i - processorOuts))); [|lia].
  rewrite Nat2Z.id, lookup_app_r by (rewrite length_take; lia).
  rewrite length_take, Nat.min_l by lia.
  by rewrite lookup_take_lt by lia.
Qed.

Lemma targets_lookup_is_Some i :
  (i < processorIns `max` processorOuts)%nat → is_Some (targets !! i).
Proof. intros Hi. apply lookup_lt_is_Some_2. by rewrite targets_length. Qed.

(** A slot below [processorIns]: [prepareInputChannel] seeds it. *)
Lemma seeded_slot k st t :
  RoutingInv ins targets h n processorIns channels k st →
  targets !! k = Some t → (k < processorIns)%nat →
  ∃ st', (st1 ← assignChannel (Some t) st;
          st2 ← prepareInputChannel ins numBytes k st1;
          nextChannel st2) = Some st'
         ∧ RoutingInv ins targets h n processorIns channels (S k) st'.
Proof.
  intros Hinv Ht Hk.
  pose proof (rr_distinct _ _ _ _ _ _ _ _ ready) as Hnd.
  pose proof (rr_channels _ _ _ _ _ _ _ _ ready) as Hch.
  assert (Z.to_nat (numBytes / sizeof_float) = n) as Hbytes
    by apply numBytes_samples, (rr_numSamples _ _ _ _ _ _ _ _ ready).
  destruct (Forall_lookup_1 _ _ _ _ (rr_targets _ _ _ _ _ _ _ _ ready) Ht)
    as (d & Hd & Hdlen).
  pose proof (routing_target_untouched _ _ _ _ _ _ Hnd _ _ _ Hinv Ht) as Hfresh.
  destruct ins as [|p0 ins']; unfold prepareInputChannel; cbv iota.
  - eapply routing_step;
      [exact Hnd | exact Hinv | exact Ht | clear -Hch Hk; lia | | |].
    + rewrite (zeromem_holds _ _ _ d); [done | congruence | by rewrite Hbytes].
    + rewrite Hbytes, List.length_app, length_replicate. clear. lia.
    + rewrite Hbytes.
      unfold expectedSlot. rewrite decide_False by (clear -Hk; lia).
      by rewrite take_app_length' by (by rewrite length_replicate).
  - assert (is_Some ((p0 :: ins') !! (k mod length (p0 :: ins'))%nat)) as [src Hsrc].
    { apply lookup_lt_is_Some_2. apply Nat.mod_upper_bound. simpl. lia. }
    destruct (Forall_lookup_1 _ _ _ _ (rr_ins _ _ _ _ _ _ _ _ ready) Hsrc)
      as (s & Hs & Hslen).
    pose proof (Forall_lookup_1 _ _ _ _ (rr_disjoint _ _ _ _ _ _ _ _ ready) Hsrc)
      as Hout.
    pose proof (routing_input_untouched _ _ _ _ _ _ _ _ _ Hinv Hout) as Hsame.
    eapply routing_step;
      [exact Hnd | exact Hinv | exact Ht | clear -Hch Hk; lia | | |].
    + cbv beta. rewrite Hsrc. cbn [mbind option_bind].
      rewrite (memcpy_holds _ _ _ _ d s); [done | congruence | congruence | |];
        by rewrite Hbytes.
    + rewrite Hbytes, List.length_app, length_take_le by done. clear. lia.
    + rewrite Hbytes.
      unfold expectedSlot. rewrite decide_False by (clear -Hk; lia).
      cbv iota. rewrite Hsrc. cbn [mbind option_bind]. rewrite Hs. cbn [fmap option_fmap option_map].
      by rewrite take_app_length' by (by rewrite length_take_le).
Qed.

(** A slot from [processorIns] on: it is zeroed. *)
Lemma zeroed_slot k st t :
  RoutingInv ins targets h n processorIns channels k st →
  targets !! k = Some t → (processorIns ≤ k)%nat →
  ∃ st', (st1 ← assignChannel (Some t) st;
          st2 ← onCurrentChannel (λ c, zeromem c numBytes) st1;
          nextChannel st2) = Some st'
         ∧ RoutingInv ins targets h n processorIns channels (S k) st'.
Proof.
  intros Hinv Ht Hk.
  pose proof (rr_distinct _ _ _ _ _ _ _ _ ready) as Hnd.
  pose proof (rr_channels _ _ _ _ _ _ _ _ ready) as Hch.
  assert (Z.to_nat (numBytes / sizeof_float) = n) as Hbytes
    by apply numBytes_samples, (rr_numSamples _ _ _ _ _ _ _ _ ready).
  destruct (Forall_lookup_1 _ _ _ _ (rr_targets _ _ _ _ _ _ _ _ ready) Ht)
    as (d & Hd & Hdlen).
  pose proof (routing_target_untouched _ _ _ _ _ _ Hnd _ _ _ Hinv Ht) as Hfresh.
  assert (k < length targets)%nat as Hlt by (apply lookup_lt_is_Some; eauto).
  rewrite targets_length in Hlt.
  eapply routing_step;
    [exact Hnd | exact Hinv | exact Ht | clear -Hch Hlt; lia | | |].
  - rewrite (zeromem_holds _ _ _ d); [done | congruence | by rewrite Hbytes].
  - rewrite Hbytes, List.length_app, length_replicate. clear. lia.
  - rewrite Hbytes.
    unfold expectedSlot. rewrite decide_True by (clear -Hk; lia).
    by rewrite take_app_length' by (by rewrite length_replicate).
Qed.

End RoutingBodies.

(** ** Routing: the whole call *)

Lemma initialiseIoBuffers_runs ins outs numSamples processorIns processorOuts
    tempBuffer channels h :
  RoutingReady ins outs numSamples processorIns processorOuts tempBuffer channels h →
  ∃ st,
    initialiseIoBuffers ins outs numSamples processorIns processorOuts tempBuffer
      channels h = Some (io_channels st, io_heap st)
    ∧ RoutingInv ins (slotTargets outs tempBuffer processorIns processorOuts) h
        (Z.to_nat numSamples) processorIns channels
        (processorIns `max` processorOuts) st.
Proof.
  intros ready. unfold initialiseIoBuffers.
  set (targets := slotTargets outs tempBuffer processorIns processorOuts).
  set (Inv := RoutingInv ins targets h (Z.to_nat numSamples) processorIns channels).
  destruct (decide (processorOuts < processorIns)%nat) as [Hlt|Hge].
  - edestruct (for_loop_inv (St := IoState)) with (I := Inv) (lo := 0%nat)
      (hi := processorOuts) as (st1 & -> & H1);
      [lia | apply routing_start | |].
    { intros i st [_ Hi] Hinv.
      destruct (targets_lookup_is_Some _ _ _ _ _ _ _ _ ready i) as [t Ht]; [lia|].
      rewrite <- (targets_lookup_outs _ _ _ _ _ _ _ _ ready) by done.
      rewrite Ht. eapply seeded_slot; eauto. lia. }
    cbn [mbind option_bind].
    edestruct (for_loop_inv (St := IoState)) with (I := Inv) (lo := processorOuts)
      (hi := processorIns) (s := st1) as (st2 & -> & H2);
      [lia | done | |].
    { intros i st [Hlo Hi] Hinv.
      destruct (targets_lookup_is_Some _ _ _ _ _ _ _ _ ready i) as [t Ht]; [lia|].
      rewrite <- (targets_lookup_temp _ _ _ _ _ _ _ _ ready) by done.
      rewrite Ht. eapply seeded_slot; eauto. }
    cbn [mbind option_bind]. exists st2. split; [done|].
    by replace (processorIns `max` processorOuts)%nat with processorIns by lia.
  - edestruct (for_loop_inv (St := IoState)) with (I := Inv) (lo := 0%nat)
      (hi := processorIns) as (st1 & -> & H1);
      [lia | apply routing_start | |].
    { intros i st [_ Hi] Hinv.
      destruct (targets_lookup_is_Some _ _ _ _ _ _ _ _ ready i) as [t Ht]; [lia|].
      rewrite <- (targets_lookup_outs _ _ _ _ _ _ _ _ ready) by lia.
      rewrite Ht. eapply seeded_slot; eauto. }
    cbn [mbind option_bind].
    edestruct (for_loop_inv (St := IoState)) with (I := Inv) (lo := processorIns)
      (hi := processorOuts) (s := st1) as (st2 & -> & H2);
      [lia | done | |].
    { intros i st [Hlo Hi] Hinv.
      destruct (targets_lookup_is_Some _ _ _ _ _ _ _ _ ready i) as [t Ht]; [lia|].
      rewrite <- (targets_lookup_outs _ _ _ _ _ _ _ _ ready) by lia.
      rewrite Ht. eapply zeroed_slot; eauto. }
    cbn [mbind option_bind]. exists st2. split; [done|].
    by replace (processorIns `max` processorOuts)%nat with processorOuts by lia.
Qed.

Lemma slot_as_expected ins targets h n processorIns channels k st i :
  RoutingInv ins targets h n processorIns channels k st →
  (i < k)%nat → is_Some (targets !! i) →
  slotSamples (io_channels st) (io_heap st) n i = expectedSlot ins h n processorIns i.
Proof.
  intros Hinv Hi [t Ht]. unfold slotSamples.
  rewrite (ri_slots _ _ _ _ _ _ _ _ Hinv) by done. rewrite Ht. simpl.
  by apply (ri_content _ _ _ _ _ _ _ _ Hinv i).
Qed.

(** C1.  Routing correctness.  For all negotiated counts [processorIns],
    [processorOuts] and every number of device inputs, whenever the call is
    well defined it returns, and of the [max processorIns processorOuts]
    slots it has set up for a block of [numSamples] samples: every slot from
    [processorIns] on holds zeros; with no device input every slot below
    [processorIns] holds zeros; with exactly one device input every slot
    below [processorIns] holds a copy of that input; and in general slot
    [i] below [processorIns] holds a copy of device input
    [i mod (number of device inputs)].  The device inputs themselves are
    left as they were. *)
Theorem initialiseIoBuffers_routing ins outs numSamples processorIns processorOuts
    tempBuffer channels h :
  RoutingReady ins outs numSamples processorIns processorOuts tempBuffer channels h →
  ∃ channels' h',
    initialiseIoBuffers ins outs numSamples processorIns processorOuts tempBuffer
      channels h = Some (channels', h')
    ∧ (∀ i, (processorIns ≤ i < processorIns `max` processorOuts)%nat →
         slotSamples channels' h' (Z.to_nat numSamples) i
         = Some (replicate (Z.to_nat numSamples) 0))
    ∧ (ins = [] → ∀ i, (i < processorIns)%nat →
         slotSamples channels' h' (Z.to_nat numSamples) i
         = Some (replicate (Z.to_nat numSamples) 0))
    ∧ (∀ single, ins = [single] → ∀ i, (i < processorIns)%nat →
         ∃ d, h !! single = Some d ∧ h' !! single = Some d
              ∧ slotSamples channels' h' (Z.to_nat numSamples) i
                = Some (take (Z.to_nat numSamples) d))
    ∧ (ins ≠ [] → ∀ i, (i < processorIns)%nat →
         ∃ src d, ins !! (i mod length ins)%nat = Some src
                  ∧ h !! src = Some d ∧ h' !! src = Some d
                  ∧ slotSamples channels' h' (Z.to_nat numSamples) i
                    = Some (take (Z.to_nat numSamples) d)).
Proof.
  intros ready.
  destruct (initialiseIoBuffers_runs _ _ _ _ _ _ _ _ ready) as (st & Hrun & Hinv).
  exists (io_channels st), (io_heap st). split; [done|].
  assert (∀ i, (i < processorIns `max` processorOuts)%nat →
            slotSamples (io_channels st) (io_heap st) (Z.to_nat numSamples) i
            = expectedSlot ins h (Z.to_nat numSamples) processorIns i) as Hslot.
  { intros i Hi. eapply slot_as_expected; eauto.
    by apply (targets_lookup_is_Some _ _ _ _ _ _ _ _ ready). }
  assert (∀ i, (i < processorIns)%nat → ins ≠ [] →
            ∃ src d, ins !! (i mod length ins)%nat = Some src
                     ∧ h !! src = Some d ∧ io_heap st !! src = Some d
                     ∧ slotSamples (io_channels st) (io_heap st) (Z.to_nat numSamples) i
                       = Some (take (Z.to_nat numSamples) d)) as Hcopy.
  { intros i Hi Hne.
    assert (is_Some (ins !! (i mod length ins)%nat)) as [src Hsrc].
    { apply lookup_lt_is_Some_2, Nat.mod_upper_bound. by destruct ins. }
    destruct (Forall_lookup_1 _ _ _ _ (rr_ins _ _ _ _ _ _ _ _ ready) Hsrc)
      as (d & Hd & _).
    pose proof (Forall_lookup_1 _ _ _ _ (rr_disjoint _ _ _ _ _ _ _ _ ready) Hsrc)
      as Hout.
    exists src, d. split_and!; [done | done | |].
    - rewrite <- Hd. apply (ri_frame _ _ _ _ _ _ _ _ Hinv).
      intros Hin. apply Hout. by apply (subseteq_take _ _ _ Hin).
    - rewrite Hslot by lia. unfold expectedSlot.
      rewrite decide_False by lia. destruct ins; [done|].
      rewrite Hsrc. simpl. by rewrite Hd. }
  split_and!.
  - intros i Hi. rewrite Hslot by lia. unfold expectedSlot. by rewrite decide_True by lia.
  - intros -> i Hi. rewrite Hslot by lia. unfold expectedSlot.
    by rewrite decide_False by lia.
  - intros single -> i Hi.
    destruct (Hcopy i Hi) as (src & d & Hsrc & Hd & Hd' & Hs); [done|].
    change (length [single]) with 1%nat in Hsrc.
    rewrite Nat.mod_1_r in Hsrc. injection Hsrc as <-. eauto.
  - intros Hne i Hi. by apply Hcopy.
Qed.

(** ** Control operations: what an attach does *)

Section ControlOperations.
Context `{Collaborators}.

Lemma trace_call p hk w :
  trace (call p hk w) = trace w ++ [ProcessorCall (processor (player w)) p hk].
Proof. reflexivity. Qed.

Lemma player_call p hk w : player (call p hk w) = player w.
Proof. reflexivity. Qed.

Lemma processors_call p hk w q :
  processors (call p hk w) q
  = if decide (q = p) then applyHook hk (processors w p) else processors w q.
Proof. reflexivity. Qed.

Lemma processors_call_same p hk w :
  processors (call p hk w) p = applyHook hk (processors w p).
Proof. rewrite processors_call. by rewrite decide_True. Qed.

Lemma resizeChannels_shape w :
  ∃ ch tb h,
    resizeChannels w
    = set_memory h (update (λ pl, set_tempBuffer tb (set_channels ch pl)) w).
Proof. unfold resizeChannels. destruct (setSize _ _ _ _) as [tb h]. eauto. Qed.

Lemma prepareProcessor_trace p w :
  trace (prepareProcessor p w)
  = trace w ++ (ProcessorCall (processor (player w)) p <$> attachHooks w p).
Proof.
  unfold prepareProcessor, attachHooks. cbv zeta.
  rewrite !trace_call, !player_call, !processors_call_same. simpl.
  rewrite <- !app_assoc. simpl.
  destruct (isMidiEffect (processors w p)); reflexivity.
Qed.

Lemma prepareProcessor_player p w :
  player (prepareProcessor p w)
  = set_actualProcessorChannels
      (findMostSuitableLayout
         (set_defaultProcessorChannels (getBusesLayout (processors w p)) (player w))
         (processors w p)).1
      (set_defaultProcessorChannels (getBusesLayout (processors w p)) (player w)).
Proof. reflexivity. Qed.

Lemma prepareProcessor_precision p w :
  processingPrecision (processors (prepareProcessor p w) p)
  = if supportsDoublePrecisionProcessing (processors w p) && isDoublePrecision (player w)
    then doublePrecision else singlePrecision.
Proof.
  unfold prepareProcessor. cbv zeta.
  rewrite !processors_call_same, !player_call. simpl.
  destruct (isMidiEffect (processors w p)); reflexivity.
Qed.

Lemma swapProcessor_trace processorToPlay w :
  trace (swapProcessor processorToPlay w)
  = trace w
    ++ from_option (λ old, [ProcessorCall processorToPlay old releaseResources]) []
         (releasedByAttach w).
Proof.
  unfold swapProcessor, releasedByAttach. cbv zeta.
  destruct (resizeChannels_shape
              (update (set_isPrepared true) (update (set_processor processorToPlay) w)))
    as (ch & tb & h & ->).
  destruct (isPrepared (player w)); [destruct (processor (player w))|]; simpl;
    by rewrite ?app_nil_r.
Qed.

Lemma swapProcessor_player processorToPlay w :
  ∃ ch tb,
    player (swapProcessor processorToPlay w)
    = set_tempBuffer tb
        (set_channels ch (set_isPrepared true (set_processor processorToPlay (player w)))).
Proof.
  unfold swapProcessor. cbv zeta.
  destruct (resizeChannels_shape
              (update (set_isPrepared true) (update (set_processor processorToPlay) w)))
    as (ch & tb & h & ->).
  exists ch, tb.
  by destruct (isPrepared (player w)); [destruct (processor (player w))|].
Qed.

Lemma swapProcessor_processors processorToPlay w q :
  processors (swapProcessor processorToPlay w) q = processors w q.
Proof.
  unfold swapProcessor. cbv zeta.
  destruct (resizeChannels_shape
              (update (set_isPrepared true) (update (set_processor processorToPlay) w)))
    as (ch & tb & h & ->).
  destruct (isPrepared (player w)); [destruct (processor (player w)) as [old|]|];
    try reflexivity.
  rewrite processors_call. by destruct (decide (q = old)) as [->|].
Qed.

Lemma attachFrom_trace processorToPlay w :
  trace (attachFrom processorToPlay w)
  = trace w ++ attachCalls w processorToPlay
    ++ from_option (λ old, [ProcessorCall processorToPlay old releaseResources]) []
         (releasedByAttach w).
Proof.
  unfold attachFrom, attachCalls. rewrite swapProcessor_trace.
  destruct processorToPlay as [p|]; [|done].
  destruct (configurationKnown (player w)); [|done].
  rewrite prepareProcessor_trace. unfold releasedByAttach.
  rewrite prepareProcessor_player. simpl. by rewrite <- app_assoc.
Qed.

Lemma attachFrom_player processorToPlay w :
  ∃ ch tb default actual,
    player (attachFrom processorToPlay w)
    = set_tempBuffer tb
        (set_channels ch
           (set_isPrepared true
              (set_processor processorToPlay
                 (set_actualProcessorChannels actual
                    (set_defaultProcessorChannels default (player w)))))).
Proof.
  unfold attachFrom.
  match goal with |- context [swapProcessor ?a ?b] =>
    destruct (swapProcessor_player a b) as (ch & tb & ->) end.
  exists ch, tb.
  destruct processorToPlay as [p|];
    [destruct (configurationKnown (player w))|].
  - rewrite prepareProcessor_player. eauto.
  - exists (defaultProcessorChannels (player w)), (actualProcessorChannels (player w)).
    by destruct (player w).
  - exists (defaultProcessorChannels (player w)), (actualProcessorChannels (player w)).
    by destruct (player w).
Qed.

Lemma setProcessor_unfold w processorToPlay :
  processor (player w) ≠ processorToPlay →
  setProcessor processorToPlay w
  = attachFrom processorToPlay
      (update (set_currentWorkgroup None) (update (set_sampleCount 0) w)).
Proof. intros Hne. unfold setProcessor. by rewrite decide_False. Qed.

(** An attach of a handle other than the hosted one. *)
Lemma setProcessor_trace w processorToPlay :
  processor (player w) ≠ processorToPlay →
  trace (setProcessor processorToPlay w)
  = trace w ++ attachCalls w processorToPlay
    ++ from_option (λ old, [ProcessorCall processorToPlay old releaseResources]) []
         (releasedByAttach w).
Proof.
  intros Hne. rewrite setProcessor_unfold by done. rewrite attachFrom_trace.
  reflexivity.
Qed.

Lemma setProcessor_player w processorToPlay :
  processor (player w) ≠ processorToPlay →
  processor (player (setProcessor processorToPlay w)) = processorToPlay
  ∧ isPrepared (player (setProcessor processorToPlay w)) = true
  ∧ sampleCount (player (setProcessor processorToPlay w)) = 0
  ∧ sampleRate (player (setProcessor processorToPlay w)) = sampleRate (player w)
  ∧ blockSize (player (setProcessor processorToPlay w)) = blockSize (player w)
  ∧ isDoublePrecision (player (setProcessor processorToPlay w))
    = isDoublePrecision (player w)
  ∧ deviceChannels (player (setProcessor processorToPlay w)) = deviceChannels (player w).
Proof.
  intros Hne. rewrite setProcessor_unfold by done.
  match goal with |- context [attachFrom ?a ?b] =>
    destruct (attachFrom_player a b) as (ch & tb & default & actual & ->) end.
  done.
Qed.

Lemma sameAnswers_refl a : sameAnswers a a.
Proof. by split. Qed.

Lemma sameAnswers_trans a b c : sameAnswers a b → sameAnswers b c → sameAnswers a c.
Proof. intros [] []. split; congruence. Qed.

Lemma call_sameAnswers p hk w q :
  isSetPlayHead hk = false → sameAnswers (processors w q) (processors (call p hk w) q).
Proof.
  intros Hhk. rewrite processors_call.
  destruct (decide (q = p)) as [->|]; [|apply sameAnswers_refl].
  by destruct hk.
Qed.

Lemma prepareProcessor_sameAnswers p w q :
  sameAnswers (processors w q) (processors (prepareProcessor p w) q).
Proof.
  unfold prepareProcessor. cbv zeta.
  eapply sameAnswers_trans; [|by apply call_sameAnswers].
  eapply sameAnswers_trans; [|by apply call_sameAnswers].
  eapply sameAnswers_trans; [|apply call_sameAnswers].
  - apply sameAnswers_refl.
  - match goal with |- isSetPlayHead (if ?c then _ else _) = false => by destruct c end.
Qed.

(** No attach changes what a processor answers, its position source
    included. *)
Lemma setProcessor_sameAnswers w processorToPlay q :
  sameAnswers (processors w q) (processors (setProcessor processorToPlay w) q).
Proof.
  unfold setProcessor. destruct (decide _) as [|Hne]; [apply sameAnswers_refl|].
  cbv zeta. fold (attachFrom processorToPlay
                    (update (set_currentWorkgroup None) (update (set_sampleCount 0) w))).
  unfold attachFrom.
  match goal with |- sameAnswers _ (processors (swapProcessor ?a ?b) q) =>
    rewrite (swapProcessor_processors a b q) end.
  destruct processorToPlay as [p|]; [|apply sameAnswers_refl].
  destruct (configurationKnown _); [|apply sameAnswers_refl].
  apply (prepareProcessor_sameAnswers p
           (update (set_currentWorkgroup None) (update (set_sampleCount 0) w)) q).
Qed.

Lemma setProcessor_attached_precision w p :
  processor (player w) ≠ Some p → configurationKnown (player w) = true →
  processingPrecision (processors (setProcessor (Some p) w) p)
  = if supportsDoublePrecisionProcessing (processors w p) && isDoublePrecision (player w)
    then doublePrecision else singlePrecision.
Proof.
  intros Hne Hknown. rewrite setProcessor_unfold by done. unfold attachFrom.
  rewrite swapProcessor_processors.
  change (configurationKnown _) with (configurationKnown (player w)).
  rewrite Hknown. by rewrite prepareProcessor_precision.
Qed.

Lemma attachHooks_shape w p :
  ∃ configure precision,
    attachHooks w p
    = [configure; setProcessingPrecision precision;
       prepareToPlay (sampleRate (player w)) (blockSize (player w))]
    ∧ isRelease configure = false ∧ isPrepare configure = false
    ∧ isSetPrecision configure = false
    ∧ precision
      = (if supportsDoublePrecisionProcessing (processors w p)
            && isDoublePrecision (player w)
         then doublePrecision else singlePrecision).
Proof.
  unfold attachHooks. cbv zeta. eexists _, _. split; [reflexivity|].
  by destruct (isMidiEffect (processors w p)).
Qed.

Lemma negotiated_precision (supports requested : bool) :
  let precision := if supports && requested then doublePrecision else singlePrecision in
  (precision = doublePrecision ↔ supports = true ∧ requested = true)
  ∧ (precision = singlePrecision ↔ ¬ (supports = true ∧ requested = true)).
Proof. destruct supports, requested; simpl; intuition congruence. Qed.

Lemma reprepareProcessor_trace p mode w :
  trace (reprepareProcessor p mode w)
  = trace w
    ++ [ProcessorCall (processor (player w)) p releaseResources;
        ProcessorCall (processor (player w)) p
          (setProcessingPrecision
             (if supportsDoublePrecisionProcessing (processors w p) && mode
              then doublePrecision else singlePrecision));
        ProcessorCall (processor (player w)) p
          (prepareToPlay (sampleRate (player w)) (blockSize (player w)))].
Proof.
  unfold reprepareProcessor. cbv zeta.
  rewrite !trace_call, !player_call, !processors_call_same. simpl.
  by rewrite <- !app_assoc.
Qed.

Lemma reprepareProcessor_precision p mode w :
  processingPrecision (processors (reprepareProcessor p mode w) p)
  = if supportsDoublePrecisionProcessing (processors w p) && mode
    then doublePrecision else singlePrecision.
Proof.
  unfold reprepareProcessor. cbv zeta. by rewrite !processors_call_same.
Qed.

(** [audioDeviceAboutToStart] up to its [if (processor != nullptr)]. *)
Lemma audioDeviceAboutToStart_unfold device w :
  ∃ w0,
    audioDeviceAboutToStart device w
    = match processor (player w) with
      | Some p =>
          setProcessor (Some p)
            (setProcessor None
               (if isPrepared (player w) then call p releaseResources w0 else w0))
      | None => w0
      end
    ∧ trace w0 = trace w
    ∧ processors w0 = processors w
    ∧ processor (player w0) = processor (player w)
    ∧ isPrepared (player w0) = isPrepared (player w)
    ∧ sampleRate (player w0) = getCurrentSampleRate device
    ∧ blockSize (player w0) = getCurrentBufferSizeSamples device.
Proof.
  unfold audioDeviceAboutToStart. cbv zeta.
  match goal with |- context [resizeChannels ?x] =>
    destruct (resizeChannels_shape x) as (ch & tb & h & ->) end.
  match goal with |- context [update (set_currentWorkgroup None) ?x] =>
    exists (update (set_currentWorkgroup None) x) end.
  split; [|done]. simpl.
  destruct (processor (player w)) as [p|] eqn:Hp; [|done].
  destruct (isPrepared (player w)); simpl; by rewrite Hp.
Qed.

End ControlOperations.

(** ** Layout negotiation *)

Lemma find_if_first {A : Type} (pred : A → bool) (l : list A) :
  (∃ before x after,
     l = before ++ x :: after ∧ Forall (λ y, pred y = false) before ∧ pred x = true
     ∧ find_if pred l = (length before, before ++ [x]))
  ∨ (Forall (λ y, pred y = false) l ∧ find_if pred l = (length l, l)).
Proof.
  induction l as [|y l IH]; simpl.
  - right. by split.
  - destruct (pred y) eqn:Hy.
    + left. exists [], y, l. by repeat split.
    + destruct IH as [(before & x & after & -> & Hrej & Hx & ->) | [Hrej ->]].
      * left. exists (y :: before), x, after. repeat split; try done. by constructor.
      * right. split; [by constructor | done].
Qed.

Section Negotiation.
Context `{Collaborators}.

(** C2.  For a processor that is not a MIDI effect, the negotiation asks it
    about the candidate layouts in the contract's order (the device's
    counts; then, only for a device with no or one input, the processor's
    default input count with the device's outputs, and the device's output
    count on both sides), stops at the first one it accepts and returns it;
    when it accepts none, all candidates have been asked and the device's
    counts are returned.  The result is a plain layout in either case: there
    is no failure value. *)
Theorem findMostSuitableLayout_first_accepted (pl : Player) (proc : AudioProcessor) :
  isMidiEffect proc = false →
  defaultProcessorChannels pl = getBusesLayout proc →
  ∃ chosen tried,
    findMostSuitableLayout pl proc = (chosen, tried)
    ∧ ((∃ before after,
          negotiationCandidates (deviceChannels pl) (ins (getBusesLayout proc))
          = before ++ chosen :: after
          ∧ Forall (λ c, checkBusesLayoutSupported proc c = false) before
          ∧ checkBusesLayoutSupported proc chosen = true
          ∧ tried = before ++ [chosen])
       ∨ (Forall (λ c, checkBusesLayoutSupported proc c = false)
            (negotiationCandidates (deviceChannels pl) (ins (getBusesLayout proc)))
          ∧ chosen = deviceChannels pl
          ∧ tried = negotiationCandidates (deviceChannels pl)
                      (ins (getBusesLayout proc)))).
Proof.
  intros Hmidi Hdefault. unfold findMostSuitableLayout. rewrite Hmidi, Hdefault.
  set (layouts := deviceChannels pl :: _).
  assert (layouts
          = negotiationCandidates (deviceChannels pl) (ins (getBusesLayout proc)))
    as Hlayouts.
  { subst layouts. unfold negotiationCandidates.
    destruct (Z.eqb_spec (ins (deviceChannels pl)) 0);
      destruct (Z.eqb_spec (ins (deviceChannels pl)) 1); simpl;
      case_decide; try done; lia. }
  assert (nth 0 layouts (mkNumChannels 0 0) = deviceChannels pl) as Hhead by done.
  rewrite Hhead. clearbody layouts. subst layouts.
  destruct (find_if_first (checkBusesLayoutSupported proc)
              (negotiationCandidates (deviceChannels pl) (ins (getBusesLayout proc))))
    as [(before & x & after & Hl & Hrej & Hx & Hfind) | [Hrej Hfind]];
    rewrite Hfind.
  - exists x, (before ++ [x]). rewrite Hl.
    rewrite list_lookup_middle by done. split; [done|]. left.
    by exists before, after.
  - eexists _, _. rewrite lookup_ge_None_2 by done. split; [done|]. by right.
Qed.

(** The layout an attach records is the negotiated one, with the processor's
    own bus layout as the default. *)
Lemma prepareProcessor_negotiates p w :
  defaultProcessorChannels (player (prepareProcessor p w)) = getBusesLayout (processors w p)
  ∧ actualProcessorChannels (player (prepareProcessor p w))
    = (findMostSuitableLayout
         (set_defaultProcessorChannels (getBusesLayout (processors w p)) (player w))
         (processors w p)).1.
Proof. by rewrite prepareProcessor_player. Qed.

End Negotiation.

(** ** Lifecycle *)

Section Lifecycle.
Context `{Collaborators}.

(** C4.  On an attach of processor [p] while the device configuration is
    known, and on a change of the double-precision mode while [p] is hosted,
    the precision passed to [p] is double exactly when [p] supports double
    precision and double-precision mode is requested, and single otherwise;
    [p] is left using that precision, and [prepareToPlay] is the call that
    follows the setting of the precision. *)
Theorem precision_negotiated_then_prepared :
  (∀ w p,
     processor (player w) ≠ Some p → configurationKnown (player w) = true →
     ∃ configure precision released,
       trace (setProcessor (Some p) w)
       = trace w
         ++ [ProcessorCall (processor (player w)) p configure;
             ProcessorCall (processor (player w)) p (setProcessingPrecision precision);
             ProcessorCall (processor (player w)) p
               (prepareToPlay (sampleRate (player w)) (blockSize (player w)))]
         ++ released
       ∧ isSetPrecision configure = false ∧ isPrepare configure = false
       ∧ Forall (λ e, isCallOf isSetPrecision e = false ∧ isCallOf isPrepare e = false)
           released
       ∧ (precision = doublePrecision
          ↔ supportsDoublePrecisionProcessing (processors w p) = true
            ∧ isDoublePrecision (player w) = true)
       ∧ (precision = singlePrecision
          ↔ ¬ (supportsDoublePrecisionProcessing (processors w p) = true
               ∧ isDoublePrecision (player w) = true))
       ∧ processingPrecision (processors (setProcessor (Some p) w) p) = precision)
  ∧ (∀ w p mode,
       processor (player w) = Some p → mode ≠ isDoublePrecision (player w) →
       ∃ precision,
         trace (setDoublePrecisionProcessing mode w)
         = trace w
           ++ [ProcessorCall (Some p) p releaseResources;
               ProcessorCall (Some p) p (setProcessingPrecision precision);
               ProcessorCall (Some p) p
                 (prepareToPlay (sampleRate (player w)) (blockSize (player w)))]
         ∧ (precision = doublePrecision
            ↔ supportsDoublePrecisionProcessing (processors w p) = true ∧ mode = true)
         ∧ (precision = singlePrecision
            ↔ ¬ (supportsDoublePrecisionProcessing (processors w p) = true
                 ∧ mode = true))
         ∧ processingPrecision (processors (setDoublePrecisionProcessing mode w) p)
           = precision
         ∧ isDoublePrecision (player (setDoublePrecisionProcessing mode w)) = mode).
Proof.
  split.
  - intros w p Hne Hknown.
    destruct (attachHooks_shape w p) as (configure & precision & Hhooks & ? & ? & ? & ->).
    exists configure,
      (if supportsDoublePrecisionProcessing (processors w p)
          && isDoublePrecision (player w)
       then doublePrecision else singlePrecision),
      (from_option (λ old, [ProcessorCall (Some p) old releaseResources]) []
         (releasedByAttach w)).
    rewrite setProcessor_trace by done. unfold attachCalls.
    rewrite Hknown, Hhooks. split_and!; try done.
    + destruct (releasedByAttach w); simpl; repeat constructor.
    + apply negotiated_precision.
    + apply negotiated_precision.
    + by apply setProcessor_attached_precision.
  - intros w p mode Hp Hmode. unfold setDoublePrecisionProcessing.
    rewrite decide_True by done. cbv zeta. simpl. rewrite Hp.
    eexists. split_and!.
    + rewrite reprepareProcessor_trace. simpl. by rewrite Hp.
    + apply negotiated_precision.
    + apply negotiated_precision.
    + by rewrite reprepareProcessor_precision.
    + done.
Qed.

(** C5.  On an attach of another handle while a prepared processor [old]
    is hosted, the release of [old] is the last call of the attach and is
    made when the hosted handle already is the new one; every call before it
    is a call on the new processor made while [old] was still hosted, and
    these are its configure, precision and prepare calls when the device
    configuration is known. *)
Theorem release_follows_swap w old processorToPlay :
  processor (player w) = Some old → isPrepared (player w) = true →
  processorToPlay ≠ Some old →
  processor (player (setProcessor processorToPlay w)) = processorToPlay
  ∧ ∃ before,
      trace (setProcessor processorToPlay w)
      = trace w ++ before ++ [ProcessorCall processorToPlay old releaseResources]
      ∧ Forall (λ e, ∃ p hk, processorToPlay = Some p ∧ p ≠ old
                             ∧ e = ProcessorCall (Some old) p hk) before
      ∧ (∀ p, processorToPlay = Some p → configurationKnown (player w) = true →
           ∃ configure precision,
             before
             = [ProcessorCall (Some old) p configure;
                ProcessorCall (Some old) p (setProcessingPrecision precision);
                ProcessorCall (Some old) p
                  (prepareToPlay (sampleRate (player w)) (blockSize (player w)))]).
Proof.
  intros Hold Hprepared Hne.
  assert (processor (player w) ≠ processorToPlay) as Hne' by congruence.
  split; [by apply setProcessor_player|].
  exists (attachCalls w processorToPlay).
  rewrite setProcessor_trace by done.
  unfold releasedByAttach. rewrite Hprepared, Hold. simpl. split_and!; [done | |].
  - unfold attachCalls. destruct processorToPlay as [p|]; [|constructor].
    destruct (configurationKnown (player w)); [|constructor].
    rewrite Hold. apply Forall_fmap, Forall_true. intros hk. simpl.
    exists p, hk. split_and!; [done | congruence | done].
  - intros p -> Hknown. unfold attachCalls. rewrite Hknown, Hold.
    destruct (attachHooks_shape w p) as (configure & precision & -> & _).
    by exists configure, precision.
Qed.

(** C6.  An attach of the handle already hosted, and a request for the
    double-precision mode already in force, return the world they were given:
    no member of the player changes and no call is made. *)
Theorem same_request_is_noop w :
  setProcessor (processor (player w)) w = w
  ∧ setDoublePrecisionProcessing (isDoublePrecision (player w)) w = w.
Proof.
  split; [unfold setProcessor; by rewrite decide_True|].
  unfold setDoublePrecisionProcessing. by rewrite decide_False by (by intros ?).
Qed.

(** C7.  When the device stops, a hosted processor that was prepared gets
    exactly one [releaseResources] call and nothing else is called; the
    sample rate, the block size and the prepared flag are cleared; the hosted
    handle is the one hosted before. *)
Theorem audioDeviceStopped_keeps_processor w :
  processor (player (audioDeviceStopped w)) = processor (player w)
  ∧ sampleRate (player (audioDeviceStopped w)) = 0%float
  ∧ blockSize (player (audioDeviceStopped w)) = 0
  ∧ isPrepared (player (audioDeviceStopped w)) = false
  ∧ (∀ p, processor (player w) = Some p → isPrepared (player w) = true →
       trace (audioDeviceStopped w)
       = trace w ++ [ProcessorCall (Some p) p releaseResources])
  ∧ (processor (player w) = None ∨ isPrepared (player w) = false →
       trace (audioDeviceStopped w) = trace w).
Proof.
  unfold audioDeviceStopped. cbv zeta.
  destruct (setSize _ _ _ _) as [tb h].
  destruct (processor (player w)) as [p|] eqn:Hp;
    destruct (isPrepared (player w)) eqn:Hprepared; simpl;
    rewrite ?Hp; split_and!; try done.
  - by intros q [= <-] _.
  - by intros [|].
Qed.

Lemma eventsSince_app w w' events :
  trace w' = trace w ++ events → eventsSince w w' = events.
Proof. intros Htrace. unfold eventsSince. by rewrite Htrace, drop_app_length. Qed.

Lemma audioDeviceStopped_trace w :
  trace (audioDeviceStopped w)
  = trace w
    ++ match processor (player w) with
       | Some p =>
           if isPrepared (player w) then [ProcessorCall (Some p) p releaseResources]
           else []
       | None => []
       end.
Proof.
  unfold audioDeviceStopped. cbv zeta.
  destruct (setSize _ _ _ _) as [tb h].
  destruct (processor (player w)) as [p|] eqn:Hp;
    destruct (isPrepared (player w)); simpl; rewrite ?Hp, ?app_nil_r; done.
Qed.

(** C9, as the code has it.  An attach of a handle other than the hosted
    one leaves the prepared flag set, also when it detaches and when it
    attaches a processor while no device configuration is known; an attach
    of the hosted handle leaves the flag as it was.  In the case without a
    device configuration the attached processor [p] gets no [prepareToPlay]
    call, and a following device stop, or a following attach of another
    handle, calls [releaseResources] on [p]. *)
Theorem setProcessor_sets_prepared_flag :
  (∀ w processorToPlay,
     processor (player w) ≠ processorToPlay →
     isPrepared (player (setProcessor processorToPlay w)) = true)
  ∧ (∀ w, isPrepared (player (setProcessor (processor (player w)) w))
          = isPrepared (player w))
  ∧ (∀ w p,
       processor (player w) ≠ Some p → configurationKnown (player w) = false →
       callsOn p isPrepare (eventsSince w (setProcessor (Some p) w)) = []
       ∧ trace (audioDeviceStopped (setProcessor (Some p) w))
         = trace (setProcessor (Some p) w) ++ [ProcessorCall (Some p) p releaseResources]
       ∧ ∀ other, other ≠ Some p →
           ∃ before,
             trace (setProcessor other (setProcessor (Some p) w))
             = trace (setProcessor (Some p) w) ++ before
               ++ [ProcessorCall other p releaseResources]).
Proof.
  split_and!.
  - intros w processorToPlay Hne. by apply setProcessor_player.
  - intros w. unfold setProcessor. by rewrite decide_True.
  - intros w p Hne Hunknown.
    destruct (setProcessor_player w (Some p) Hne) as (Hp & Hprepared & _).
    split_and!.
    + rewrite (eventsSince_app w _ _ (setProcessor_trace w (Some p) Hne)).
      unfold attachCalls. rewrite Hunknown. simpl.
      destruct (releasedByAttach w) as [old|]; [|done].
      unfold callsOn. simpl. rewrite filter_cons_False; [done|].
      by rewrite andb_false_r.
    + rewrite audioDeviceStopped_trace. by rewrite Hp, Hprepared.
    + intros other Hother. exists (attachCalls (setProcessor (Some p) w) other).
      rewrite setProcessor_trace by congruence.
      unfold releasedByAttach. by rewrite Hp, Hprepared.
Qed.

(** C10, as the code has it.  When the device is about to start while a
    prepared processor [p] is hosted, [p] gets exactly two
    [releaseResources] calls, the first made directly and the second inside
    the detach, when no processor is hosted any more.  When the device
    reports a positive sample rate and block size the re-attach then
    configures [p], sets its precision and calls [prepareToPlay] once; when
    it does not, the two releases are all that [p] gets. *)
Theorem audioDeviceAboutToStart_releases_twice device w p :
  processor (player w) = Some p → isPrepared (player w) = true →
  processor (player (audioDeviceAboutToStart device w)) = Some p
  ∧ ∃ configure precision,
      trace (audioDeviceAboutToStart device w)
      = trace w
        ++ [ProcessorCall (Some p) p releaseResources;
            ProcessorCall None p releaseResources]
        ++ (if PrimFloat.ltb 0 (getCurrentSampleRate device)
               && (0 <? getCurrentBufferSizeSamples device)
            then [ProcessorCall None p configure;
                  ProcessorCall None p (setProcessingPrecision precision);
                  ProcessorCall None p
                    (prepareToPlay (getCurrentSampleRate device)
                                   (getCurrentBufferSizeSamples device))]
            else [])
      ∧ isRelease configure = false ∧ isPrepare configure = false.
Proof.
  intros Hp Hprepared.
  destruct (audioDeviceAboutToStart_unfold device w)
    as (w0 & -> & Htrace & _ & Hp0 & Hprepared0 & Hrate & Hsize).
  rewrite Hp, Hprepared.
  set (w1 := call p releaseResources w0).
  assert (processor (player w1) ≠ None) as Hne1 by (subst w1; simpl; congruence).
  destruct (setProcessor_player w1 None Hne1)
    as (Hp2 & Hprepared2 & _ & Hrate2 & Hsize2 & _).
  set (w2 := setProcessor None w1) in *.
  assert (processor (player w2) ≠ Some p) as Hne2 by congruence.
  split; [by apply setProcessor_player|].
  destruct (attachHooks_shape w2 p) as (configure & precision & Hhooks & ? & ? & _).
  exists configure, precision. split_and!; try done.
  rewrite (setProcessor_trace w2) by done.
  subst w2. rewrite (setProcessor_trace w1) by done.
  unfold attachCalls at 2. unfold releasedByAttach at 1 2. unfold attachCalls.
  rewrite Hprepared2, Hp2. unfold configurationKnown.
  rewrite Hrate2, Hsize2, Hhooks, Hrate2, Hsize2.
  subst w1. rewrite trace_call, !player_call, Htrace, Hp0, Hprepared0, Hp, Hprepared, Hrate, Hsize.
  simpl. rewrite <- !app_assoc. simpl.
  by destruct (_ && _).
Qed.

End Lifecycle.

(** ** The callback: its memory operations run *)

Lemma holdsSamples_insert h n p q new :
  (n ≤ length new)%nat → holdsSamples h n q → holdsSamples (<[p := new]> h) n q.
Proof.
  intros Hnew (d & Hd & Hlen). unfold holdsSamples.
  destruct (decide (q = p)) as [->|Hne].
  - exists new. by rewrite lookup_insert_eq.
  - exists d. by rewrite lookup_insert_ne.
Qed.

Lemma clearSamples_loop (outputChannelData : list ptr) (numSamples : Z) (h0 : heap) :
  Forall (holdsSamples h0 (Z.to_nat numSamples)) outputChannelData →
  ∃ h,
    for_loop 0 (length outputChannelData) (λ i h,
      dest ← outputChannelData !! i; clearSamples dest numSamples h) h0 = Some h
    ∧ keepsBlocks h0 (Z.to_nat numSamples) h
    ∧ Forall (λ p, ∃ d, h !! p = Some d
                        ∧ take (Z.to_nat numSamples) d = replicate (Z.to_nat numSamples) 0)
        outputChannelData.
Proof.
  intros Hholds. set (n := Z.to_nat numSamples) in *.
  edestruct (for_loop_inv (St := heap)) with
    (body := λ (i : nat) (h : heap),
               dest ← outputChannelData !! i; clearSamples dest numSamples h)
    (I := λ (i : nat) (h : heap),
            keepsBlocks h0 n h
            ∧ ∀ j p, (j < i)%nat → outputChannelData !! j = Some p →
                ∃ d, h !! p = Some d ∧ take n d = replicate n 0)
    (lo := 0%nat) (hi := length outputChannelData) (s := h0)
    as (h & Hrun & Hkeeps & Hzero); [lia | | | ].
  - split; [by intros p | intros; lia].
  - intros i h [_ Hi] [Hkeeps Hzero].
    destruct (lookup_lt_is_Some_2 outputChannelData i Hi) as [dest Hdest].
    cbv beta. rewrite Hdest. simpl.
    destruct (Hkeeps dest) as (d & Hd & Hlen).
    { eapply Forall_lookup_1; eauto. }
    unfold clearSamples. rewrite Hd. simpl. fold n. rewrite decide_True by done.
    eexists. split; [done|]. split.
    + intros p Hp. apply holdsSamples_insert; [|by apply Hkeeps].
      rewrite List.length_app, length_replicate. lia.
    + intros j p Hj Hjp. destruct (decide (p = dest)) as [->|Hne].
      * eexists. rewrite lookup_insert_eq. split; [done|].
        by rewrite take_app_length' by (by rewrite length_replicate).
      * rewrite lookup_insert_ne by done. apply (Hzero j); [|done].
        destruct (decide (j = i)) as [->|]; [congruence | lia].
  - exists h. split_and!; [done | done |].
    apply Forall_lookup_2. intros j p Hjp. apply (Hzero j); [|done].
    by eapply lookup_lt_Some.
Qed.

Lemma writeBuffer_runs (chans : list ptr) (n : nat) (data : list (list sample)) (h0 : heap) :
  Forall (holdsSamples h0 n) chans →
  ∃ h, writeBuffer chans n data h0 = Some h ∧ keepsBlocks h0 n h.
Proof.
  intros Hholds. unfold writeBuffer.
  match goal with |- context [for_loop _ _ ?body _] =>
    edestruct (for_loop_inv (St := heap) body) with
      (I := λ (i : nat) (h : heap), keepsBlocks h0 n h)
      (lo := 0%nat) (hi := length chans) (s := h0)
      as (h & Hrun & Hkeeps); [lia | by intros p | | by eauto]
  end.
  intros i h [_ Hi] Hkeeps.
  destruct (lookup_lt_is_Some_2 chans i Hi) as [c Hc]. cbv beta. rewrite Hc. simpl.
  destruct (Hkeeps c) as (d & Hd & Hlen).
  { eapply Forall_lookup_1; eauto. }
  rewrite Hd. simpl. rewrite decide_True by done.
  eexists. split; [done|].
  intros p Hp. apply holdsSamples_insert; [|by apply Hkeeps].
  rewrite List.length_app, length_drop, length_take. lia.
Qed.

Lemma readBuffer_runs (chans : list ptr) (n : nat) (h : heap) :
  Forall (holdsSamples h n) chans → is_Some (readBuffer chans n h).
Proof.
  intros Hholds. apply mapM_is_Some_2.
  eapply Forall_impl; [exact Hholds|].
  intros c (d & Hd & Hlen). simpl. rewrite Hd. simpl. by rewrite decide_True.
Qed.

Lemma to_size_t_small x : 0 ≤ x < 2 ^ 31 → to_size_t x = x.
Proof. intros Hx. unfold to_size_t. apply Z.mod_small. lia. Qed.

Lemma jmax_to_nat a b :
  0 ≤ a → 0 ≤ b → Z.to_nat (jmax a b) = (Z.to_nat a `max` Z.to_nat b)%nat.
Proof. intros Ha Hb. unfold jmax. destruct (Z.ltb_spec a b); lia. Qed.

Section Callback.
Context `{Collaborators}.

(** The routing step of a well-defined callback. *)
Lemma callback_routing inputChannelData outputChannelData numSamples w :
  BlockReady inputChannelData outputChannelData numSamples w →
  ∃ chans h,
    initialiseIoBuffers inputChannelData outputChannelData numSamples
      (Z.to_nat (to_size_t (ins (actualProcessorChannels (player w)))))
      (Z.to_nat (to_size_t (outs (actualProcessorChannels (player w)))))
      (tempBuffer (player w)) (channels (player w)) (memory w) = Some (chans, h)
    ∧ keepsBlocks (memory w) (Z.to_nat numSamples) h
    ∧ (Z.to_nat (jmax (ins (actualProcessorChannels (player w)))
                      (outs (actualProcessorChannels (player w))))
       ≤ length chans)%nat
    ∧ Forall (holdsSamples h (Z.to_nat numSamples))
        (take (Z.to_nat (jmax (ins (actualProcessorChannels (player w)))
                              (outs (actualProcessorChannels (player w)))))
              chans).
Proof.
  intros [Hins Houts Hrouting Hdevice Houtputs].
  rewrite !to_size_t_small by done.
  rewrite jmax_to_nat by lia.
  destruct (initialiseIoBuffers_runs _ _ _ _ _ _ _ _ Hrouting) as (st & -> & Hinv).
  exists (io_channels st), (io_heap st). split_and!; [done | | |].
  - exact (ri_holds _ _ _ _ _ _ _ _ Hinv).
  - rewrite (ri_length _ _ _ _ _ _ _ _ Hinv).
    apply (rr_channels _ _ _ _ _ _ _ _ Hrouting).
  - apply Forall_lookup_2. intros j c Hj.
    apply lookup_take_Some in Hj as [Hj Hlt].
    rewrite (ri_slots _ _ _ _ _ _ _ _ Hinv) in Hj by done.
    apply (ri_holds _ _ _ _ _ _ _ _ Hinv).
    exact (Forall_lookup_1 _ _ _ _ (rr_targets _ _ _ _ _ _ _ _ Hrouting) Hj).
Qed.

Lemma clearOutputs_runs outputChannelData numSamples w :
  Forall (holdsSamples (memory w) (Z.to_nat numSamples)) outputChannelData →
  ∃ h,
    clearOutputs outputChannelData numSamples w = Some (set_memory h w)
    ∧ outputsSilent outputChannelData (Z.to_nat numSamples) (set_memory h w).
Proof.
  intros Hholds. unfold clearOutputs.
  destruct (clearSamples_loop _ _ _ Hholds) as (h & -> & _ & Hzero).
  by exists h.
Qed.

Lemma runProcessBlock_runs p totalNumChannels numSamples w :
  (Z.to_nat totalNumChannels ≤ length (channels (player w)))%nat →
  Forall (holdsSamples (memory w) (Z.to_nat numSamples))
    (take (Z.to_nat totalNumChannels) (channels (player w))) →
  ∃ w',
    runProcessBlock p totalNumChannels numSamples w = Some w'
    ∧ trace w' = trace w ++ [ProcessorCall (processor (player w)) p processBlock]
    ∧ (∀ q, processors w' q = processors w q)
    ∧ processor (player w') = processor (player w).
Proof.
  intros Htotal Hholds. unfold runProcessBlock. rewrite decide_True by done.
  destruct (readBuffer_runs _ _ _ Hholds) as [buffer ->]. simpl.
  assert (∀ q, processors (call p processBlock w) q = processors w q) as Hsame.
  { intros q. rewrite processors_call. by destruct (decide (q = p)) as [->|]. }
  destruct (isUsingDoublePrecision (processors w p)).
  - destruct (processBlockDouble _ _ _) as [converted midi].
    edestruct writeBuffer_runs as (h & -> & _); [exact Hholds|].
    simpl. eexists. split; [done|]. by split_and!.
  - destruct (processBlockFloat _ _ _) as [processed midi].
    edestruct writeBuffer_runs as (h & -> & _); [exact Hholds|].
    simpl. eexists. split; [done|]. by split_and!.
Qed.

Lemma exchangeWorkgroup_effect p device w :
  trace (exchangeWorkgroup p device w)
  = trace w
    ++ (if decide (currentWorkgroup (player w) ≠ getWorkgroup device)
        then [ProcessorCall (processor (player w)) p
                (audioWorkgroupContextChanged (getWorkgroup device))]
        else [])
  ∧ player (exchangeWorkgroup p device w)
    = set_currentWorkgroup (getWorkgroup device) (player w)
  ∧ memory (exchangeWorkgroup p device w) = memory w
  ∧ ∀ q, processors (exchangeWorkgroup p device w) q = processors w q.
Proof.
  unfold exchangeWorkgroup. cbv zeta.
  destruct (decide (currentWorkgroup (player w) ≠ getWorkgroup device)).
  - split_and!; try done. intros q. rewrite processors_call.
    by destruct (decide (q = p)) as [->|].
  - split_and!; try done. simpl. by rewrite app_nil_r.
Qed.

(** The calls that install and remove the callback's own [PlayHead]. *)
Lemma hostedBlock_suspended p outputChannelData totalNumChannels numSamples hostTimeNs w :
  isSuspended (processors w p) = true →
  Forall (holdsSamples (memory w) (Z.to_nat numSamples)) outputChannelData →
  ∃ w',
    hostedBlock p outputChannelData totalNumChannels numSamples hostTimeNs w = Some w'
    ∧ outputsSilent outputChannelData (Z.to_nat numSamples) w'
    ∧ sampleCount (player w') = to_uint64 (sampleCount (player w) + to_uint64 numSamples)
    ∧ trace w'
      = trace w
        ++ match getPlayHead (processors w p) with
           | None =>
               [ProcessorCall (processor (player w)) p
                  (setPlayHead
                     (Some (PlayHead hostTimeNs (sampleCount (player w))
                              (PrimFloat.div (uint64_to_double (sampleCount (player w)))
                                             (sampleRate (player w))))));
                ProcessorCall (processor (player w)) p (setPlayHead None)]
           | Some _ => []
           end
    ∧ getPlayHead (processors w' p) = getPlayHead (processors w p).
Proof.
  intros Hsuspended Hholds. unfold hostedBlock. cbv zeta.
  destruct (getPlayHead (processors w p)) as [ph|] eqn:Hph.
  - simpl. rewrite Hsuspended. simpl.
    edestruct clearOutputs_runs as (h & -> & Hsilent); [exact Hholds|].
    eexists. split; [done|]. split_and!; try done. by rewrite app_nil_r.
  - cbn [processors update]. rewrite processors_call_same. simpl.
    rewrite Hsuspended. simpl.
    edestruct clearOutputs_runs as (h & -> & Hsilent); [exact Hholds|].
    eexists. split; [done|]. split_and!; try done.
    + simpl. by rewrite <- app_assoc.
    + simpl. by rewrite !decide_True.
Qed.

Lemma hostedBlock_running p outputChannelData totalNumChannels numSamples hostTimeNs w :
  isSuspended (processors w p) = false →
  (Z.to_nat totalNumChannels ≤ length (channels (player w)))%nat →
  Forall (holdsSamples (memory w) (Z.to_nat numSamples))
    (take (Z.to_nat totalNumChannels) (channels (player w))) →
  ∃ w' sends,
    hostedBlock p outputChannelData totalNumChannels numSamples hostTimeNs w = Some w'
    ∧ Forall (λ e, isMidiSend e = true) sends
    ∧ trace w'
      = trace w
        ++ match getPlayHead (processors w p) with
           | None =>
               [ProcessorCall (processor (player w)) p
                  (setPlayHead
                     (Some (PlayHead hostTimeNs (sampleCount (player w))
                              (PrimFloat.div (uint64_to_double (sampleCount (player w)))
                                             (sampleRate (player w))))))]
           | Some _ => []
           end
        ++ [ProcessorCall (processor (player w)) p processBlock]
        ++ sends
        ++ match getPlayHead (processors w p) with
           | None => [ProcessorCall (processor (player w)) p (setPlayHead None)]
           | Some _ => []
           end
    ∧ getPlayHead (processors w' p) = getPlayHead (processors w p).
Proof.
  intros Hsuspended Htotal Hholds. unfold hostedBlock. cbv zeta.
  assert (∀ w0, ∃ sends,
            Forall (λ e, isMidiSend e = true) sends
            ∧ trace (forwardMidi w0) = trace w0 ++ sends
            ∧ processors (forwardMidi w0) = processors w0
            ∧ player (forwardMidi w0) = player w0) as Hforward.
  { intros w0. unfold forwardMidi.
    destruct (midiOutput (player w0)) as [out|];
      [destruct (isBackgroundThreadRunning out)|].
    - eexists [_]. split_and!; try done. by repeat constructor.
    - eexists [_]. split_and!; try done. by repeat constructor.
    - exists []. split_and!; try done. simpl. by rewrite app_nil_r. }
  destruct (getPlayHead (processors w p)) as [ph|] eqn:Hph.
  - cbn [processors update]. rewrite Hsuspended. simpl negb. cbv iota.
    edestruct (runProcessBlock_runs p totalNumChannels numSamples)
      as (w1 & -> & Htrace1 & Hprocs1 & Hp1); [exact Htotal | exact Hholds |].
    cbn [mbind option_bind].
    destruct (Hforward w1) as (sends & Hsends & Htrace2 & Hprocs2 & Hplayer2).
    exists (forwardMidi w1), sends. split_and!; try done.
    + rewrite Htrace2, Htrace1. simpl. by rewrite <- !app_assoc, app_nil_r.
    + by rewrite Hprocs2, Hprocs1.
  - cbn [processors update]. rewrite processors_call_same. simpl isSuspended.
    rewrite Hsuspended. simpl negb. cbv iota.
    edestruct (runProcessBlock_runs p totalNumChannels numSamples)
      as (w1 & -> & Htrace1 & Hprocs1 & Hp1); [exact Htotal | exact Hholds |].
    cbn [mbind option_bind].
    destruct (Hforward w1) as (sends & Hsends & Htrace2 & Hprocs2 & Hplayer2).
    eexists _, sends. split_and!; try done.
    + rewrite trace_call, Htrace2, Htrace1, Hplayer2, Hp1. simpl.
      by rewrite <- !app_assoc.
    + rewrite processors_call_same. done.
Qed.

End Callback.

Section CallbackClaims.
Context `{Collaborators}.

#[local] Arguments hostedBlock : simpl never.
#[local] Arguments exchangeWorkgroup : simpl never.
#[local] Arguments clearOutputs : simpl never.
#[local] Arguments initialiseIoBuffers : simpl never.

(** A well-defined callback up to the test [processor != nullptr]. *)
Lemma callback_unfold inputChannelData outputChannelData numSamples hostTimeNs w :
  BlockReady inputChannelData outputChannelData numSamples w →
  ∃ w0,
    audioDeviceIOCallbackWithContext inputChannelData outputChannelData numSamples
      hostTimeNs w
    = match processor (player w) with
      | Some p =>
          device ← currentDevice (player w);
          hostedBlock p outputChannelData
            (jmax (ins (actualProcessorChannels (player w)))
                  (outs (actualProcessorChannels (player w))))
            numSamples hostTimeNs (exchangeWorkgroup p device w0)
      | None => clearOutputs outputChannelData numSamples w0
      end
    ∧ trace w0 = trace w
    ∧ processors w0 = processors w
    ∧ processor (player w0) = processor (player w)
    ∧ sampleCount (player w0) = sampleCount (player w)
    ∧ sampleRate (player w0) = sampleRate (player w)
    ∧ currentWorkgroup (player w0) = currentWorkgroup (player w)
    ∧ Forall (holdsSamples (memory w0) (Z.to_nat numSamples)) outputChannelData
    ∧ (Z.to_nat (jmax (ins (actualProcessorChannels (player w)))
                      (outs (actualProcessorChannels (player w))))
       ≤ length (channels (player w0)))%nat
    ∧ Forall (holdsSamples (memory w0) (Z.to_nat numSamples))
        (take (Z.to_nat (jmax (ins (actualProcessorChannels (player w)))
                              (outs (actualProcessorChannels (player w)))))
              (channels (player w0))).
Proof.
  intros Hready.
  destruct (callback_routing _ _ _ _ Hready)
    as (chans & h & Hrouting & Hkeeps & Hlen & Hholds).
  unfold audioDeviceIOCallbackWithContext.
  destruct (removeNextBlockOfMessages _ _ _) as [collector midi]. cbv zeta.
  simpl. rewrite Hrouting. simpl.
  eexists (set_memory h (update (set_channels chans) _)).
  split; [reflexivity|]. split_and!; try done.
  eapply Forall_impl; [exact (br_outputs _ _ _ _ Hready)|]. exact Hkeeps.
Qed.


(** C8.  In a well-defined callback with processor [p] hosted, the position
    source [p] has afterwards is the one it had before.  If [p] had one, the
    callback makes no [setPlayHead] call at all: it neither replaces the
    source nor removes it.  Only if [p] had none does the callback install
    its own [PlayHead], and it removes it again before it returns. *)
Theorem position_source_kept inputChannelData outputChannelData numSamples hostTimeNs w p :
  BlockReady inputChannelData outputChannelData numSamples w →
  processor (player w) = Some p →
  ∃ w',
    audioDeviceIOCallbackWithContext inputChannelData outputChannelData numSamples
      hostTimeNs w = Some w'
    ∧ getPlayHead (processors w' p) = getPlayHead (processors w p)
    ∧ (is_Some (getPlayHead (processors w p)) →
         Forall (λ e, isCallOf isSetPlayHead e = false) (eventsSince w w'))
    ∧ (getPlayHead (processors w p) = None →
         filter (λ e, isCallOf isSetPlayHead e = true) (eventsSince w w')
         = [ProcessorCall (Some p) p
              (setPlayHead
                 (Some (PlayHead hostTimeNs (sampleCount (player w))
                          (PrimFloat.div (uint64_to_double (sampleCount (player w)))
                                         (sampleRate (player w))))));
            ProcessorCall (Some p) p (setPlayHead None)]).
Proof.
  intros Hready Hp.
  destruct (callback_unfold _ _ _ hostTimeNs _ Hready)
    as (w0 & -> & Htrace0 & Hprocs0 & Hp0 & Hcount0 & Hrate0 & Hgroup0 & Houts0
        & Hlen0 & Hholds0).
  rewrite Hp.
  destruct (br_device _ _ _ _ Hready) as [device Hdevice]; [by rewrite Hp|].
  rewrite Hdevice. cbn [mbind option_bind].
  destruct (exchangeWorkgroup_effect p device w0)
    as (Htrace1 & Hplayer1 & Hmemory1 & Hprocs1).
  set (w1 := exchangeWorkgroup p device w0) in *.
  set (changed := if decide (currentWorkgroup (player w0) ≠ getWorkgroup device)
                  then [ProcessorCall (processor (player w0)) p
                          (audioWorkgroupContextChanged (getWorkgroup device))]
                  else []) in *.
  assert (Forall (λ e, isCallOf isSetPlayHead e = false) changed) as Hchanged.
  { subst changed. case_decide; by repeat constructor. }
  assert (filter (λ e, isCallOf isSetPlayHead e = true) changed = []) as Hnochange.
  { subst changed. by case_decide. }
  assert (getPlayHead (processors w1 p) = getPlayHead (processors w p)) as Hph1
    by (by rewrite Hprocs1, Hprocs0).
  assert (processor (player w1) = Some p) as Hp1
    by (rewrite Hplayer1; simpl; congruence).
  destruct (isSuspended (processors w1 p)) eqn:Hsuspended.
  - edestruct (hostedBlock_suspended p outputChannelData) with (w := w1)
      as (w' & -> & _ & _ & Htrace & Hph); [done | by rewrite Hmemory1 |].
    exists w'. split; [done|]. rewrite Hph1 in Hph, Htrace. split_and!; [done | |].
    + intros [ph Hsome]. rewrite Hsome in Htrace.
      rewrite (eventsSince_app w w' changed); [done|].
      by rewrite Htrace, Htrace1, Htrace0, app_nil_r.
    + intros Hnone. rewrite Hnone in Htrace.
      erewrite (eventsSince_app w w');
        [|by rewrite Htrace, Htrace1, Htrace0, <- app_assoc].
      rewrite filter_app, Hnochange, Hp1, Hplayer1. simpl.
      by rewrite Hcount0, Hrate0.
  - edestruct (hostedBlock_running p outputChannelData) with (w := w1)
      as (w' & sends & -> & Hsends & Htrace & Hph);
      [done | by rewrite Hplayer1 | by rewrite Hplayer1, Hmemory1 |].
    assert (Forall (λ e, isCallOf isSetPlayHead e = false) sends) as Hquiet.
    { eapply Forall_impl; [exact Hsends|]. by intros []. }
    assert (filter (λ e, isCallOf isSetPlayHead e = true) sends = []) as Hnosend.
    { clear -Hquiet. induction Hquiet as [|e sends He _ IH]; [done|].
      rewrite filter_cons_False; [done | congruence]. }
    exists w'. split; [done|]. rewrite Hph1 in Hph, Htrace. split_and!; [done | |].
    + intros [ph Hsome]. rewrite Hsome in Htrace.
      erewrite (eventsSince_app w w');
        [|by rewrite Htrace, Htrace1, Htrace0, <- app_assoc].
      rewrite app_nil_r. simpl. apply Forall_app. split; [done|].
      constructor; [done|]. done.
    + intros Hnone. rewrite Hnone in Htrace.
      erewrite (eventsSince_app w w');
        [|by rewrite Htrace, Htrace1, Htrace0, <- app_assoc].
      rewrite !filter_app, Hnochange, Hnosend, Hp1, Hplayer1. simpl.
      by rewrite Hcount0, Hrate0.
Qed.

End CallbackClaims.

(** * Concrete runs *)

Section Runs.
#[local] Existing Instance testCollaborators.

Example initialiseIoBuffers_3_1 :
  match initialiseIoBuffers [10; 11]%nat [20]%nat 3 3 1 (mkAudioBuffer [30; 31]%nat 3)
          [nullptr; nullptr; nullptr] test_heap with
  | Some (ch, h) => Some (ch, slotSamples ch h 3 <$> [0; 1; 2]%nat)
  | None => None
  end
  = Some ([20; 30; 31]%nat, [Some [1; 1; 1]; Some [2; 2; 2]; Some [1; 1; 1]]).
Proof. vm_compute. reflexivity. Qed.

Example initialiseIoBuffers_1_3 :
  match initialiseIoBuffers [10]%nat [20; 21; 22]%nat 2 1 3 (mkAudioBuffer [] 0)
          [nullptr; nullptr; nullptr] test_heap with
  | Some (ch, h) => Some (ch, (λ p, h !! p) <$> ch)
  | None => None
  end
  = Some ([20; 21; 22]%nat, [Some [1; 1; 7]; Some [0; 0; 8]; Some [0; 0; 9]]).
Proof. vm_compute. reflexivity. Qed.

(** The unit test passes on the layouts and input counts it runs. *)
Example unit_test_passes :
  forallb (λ layout : nat * nat,
    forallb (unitTestPasses layout.1 layout.2) [0; 1; layout.1]%nat)
    [(0, 0); (1, 1); (4, 4); (4, 8); (8, 4)]%nat
  = true.
Proof. vm_compute. reflexivity. Qed.

(** Without room in [channels] the call is undefined. *)
Example initialiseIoBuffers_short_channels :
  initialiseIoBuffers [10]%nat [20; 21]%nat 3 2 2 (mkAudioBuffer [] 0) [nullptr] test_heap
  = None.
Proof. vm_compute. reflexivity. Qed.

(** 1.0f is 0x3f800000, 1.0 is 0x3ff0000000000000. *)
Example floatToDouble_one : floatToDouble 1065353216 = 4607182418800017408.
Proof. vm_compute. reflexivity. Qed.

(** 0.5 is 0x3fe0000000000000, 0.5f is 0x3f000000. *)
Example doubleToFloat_half : doubleToFloat 4602678819172646912 = 1056964608.
Proof. vm_compute. reflexivity. Qed.

(** The smallest subnormal [float], 2^-149, is the normal [double]
    0x36a0000000000000, and comes back. *)
Example floatToDouble_subnormal :
  floatToDouble 1 = 3936146074321813504 ∧ doubleToFloat 3936146074321813504 = 1.
Proof. vm_compute. split; reflexivity. Qed.

(** 1 + 2^-24 lies half way between two [float]s and goes to the even one,
    1.0f; one bit more and it goes up; 2^128 overflows to infinity; -0.0
    keeps its sign. *)
Example doubleToFloat_rounds :
  doubleToFloat 4607182418800017408 = 1065353216
  ∧ doubleToFloat (4607182418800017408 + 2 ^ 28) = 1065353216
  ∧ doubleToFloat (4607182418800017408 + 2 ^ 28 + 1) = 1065353217
  ∧ doubleToFloat ((1023 + 128) * 2 ^ 52) = 255 * 2 ^ 23
  ∧ doubleToFloat (2 ^ 63) = 2 ^ 31 ∧ floatToDouble (2 ^ 31) = 2 ^ 63.
Proof. vm_compute. repeat split; reflexivity. Qed.

(** A NaN keeps its sign and payload through the conversion buffer: the
    quiet NaN 0xffc00000 comes back as it was, the signalling NaN
    0x7f800001 comes back quiet, as 0x7fc00001. *)
Example conversion_keeps_nan_payload :
  floatToDouble 4290772992 = 18444492273895866368
  ∧ doubleToFloat (floatToDouble 4290772992) = 4290772992
  ∧ floatToDouble 2139095041 = 9221120237577961472
  ∧ doubleToFloat (floatToDouble 2139095041) = 2143289345.
Proof. vm_compute. repeat split; reflexivity. Qed.

Example startedWorld_trace :
  trace (startedWorld 3)
  = [ProcessorCall (Some 3%nat) 3 releaseResources;
     ProcessorCall None 3 releaseResources;
     ProcessorCall None 3 (setPlayConfigDetails 2 2 44100 4);
     ProcessorCall None 3 (setProcessingPrecision singlePrecision);
     ProcessorCall None 3 (prepareToPlay 44100 4)].
Proof. vm_compute. reflexivity. Qed.

Ltac holds_samples :=
  repeat constructor; eexists; (split; [vm_compute; reflexivity | simpl; lia]).

Lemma routing_ready_3_1 :
  RoutingReady [10; 11]%nat [20]%nat 3 3 1 (mkAudioBuffer [30; 31]%nat 3)
    [nullptr; nullptr; nullptr] test_heap.
Proof.
  split; try (simpl; lia).
  - apply (bool_decide_unpack _). vm_compute. exact I.
  - apply (bool_decide_unpack _). vm_compute. exact I.
  - unfold slotTargets. simpl. holds_samples.
  - holds_samples.
Defined.

Lemma initialiseIoBuffers_routing_witness :
  RoutingReady [10; 11]%nat [20]%nat 3 3 1 (mkAudioBuffer [30; 31]%nat 3)
    [nullptr; nullptr; nullptr] test_heap
  ∧ ∃ channels' h',
      initialiseIoBuffers [10; 11]%nat [20]%nat 3 3 1 (mkAudioBuffer [30; 31]%nat 3)
        [nullptr; nullptr; nullptr] test_heap = Some (channels', h')
      ∧ ∀ i, (i < 3)%nat →
          ∃ src d, [10; 11]%nat !! (i mod 2)%nat = Some src
                   ∧ test_heap !! src = Some d ∧ h' !! src = Some d
                   ∧ slotSamples channels' h' 3 i = Some (take 3 d).
Proof.
  split; [exact routing_ready_3_1|].
  destruct (initialiseIoBuffers_routing _ _ _ _ _ _ _ _ routing_ready_3_1)
    as (channels' & h' & Hrun & _ & _ & _ & Hcopy).
  exists channels', h'. split; [exact Hrun|]. intros i Hi.
  apply Hcopy; [discriminate | exact Hi].
Defined.

(** The started test worlds are ready for a block of four samples from
    input 10 to outputs 20 and 21. *)
Ltac concrete_fact :=
  first [ lia
        | vm_compute; first [reflexivity | lia | done]
        | apply (bool_decide_unpack _); vm_compute; exact I
        | vm_compute; repeat constructor; eexists;
          (split; [reflexivity | repeat constructor]) ].

Lemma startedWorld_ready (p : procId) :
  (p = 2 ∨ p = 3)%nat →
  BlockReady [10]%nat [20; 21]%nat 4 (startedWorld p).
Proof.
  intros [-> | ->].
  - split; [concrete_fact | concrete_fact | | | concrete_fact].
    + split; concrete_fact.
    + intros _. vm_compute. eauto.
  - split; [concrete_fact | concrete_fact | | | concrete_fact].
    + split; concrete_fact.
    + intros _. vm_compute. eauto.
Defined.

Lemma findMostSuitableLayout_first_accepted_witness :
  isMidiEffect (testProcessors 3) = false
  ∧ defaultProcessorChannels (player (startedWorld 3)) = getBusesLayout (testProcessors 3)
  ∧ ∃ chosen tried,
      findMostSuitableLayout (player (startedWorld 3)) (testProcessors 3) = (chosen, tried)
      ∧ ((∃ before after,
            negotiationCandidates (deviceChannels (player (startedWorld 3)))
              (ins (getBusesLayout (testProcessors 3)))
            = before ++ chosen :: after
            ∧ Forall (λ c, checkBusesLayoutSupported (testProcessors 3) c = false) before
            ∧ checkBusesLayoutSupported (testProcessors 3) chosen = true
            ∧ tried = before ++ [chosen])
         ∨ (Forall (λ c, checkBusesLayoutSupported (testProcessors 3) c = false)
              (negotiationCandidates (deviceChannels (player (startedWorld 3)))
                 (ins (getBusesLayout (testProcessors 3))))
            ∧ chosen = deviceChannels (player (startedWorld 3))
            ∧ tried = negotiationCandidates (deviceChannels (player (startedWorld 3)))
                        (ins (getBusesLayout (testProcessors 3))))).
Proof.
  assert (isMidiEffect (testProcessors 3) = false) as Hmidi by reflexivity.
  assert (defaultProcessorChannels (player (startedWorld 3))
          = getBusesLayout (testProcessors 3)) as Hdefault by (vm_compute; reflexivity).
  split_and!; [exact Hmidi | exact Hdefault |].
  exact (findMostSuitableLayout_first_accepted _ _ Hmidi Hdefault).
Defined.

Example findMostSuitableLayout_second_candidate :
  findMostSuitableLayout (player (startedWorld 3)) (testProcessors 3)
  = (mkNumChannels 2 2, [mkNumChannels 1 2; mkNumChannels 2 2]).
Proof. vm_compute. reflexivity. Qed.



Lemma precision_negotiated_then_prepared_witness :
  ∃ configure precision released,
    trace (setProcessor (Some 1%nat) (audioDeviceAboutToStart testDevice testWorld))
    = trace (audioDeviceAboutToStart testDevice testWorld)
      ++ [ProcessorCall None 1 configure;
          ProcessorCall None 1 (setProcessingPrecision precision);
          ProcessorCall None 1 (prepareToPlay 44100 4)]
      ++ released
    ∧ precision = singlePrecision.
Proof.
  destruct (proj1 precision_negotiated_then_prepared
              (audioDeviceAboutToStart testDevice testWorld) 1%nat)
    as (configure & precision & released & Htrace & _ & _ & _ & _ & Hsingle & _).
  - vm_compute. discriminate.
  - vm_compute. reflexivity.
  - exists configure, precision, released. split; [exact Htrace|].
    apply Hsingle. vm_compute. intros [_ ?]. discriminate.
Defined.

Lemma release_follows_swap_witness :
  processor (player (startedWorld 1)) = Some 1%nat
  ∧ isPrepared (player (startedWorld 1)) = true
  ∧ Some 3%nat ≠ Some 1%nat
  ∧ ∃ before,
      trace (setProcessor (Some 3%nat) (startedWorld 1))
      = trace (startedWorld 1) ++ before
        ++ [ProcessorCall (Some 3%nat) 1 releaseResources].
Proof.
  assert (processor (player (startedWorld 1)) = Some 1%nat) as Hold
    by (vm_compute; reflexivity).
  assert (isPrepared (player (startedWorld 1)) = true) as Hprepared
    by (vm_compute; reflexivity).
  assert (Some 3%nat ≠ Some 1%nat) as Hne by discriminate.
  split_and!; [exact Hold | exact Hprepared | exact Hne |].
  destruct (release_follows_swap (startedWorld 1) 1%nat (Some 3%nat) Hold Hprepared Hne)
    as (_ & before & Htrace & _).
  exists before. exact Htrace.
Defined.

Lemma position_source_kept_witness :
  BlockReady [10]%nat [20; 21]%nat 4 (startedWorld 3)
  ∧ processor (player (startedWorld 3)) = Some 3%nat
  ∧ ∃ w',
      audioDeviceIOCallbackWithContext [10]%nat [20; 21]%nat 4 (Some 123)
        (startedWorld 3) = Some w'
      ∧ getPlayHead (processors w' 3%nat) = Some (ExternalPlayHead 9).
Proof.
  assert (processor (player (startedWorld 3)) = Some 3%nat) as Hp
    by (vm_compute; reflexivity).
  split_and!; [apply startedWorld_ready; by right | exact Hp |].
  destruct (position_source_kept [10]%nat [20; 21]%nat 4 (Some 123) (startedWorld 3)
              3%nat (startedWorld_ready 3 (or_intror eq_refl)) Hp)
    as (w' & Hrun & Hkept & _).
  exists w'. split; [exact Hrun|]. rewrite Hkept. vm_compute. reflexivity.
Defined.

(** C9 as stated fails: after a device stop, an attach of the processor
    that is still hosted returns at once and the prepared flag stays
    clear. *)
Lemma reattach_after_stop_not_prepared :
  processor (player (audioDeviceStopped (startedWorld 1))) = Some 1%nat
  ∧ isPrepared
      (player (setProcessor (Some 1%nat) (audioDeviceStopped (startedWorld 1))))
    = false.
Proof. split; vm_compute; reflexivity. Qed.

Lemma setProcessor_sets_prepared_flag_witness :
  isPrepared (player (setProcessor (Some 1%nat) testWorld)) = true
  ∧ callsOn 1%nat isPrepare (trace (setProcessor (Some 1%nat) testWorld)) = []
  ∧ trace (audioDeviceStopped (setProcessor (Some 1%nat) testWorld))
    = [ProcessorCall (Some 1%nat) 1 releaseResources].
Proof.
  destruct setProcessor_sets_prepared_flag as (Hflag & _ & Hunprepared).
  destruct (Hunprepared testWorld 1%nat) as (Hnone & Hstop & _);
    [vm_compute; discriminate | vm_compute; reflexivity |].
  split_and!.
  - apply Hflag. vm_compute. discriminate.
  - exact Hnone.
  - rewrite Hstop. vm_compute. reflexivity.
Defined.

(** C10 as stated fails: a device that reports no block size gets the two
    releases but no [prepareToPlay]. *)
Lemma idle_device_releases_without_prepare :
  processor (player (startedWorld 1)) = Some 1%nat
  ∧ isPrepared (player (startedWorld 1)) = true
  ∧ eventsSince (startedWorld 1) (audioDeviceAboutToStart idleDevice (startedWorld 1))
    = [ProcessorCall (Some 1%nat) 1 releaseResources;
       ProcessorCall None 1 releaseResources]
  ∧ callsOn 1%nat isPrepare
      (eventsSince (startedWorld 1) (audioDeviceAboutToStart idleDevice (startedWorld 1)))
    = [].
Proof. split_and!; vm_compute; reflexivity. Qed.

Lemma audioDeviceAboutToStart_releases_twice_witness :
  processor (player (startedWorld 1)) = Some 1%nat
  ∧ isPrepared (player (startedWorld 1)) = true
  ∧ ∃ configure precision,
      trace (audioDeviceAboutToStart testDevice (startedWorld 1))
      = trace (startedWorld 1)
        ++ [ProcessorCall (Some 1%nat) 1 releaseResources;
            ProcessorCall None 1 releaseResources;
            ProcessorCall None 1 configure;
            ProcessorCall None 1 (setProcessingPrecision precision);
            ProcessorCall None 1 (prepareToPlay 44100 4)].
Proof.
  assert (processor (player (startedWorld 1)) = Some 1%nat) as Hp
    by (vm_compute; reflexivity).
  assert (isPrepared (player (startedWorld 1)) = true) as Hprepared
    by (vm_compute; reflexivity).
  split_and!; [exact Hp | exact Hprepared |].
  destruct (audioDeviceAboutToStart_releases_twice testDevice (startedWorld 1) 1%nat
              Hp Hprepared) as (_ & configure & precision & Htrace & _).
  exists configure, precision. exact Htrace.
Defined.

End Runs.

(** * Further properties *)

(** ** Routing: what a call that returns has done *)

Lemma for_each_Some_inv {St : Type} (body : nat → St → option St) (I : nat → St → Prop) n :
  ∀ lo s s', for_each body (seq lo n) s = Some s' → I lo s →
  (∀ i s s1, (lo ≤ i < lo + n)%nat → I i s → body i s = Some s1 → I (S i) s1) →
  I (lo + n)%nat s'.
Proof.
  induction n as [|n IH]; intros lo s s' Hrun Hs Hstep; simpl in Hrun.
  - injection Hrun as <-. by rewrite Nat.add_0_r.
  - destruct (body lo s) as [s1|] eqn:Hbody; [|done]. simpl in Hrun.
    replace (lo + S n)%nat with (S lo + n)%nat by lia.
    eapply IH; [exact Hrun | |].
    + eapply Hstep; [|exact Hs|exact Hbody]. lia.
    + intros i s2 s3 ? ? ?. eapply Hstep; eauto. lia.
Qed.

Lemma for_loop_Some_inv {St : Type} (body : nat → St → option St) (I : nat → St → Prop)
    lo hi s s' :
  (lo ≤ hi)%nat → for_loop lo hi body s = Some s' → I lo s →
  (∀ i s s1, (lo ≤ i < hi)%nat → I i s → body i s = Some s1 → I (S i) s1) →
  I hi s'.
Proof.
  intros Hle Hrun Hs Hstep. unfold for_loop in Hrun.
  replace hi with (lo + (hi - lo))%nat by lia.
  eapply for_each_Some_inv; [exact Hrun | exact Hs |].
  intros i s1 s2 ? ? ?. eapply Hstep; eauto. lia.
Qed.

Lemma for_each_ext {St : Type} (f g : nat → St → option St) l :
  (∀ i s, f i s = g i s) → ∀ s, for_each f l s = for_each g l s.
Proof.
  intros Hfg. induction l as [|i l IH]; intros s; simpl; [done|].
  rewrite Hfg. destruct (g i s); simpl; [apply IH | done].
Qed.

Lemma prepareInputChannel_inputOp ins numBytes index st :
  prepareInputChannel ins numBytes index st
  = onCurrentChannel (inputOp ins numBytes index) st.
Proof. by destruct ins. Qed.

(** [initialiseIoBuffers] as two runs of the common loop body. *)
Lemma initialiseIoBuffers_loops ins outs numSamples processorIns processorOuts
    tempBuffer channels h :
  initialiseIoBuffers ins outs numSamples processorIns processorOuts tempBuffer channels h
  = st ←
      (let numBytes := to_size_t (to_size_t numSamples * sizeof_float) in
       if decide (processorOuts < processorIns)%nat then
         st1 ← for_loop 0 processorOuts
                  (slotBody (λ i, outs !! i) (inputOp ins numBytes))
                  (mkIoState channels 0 h);
         for_loop processorOuts processorIns
           (slotBody (λ i, getWritePointer tempBuffer
                             (to_int (Z.of_nat (i - processorOuts))))
                     (inputOp ins numBytes)) st1
       else
         st1 ← for_loop 0 processorIns
                  (slotBody (λ i, outs !! i) (inputOp ins numBytes))
                  (mkIoState channels 0 h);
         for_loop processorIns processorOuts
           (slotBody (λ i, outs !! i) (λ _ c, zeromem c numBytes)) st1);
    Some (io_channels st, io_heap st).
Proof.
  unfold initialiseIoBuffers, for_loop. cbv zeta.
  destruct (decide (processorOuts < processorIns)%nat).
  - erewrite (for_each_ext _ (slotBody (λ i, outs !! i) (inputOp ins _)));
      [|intros i s; unfold slotBody;
        destruct (assignChannel _ s); simpl; [|done];
        by rewrite prepareInputChannel_inputOp].
    destruct (for_each _ _ _) as [st1|]; simpl; [|done].
    erewrite (for_each_ext _ (slotBody _ (inputOp ins _)));
      [done | intros i s; unfold slotBody;
        destruct (assignChannel _ s); simpl; [|done];
        by rewrite prepareInputChannel_inputOp].
  - erewrite (for_each_ext _ (slotBody (λ i, outs !! i) (inputOp ins _)));
      [|intros i s; unfold slotBody;
        destruct (assignChannel _ s); simpl; [|done];
        by rewrite prepareInputChannel_inputOp].
    destruct (for_each _ _ _) as [st1|]; simpl; [|done].
    done.
Qed.

Lemma slotBody_Some target op i st st' :
  slotBody target op i st = Some st' →
  ∃ t hn,
    target i = Some t
    ∧ (io_totalNumChans st < length (io_channels st))%nat
    ∧ op i t (io_heap st) = Some hn
    ∧ st' = mkIoState (<[io_totalNumChans st := t]> (io_channels st))
                      (S (io_totalNumChans st)) hn.
Proof.
  unfold slotBody, assignChannel, onCurrentChannel, nextChannel.
  destruct (target i) as [t|]; simpl; [|done].
  destruct (decide _) as [Hlt|]; simpl; [|done].
  rewrite list_lookup_insert_eq by done. simpl.
  destruct (op i t (io_heap st)) as [hn|] eqn:Hop; simpl; [|done].
  intros [= <-]. by exists t, hn.
Qed.

Lemma zeromem_blockWritten c numBytes h h' :
  zeromem c numBytes h = Some h' →
  blockWritten (Z.to_nat (numBytes / sizeof_float)) c h h'.
Proof.
  unfold zeromem. destruct (h !! c) as [d|] eqn:Hd; simpl; [|done].
  destruct (decide _) as [Hlen|]; [|done]. intros [= <-].
  exists d, (replicate (Z.to_nat (numBytes / sizeof_float)) 0
             ++ drop (Z.to_nat (numBytes / sizeof_float)) d).
  split_and!; [done | done | |].
  - rewrite List.length_app, length_replicate, length_drop. lia.
  - by rewrite drop_app_length' by (by rewrite length_replicate).
Qed.

Lemma memcpy_blockWritten c src numBytes h h' :
  memcpy c src numBytes h = Some h' →
  blockWritten (Z.to_nat (numBytes / sizeof_float)) c h h'.
Proof.
  unfold memcpy. destruct (h !! c) as [d|] eqn:Hd; simpl; [|done].
  destruct (h !! src) as [s|] eqn:Hs; simpl; [|done].
  destruct (decide _) as [[Hd' Hs']|]; [|done]. intros [= <-].
  exists d, (take (Z.to_nat (numBytes / sizeof_float)) s
             ++ drop (Z.to_nat (numBytes / sizeof_float)) d).
  split_and!; [done | done | |].
  - rewrite List.length_app, length_take, length_drop. lia.
  - by rewrite drop_app_length' by (by rewrite length_take_le).
Qed.

Lemma inputOp_blockWritten ins numBytes index c h h' :
  inputOp ins numBytes index c h = Some h' →
  blockWritten (Z.to_nat (numBytes / sizeof_float)) c h h'.
Proof.
  destruct ins as [|p0 ins']; simpl.
  - apply zeromem_blockWritten.
  - destruct (_ !! _) as [src|]; simpl; [|done]. apply memcpy_blockWritten.
Qed.

(** An invariant of the slots carries through a call that returns. *)
Lemma initialiseIoBuffers_Some_inv (I : nat → IoState → Prop)
    ins outs numSamples processorIns processorOuts tempBuffer channels h channels' h' :
  initialiseIoBuffers ins outs numSamples processorIns processorOuts tempBuffer channels h
  = Some (channels', h') →
  I 0%nat (mkIoState channels 0 h) →
  (∀ i st t hn,
     (i < processorIns `max` processorOuts)%nat → I i st →
     slotTarget outs tempBuffer processorOuts i = Some t →
     (io_totalNumChans st < length (io_channels st))%nat →
     blockWritten
       (Z.to_nat (to_size_t (to_size_t numSamples * sizeof_float) / sizeof_float))
       t (io_heap st) hn →
     I (S i) (mkIoState (<[io_totalNumChans st := t]> (io_channels st))
                        (S (io_totalNumChans st)) hn)) →
  ∃ st, I (processorIns `max` processorOuts)%nat st
        ∧ channels' = io_channels st ∧ h' = io_heap st.
Proof.
  intros Hrun Hstart Hstep. rewrite initialiseIoBuffers_loops in Hrun. cbv zeta in Hrun.
  assert (∀ lo hi target op st st',
            (lo ≤ hi)%nat → (hi ≤ processorIns `max` processorOuts)%nat →
            (∀ i, (lo ≤ i < hi)%nat →
                  target i = slotTarget outs tempBuffer processorOuts i) →
            (∀ i c h1 h2, op i c h1 = Some h2 →
               blockWritten
                 (Z.to_nat (to_size_t (to_size_t numSamples * sizeof_float)
                            / sizeof_float)) c h1 h2) →
            for_loop lo hi (slotBody target op) st = Some st' →
            I lo st → I hi st') as Hloop.
  { intros lo hi target op st st' Hle Hhi Htarget Hop Hloop Hlo.
    eapply for_loop_Some_inv; [exact Hle | exact Hloop | exact Hlo |].
    intros i s s1 Hi Hs Hbody.
    apply slotBody_Some in Hbody as (t & hn & Ht & Hlt & Hopi & ->).
    eapply Hstep; [lia | exact Hs | by rewrite <- Htarget | exact Hlt | by eapply Hop]. }
  destruct (decide (processorOuts < processorIns)%nat) as [Hlt|Hge].
  - destruct (for_loop 0 processorOuts _ _) as [st1|] eqn:H1; simpl in Hrun; [|done].
    destruct (for_loop processorOuts processorIns _ _) as [st2|] eqn:H2;
      simpl in Hrun; [|done].
    injection Hrun as <- <-. exists st2. split; [|done].
    replace (processorIns `max` processorOuts)%nat with processorIns by lia.
    eapply Hloop in H1; [| lia | lia | | | exact Hstart].
    + eapply Hloop in H2; [exact H2 | lia | lia | | | exact H1].
      * intros i Hi. unfold slotTarget. by rewrite decide_False by lia.
      * intros. by eapply inputOp_blockWritten.
    + intros i Hi. unfold slotTarget. by rewrite decide_True by lia.
    + intros. by eapply inputOp_blockWritten.
  - destruct (for_loop 0 processorIns _ _) as [st1|] eqn:H1; simpl in Hrun; [|done].
    destruct (for_loop processorIns processorOuts _ _) as [st2|] eqn:H2;
      simpl in Hrun; [|done].
    injection Hrun as <- <-. exists st2. split; [|done].
    replace (processorIns `max` processorOuts)%nat with processorOuts by lia.
    eapply Hloop in H1; [| lia | lia | | | exact Hstart].
    + eapply Hloop in H2; [exact H2 | lia | lia | | | exact H1].
      * intros i Hi. unfold slotTarget. by rewrite decide_True by lia.
      * intros. by eapply zeromem_blockWritten.
    + intros i Hi. unfold slotTarget. by rewrite decide_True by lia.
    + intros. by eapply inputOp_blockWritten.
Qed.

(** X1.  The slots alias the buffers the comments name: in a well-defined
    call slot [i] below [processorOuts] is device output [i], a slot from
    [processorOuts] up to [processorIns] is scratch channel
    [i - processorOuts], and the entries of [channels] from
    [max processorIns processorOuts] on, and its length, are as before. *)
Theorem initialiseIoBuffers_slots_alias ins outs numSamples processorIns processorOuts
    tempBuffer channels h :
  RoutingReady ins outs numSamples processorIns processorOuts tempBuffer channels h →
  ∃ channels' h',
    initialiseIoBuffers ins outs numSamples processorIns processorOuts tempBuffer
      channels h = Some (channels', h')
    ∧ length channels' = length channels
    ∧ (∀ i, (i < processorOuts)%nat → channels' !! i = outs !! i)
    ∧ (∀ i, (processorOuts ≤ i < processorIns)%nat →
         channels' !! i = ab_channels tempBuffer !! (i - processorOuts)%nat)
    ∧ (∀ i, (processorIns `max` processorOuts ≤ i)%nat → channels' !! i = channels !! i).
Proof.
  intros ready.
  destruct (initialiseIoBuffers_runs _ _ _ _ _ _ _ _ ready) as (st & Hrun & Hinv).
  pose proof (rr_outs _ _ _ _ _ _ _ _ ready) as Houts.
  exists (io_channels st), (io_heap st).
  assert (∀ i, (i < processorOuts)%nat → io_channels st !! i = outs !! i) as Hout.
  { intros i Hi. rewrite (ri_slots _ _ _ _ _ _ _ _ Hinv) by lia.
    by apply (targets_lookup_outs _ _ _ _ _ _ _ _ ready). }
  split_and!; [done | | done | |].
  - apply (ri_length _ _ _ _ _ _ _ _ Hinv).
  - intros i Hi. rewrite (ri_slots _ _ _ _ _ _ _ _ Hinv) by lia.
    unfold slotTargets.
    rewrite lookup_app_r by (rewrite length_take; lia).
    rewrite length_take, Nat.min_l by lia.
    by rewrite lookup_take_lt by lia.
  - apply (ri_kept _ _ _ _ _ _ _ _ Hinv).
Qed.

(** X2.  A well-defined call writes nothing but the first [numSamples]
    samples of the buffers it points the slots at: every other buffer,
    the device inputs among them, is as before, and every buffer keeps its
    length and its samples from [numSamples] on; no buffer appears or
    disappears. *)
Theorem initialiseIoBuffers_writes_blocks_only ins outs numSamples processorIns
    processorOuts tempBuffer channels h :
  RoutingReady ins outs numSamples processorIns processorOuts tempBuffer channels h →
  ∃ channels' h',
    initialiseIoBuffers ins outs numSamples processorIns processorOuts tempBuffer
      channels h = Some (channels', h')
    ∧ (∀ p, p ∉ slotTargets outs tempBuffer processorIns processorOuts →
         h' !! p = h !! p)
    ∧ (∀ p d, h !! p = Some d →
         ∃ d', h' !! p = Some d' ∧ length d' = length d
               ∧ drop (Z.to_nat numSamples) d' = drop (Z.to_nat numSamples) d)
    ∧ (∀ p, h !! p = None → h' !! p = None).
Proof.
  intros ready.
  destruct (initialiseIoBuffers_runs _ _ _ _ _ _ _ _ ready) as (st & Hrun & Hinv).
  exists (io_channels st), (io_heap st). split; [done|].
  assert (∀ p, (λ d, (length d, drop (Z.to_nat numSamples) d)) <$> io_heap st !! p
               = (λ d, (length d, drop (Z.to_nat numSamples) d)) <$> h !! p) as Htails.
  { destruct (initialiseIoBuffers_Some_inv
                (λ _ s, ∀ p, (λ d, (length d, drop (Z.to_nat numSamples) d))
                               <$> io_heap s !! p
                             = (λ d, (length d, drop (Z.to_nat numSamples) d))
                               <$> h !! p)
                _ _ _ _ _ _ _ _ _ _ Hrun) as (st' & Hst' & _ & ->); [done | | done].
    intros i s t hn _ Hs _ _ (d & new & Hd & -> & Hlen & Hdrop) p. simpl.
    rewrite (numBytes_samples _ (rr_numSamples _ _ _ _ _ _ _ _ ready)) in Hdrop.
    destruct (decide (p = t)) as [->|Hne].
    - rewrite lookup_insert_eq, <- Hs, Hd. simpl. by rewrite Hlen, Hdrop.
    - rewrite lookup_insert_ne by done. apply Hs. }
  split_and!.
  - intros p Hp. apply (ri_frame _ _ _ _ _ _ _ _ Hinv).
    intros Hin. apply Hp. by apply (subseteq_take _ _ _ Hin).
  - intros p d Hd. specialize (Htails p). rewrite Hd in Htails.
    destruct (io_heap st !! p) as [d'|]; [|done].
    injection Htails as Hlen Hdrop. by exists d'.
  - intros p Hp. specialize (Htails p). rewrite Hp in Htails.
    by destruct (io_heap st !! p).
Qed.

(** X3.  The room the assertions ask for is needed: whenever the call
    returns, [channels] has at least [max processorIns processorOuts]
    entries and the device offers at least [processorOuts] outputs. *)
Theorem initialiseIoBuffers_defined_needs_room ins outs numSamples processorIns
    processorOuts tempBuffer channels h :
  is_Some (initialiseIoBuffers ins outs numSamples processorIns processorOuts tempBuffer
             channels h) →
  (processorIns `max` processorOuts ≤ length channels)%nat
  ∧ (processorOuts ≤ length outs)%nat.
Proof.
  intros [[channels' h'] Hrun].
  destruct (initialiseIoBuffers_Some_inv
              (λ i s, io_totalNumChans s = i
                      ∧ length (io_channels s) = length channels
                      ∧ (i ≤ length channels)%nat
                      ∧ (i `min` processorOuts ≤ length outs)%nat)
              _ _ _ _ _ _ _ _ _ _ Hrun) as (st & (_ & _ & Hch & Ho) & _).
  - simpl. split_and!; [done | done | lia | lia].
  - clear Hrun. intros i s t hn Hi (Htotal & Hlen & _ & Hout) Ht Hlt _.
    cbn [io_totalNumChans io_channels io_heap]. rewrite length_insert. split_and!; [lia | done | lia |].
    unfold slotTarget in Ht. destruct (decide (i < processorOuts)%nat).
    + apply lookup_lt_Some in Ht. lia.
    + lia.
  - split; lia.
Qed.

(** X4.  Straight through: when the device offers at least as many inputs
    as the processor takes, nothing wraps around, and slot [i] below
    [processorIns] holds a copy of device input [i] itself. *)
Theorem initialiseIoBuffers_straight_through ins outs numSamples processorIns
    processorOuts tempBuffer channels h :
  RoutingReady ins outs numSamples processorIns processorOuts tempBuffer channels h →
  (processorIns ≤ length ins)%nat →
  ∃ channels' h',
    initialiseIoBuffers ins outs numSamples processorIns processorOuts tempBuffer
      channels h = Some (channels', h')
    ∧ ∀ i, (i < processorIns)%nat →
        ∃ src d, ins !! i = Some src ∧ h !! src = Some d
                 ∧ slotSamples channels' h' (Z.to_nat numSamples) i
                   = Some (take (Z.to_nat numSamples) d).
Proof.
  intros ready Hins.
  destruct (initialiseIoBuffers_runs _ _ _ _ _ _ _ _ ready) as (st & Hrun & Hinv).
  exists (io_channels st), (io_heap st). split; [done|]. intros i Hi.
  destruct (lookup_lt_is_Some_2 ins i) as [src Hsrc]; [lia|].
  destruct (Forall_lookup_1 _ _ _ _ (rr_ins _ _ _ _ _ _ _ _ ready) Hsrc) as (d & Hd & _).
  exists src, d. split_and!; [done | done |].
  rewrite (slot_as_expected _ _ _ _ _ _ _ _ _ Hinv);
    [| lia | apply (targets_lookup_is_Some _ _ _ _ _ _ _ _ ready); lia].
  unfold expectedSlot. rewrite decide_False by lia.
  destruct ins as [|p0 ins']; [simpl in Hins; lia|].
  rewrite Nat.mod_small by lia. rewrite Hsrc. simpl. by rewrite Hd.
Qed.

(** The room a call that returns has had. *)
Lemma initialiseIoBuffers_Some_room ins outs numSamples processorIns processorOuts
    tempBuffer channels h channels' h' :
  initialiseIoBuffers ins outs numSamples processorIns processorOuts tempBuffer channels h
  = Some (channels', h') →
  (processorOuts ≤ length outs)%nat.
Proof.
  intros Hrun.
  destruct (initialiseIoBuffers_Some_inv
              (λ i s, (i `min` processorOuts ≤ length outs)%nat)
              _ _ _ _ _ _ _ _ _ _ Hrun) as (st & Ho & _).
  - lia.
  - clear Hrun. intros i s t hn Hi Hout Ht _ _.
    unfold slotTarget in Ht. destruct (decide (i < processorOuts)%nat).
    + apply lookup_lt_Some in Ht. lia.
    + lia.
  - lia.
Qed.

(** ** Lifecycle: the operations and compositions the claims leave out *)

Section MoreLifecycle.
Context `{Collaborators}.

Lemma resizeChannels_channels w :
  channels (player (resizeChannels w))
  = resize
      (Z.to_nat
         (to_size_t
            (jmax (ins (deviceChannels (player w)))
               (jmax (outs (deviceChannels (player w)))
                  (jmax (ins (actualProcessorChannels (player w)))
                        (outs (actualProcessorChannels (player w))))))))
      nullptr (channels (player w))
  ∧ deviceChannels (player (resizeChannels w)) = deviceChannels (player w)
  ∧ actualProcessorChannels (player (resizeChannels w))
    = actualProcessorChannels (player w).
Proof. unfold resizeChannels. cbv zeta. by destruct (setSize _ _ _ _). Qed.

Lemma jmax_max a b : jmax a b = a `max` b.
Proof. unfold jmax. destruct (Z.ltb_spec a b); lia. Qed.

Lemma max4_room a b c d :
  isCount a → isCount b → isCount c → isCount d →
  (Z.to_nat (to_size_t c) `max` Z.to_nat (to_size_t d)
   ≤ Z.to_nat (to_size_t (jmax a (jmax b (jmax c d)))))%nat
  ∧ (Z.to_nat (to_size_t a) `max` Z.to_nat (to_size_t b)
     ≤ Z.to_nat (to_size_t (jmax a (jmax b (jmax c d)))))%nat.
Proof.
  unfold isCount. intros Ha Hb Hc Hd. rewrite !jmax_max.
  unfold to_size_t. rewrite !Z.mod_small by lia. split; lia.
Qed.

(** What [resizeChannels] is for. *)
Lemma resizeChannels_room w :
  countLayout (deviceChannels (player w)) →
  countLayout (actualProcessorChannels (player w)) →
  (Z.to_nat (to_size_t (ins (actualProcessorChannels (player w))))
   `max` Z.to_nat (to_size_t (outs (actualProcessorChannels (player w))))
   ≤ length (channels (player (resizeChannels w))))%nat
  ∧ (Z.to_nat (to_size_t (ins (deviceChannels (player w))))
     `max` Z.to_nat (to_size_t (outs (deviceChannels (player w))))
     ≤ length (channels (player (resizeChannels w))))%nat.
Proof.
  intros [Hdi Hdo] [Hai Hao].
  destruct (resizeChannels_channels w) as (-> & _ & _).
  rewrite length_resize. by apply max4_room.
Qed.

Lemma swapProcessor_channels processorToPlay w :
  channels (player (swapProcessor processorToPlay w))
  = channels (player (resizeChannels w))
  ∧ actualProcessorChannels (player (swapProcessor processorToPlay w))
    = actualProcessorChannels (player w)
  ∧ deviceChannels (player (swapProcessor processorToPlay w)) = deviceChannels (player w)
  ∧ defaultProcessorChannels (player (swapProcessor processorToPlay w))
    = defaultProcessorChannels (player w)
  ∧ currentDevice (player (swapProcessor processorToPlay w)) = currentDevice (player w)
  ∧ midiOutput (player (swapProcessor processorToPlay w)) = midiOutput (player w).
Proof.
  unfold swapProcessor, resizeChannels. cbv zeta. simpl.
  destruct (setSize _ _ _ _) as [tb h].
  by destruct (isPrepared (player w)); [destruct (processor (player w))|].
Qed.

(** The layouts an attach records. *)
Lemma setProcessor_layouts w processorToPlay :
  processor (player w) ≠ processorToPlay →
  match processorToPlay with
  | Some p =>
      if configurationKnown (player w)
      then defaultProcessorChannels (player (setProcessor processorToPlay w))
           = getBusesLayout (processors w p)
           ∧ actualProcessorChannels (player (setProcessor processorToPlay w))
             = (findMostSuitableLayout
                  (set_defaultProcessorChannels (getBusesLayout (processors w p))
                     (player w))
                  (processors w p)).1
      else actualProcessorChannels (player (setProcessor processorToPlay w))
           = actualProcessorChannels (player w)
  | None =>
      actualProcessorChannels (player (setProcessor processorToPlay w))
      = actualProcessorChannels (player w)
  end
  ∧ currentDevice (player (setProcessor processorToPlay w)) = currentDevice (player w)
  ∧ midiOutput (player (setProcessor processorToPlay w)) = midiOutput (player w).
Proof.
  intros Hne. rewrite setProcessor_unfold by done. unfold attachFrom.
  match goal with |- context [swapProcessor ?a ?b] =>
    destruct (swapProcessor_channels a b) as (_ & -> & _ & -> & -> & ->) end.
  destruct processorToPlay as [p|]; [|done].
  change (configurationKnown (player (update _ _)))
    with (configurationKnown (player w)).
  destruct (configurationKnown (player w)); [|done].
  rewrite prepareProcessor_player. done.
Qed.

Lemma audioDeviceAboutToStart_unfold_full device w :
  ∃ w0,
    audioDeviceAboutToStart device w
    = match processor (player w) with
      | Some p =>
          setProcessor (Some p)
            (setProcessor None
               (if isPrepared (player w) then call p releaseResources w0 else w0))
      | None => w0
      end
    ∧ trace w0 = trace w
    ∧ processors w0 = processors w
    ∧ processor (player w0) = processor (player w)
    ∧ isPrepared (player w0) = isPrepared (player w)
    ∧ isDoublePrecision (player w0) = isDoublePrecision (player w)
    ∧ sampleCount (player w0) = sampleCount (player w)
    ∧ sampleRate (player w0) = getCurrentSampleRate device
    ∧ blockSize (player w0) = getCurrentBufferSizeSamples device
    ∧ deviceChannels (player w0)
      = mkNumChannels (countNumberOfSetBits (getActiveInputChannels device))
                      (countNumberOfSetBits (getActiveOutputChannels device))
    ∧ actualProcessorChannels (player w0) = actualProcessorChannels (player w)
    ∧ currentDevice (player w0) = Some device
    ∧ currentWorkgroup (player w0) = None
    ∧ length (channels (player w0))
      = Z.to_nat
          (to_size_t
             (jmax (countNumberOfSetBits (getActiveInputChannels device))
                (jmax (countNumberOfSetBits (getActiveOutputChannels device))
                   (jmax (ins (actualProcessorChannels (player w)))
                         (outs (actualProcessorChannels (player w))))))).
Proof.
  unfold audioDeviceAboutToStart, resizeChannels. cbv zeta. simpl.
  destruct (setSize _ _ _ _) as [tb h].
  match goal with |- context [update (set_currentWorkgroup None) ?x] =>
    exists (update (set_currentWorkgroup None) x) end.
  split; [|split_and!; try done; simpl; by rewrite length_resize].
  simpl.
  destruct (processor (player w)) as [p|] eqn:Hp; [|done].
  destruct (isPrepared (player w)); simpl; by rewrite Hp.
Qed.

Lemma findMostSuitableLayout_count pl proc :
  countLayout (deviceChannels pl) → isCount (ins (defaultProcessorChannels pl)) →
  countLayout (findMostSuitableLayout pl proc).1.
Proof.
  intros [Hdi Hdo] Hdefault. unfold findMostSuitableLayout.
  destruct (isMidiEffect proc); [split; simpl; unfold isCount; lia|].
  set (layouts := deviceChannels pl :: _).
  assert (Forall countLayout layouts) as Hall.
  { subst layouts. constructor; [by split|].
    destruct (_ || _); [|constructor].
    constructor; [by split|]. constructor; [by split|]. constructor. }
  destruct (find_if (checkBusesLayoutSupported proc) layouts) as [it tried]. simpl.
  destruct (layouts !! it) as [chans|] eqn:Hit.
  - eapply Forall_lookup_1; eauto.
  - by split.
Qed.

(** X5.  A MIDI effect is attached without any layout negotiation: the
    processor is not asked about any layout, the layout recorded for it is
    zero inputs and zero outputs, and it is configured with
    [setRateAndBufferSizeDetails] where another processor would get
    [setPlayConfigDetails]. *)
Theorem midi_effect_attach w p :
  processor (player w) ≠ Some p → configurationKnown (player w) = true →
  isMidiEffect (processors w p) = true →
  actualProcessorChannels (player (setProcessor (Some p) w)) = mkNumChannels 0 0
  ∧ (∀ pl, (findMostSuitableLayout pl (processors w p)).2 = [])
  ∧ ∃ precision,
      trace (setProcessor (Some p) w)
      = trace w
        ++ [ProcessorCall (processor (player w)) p
              (setRateAndBufferSizeDetails (sampleRate (player w)) (blockSize (player w)));
            ProcessorCall (processor (player w)) p (setProcessingPrecision precision);
            ProcessorCall (processor (player w)) p
              (prepareToPlay (sampleRate (player w)) (blockSize (player w)))]
        ++ from_option (λ old, [ProcessorCall (Some p) old releaseResources]) []
             (releasedByAttach w).
Proof.
  intros Hne Hknown Hmidi. split_and!.
  - destruct (setProcessor_layouts w (Some p) Hne) as (Hlayouts & _).
    rewrite Hknown in Hlayouts. destruct Hlayouts as (_ & ->).
    unfold findMostSuitableLayout. by rewrite Hmidi.
  - intros pl. unfold findMostSuitableLayout. by rewrite Hmidi.
  - eexists. rewrite setProcessor_trace by done. unfold attachCalls, attachHooks.
    rewrite Hknown, Hmidi. reflexivity.
Qed.

(** X6.  For a device with two or more input channels the negotiation has a
    single candidate: a processor that is no MIDI effect is asked about the
    device's counts once, and they are returned whether it accepts them or
    not. *)
Theorem negotiation_with_several_inputs (pl : Player) (proc : AudioProcessor) :
  isMidiEffect proc = false →
  1 < ins (deviceChannels pl) →
  findMostSuitableLayout pl proc = (deviceChannels pl, [deviceChannels pl]).
Proof.
  intros Hmidi Hins. unfold findMostSuitableLayout. rewrite Hmidi.
  destruct (Z.eqb_spec (ins (deviceChannels pl)) 0); [lia|].
  destruct (Z.eqb_spec (ins (deviceChannels pl)) 1); [lia|].
  simpl. by destruct (checkBusesLayoutSupported proc (deviceChannels pl)).
Qed.

(** X7.  The destructor detaches: afterwards no processor is hosted; a
    hosted processor whose prepared flag is set gets exactly one
    [releaseResources], made when it is no longer hosted, and nothing else
    is called; with the flag clear, or with nothing hosted, no call is
    made. *)
Theorem destructor_releases_hosted w :
  processor (player (AudioProcessorPlayer_destructor w)) = None
  ∧ (∀ p, processor (player w) = Some p → isPrepared (player w) = true →
       trace (AudioProcessorPlayer_destructor w)
       = trace w ++ [ProcessorCall None p releaseResources])
  ∧ (processor (player w) = None ∨ isPrepared (player w) = false →
       trace (AudioProcessorPlayer_destructor w) = trace w).
Proof.
  unfold AudioProcessorPlayer_destructor.
  destruct (processor (player w)) as [p|] eqn:Hp.
  - assert (processor (player w) ≠ None) as Hne by congruence.
    split_and!.
    + by apply setProcessor_player.
    + intros q [= <-] Hprepared. rewrite setProcessor_trace by done.
      unfold releasedByAttach. by rewrite Hprepared, Hp.
    + intros [|Hprepared]; [done|]. rewrite setProcessor_trace by done.
      unfold releasedByAttach. rewrite Hprepared. simpl. by rewrite app_nil_r.
  - assert (setProcessor None w = w) as ->.
    { unfold setProcessor. by rewrite decide_True. }
    by split_and!.
Qed.

(** X8.  Stopping the device and then destroying the player releases a
    prepared processor once, not twice: the stop makes the call and clears
    the flag, and the destructor then detaches without a call. *)
Theorem stop_then_destructor_releases_once w p :
  processor (player w) = Some p → isPrepared (player w) = true →
  trace (AudioProcessorPlayer_destructor (audioDeviceStopped w))
  = trace w ++ [ProcessorCall (Some p) p releaseResources]
  ∧ processor (player (AudioProcessorPlayer_destructor (audioDeviceStopped w))) = None.
Proof.
  intros Hp Hprepared. unfold AudioProcessorPlayer_destructor.
  assert (processor (player (audioDeviceStopped w)) = Some p
          ∧ isPrepared (player (audioDeviceStopped w)) = false) as [Hp' Hflag].
  { unfold audioDeviceStopped. cbv zeta. destruct (setSize _ _ _ _) as [tb h].
    rewrite Hp, Hprepared. simpl. by rewrite Hp. }
  assert (processor (player (audioDeviceStopped w)) ≠ None) as Hne by congruence.
  split; [|by apply setProcessor_player].
  rewrite setProcessor_trace by done. unfold releasedByAttach. rewrite Hflag. simpl.
  rewrite app_nil_r, audioDeviceStopped_trace. by rewrite Hp, Hprepared.
Qed.

Lemma audioDeviceStopped_player w :
  processor (player (audioDeviceStopped w)) = processor (player w)
  ∧ isPrepared (player (audioDeviceStopped w)) = false
  ∧ sampleRate (player (audioDeviceStopped w)) = 0%float
  ∧ blockSize (player (audioDeviceStopped w)) = 0
  ∧ isDoublePrecision (player (audioDeviceStopped w)) = isDoublePrecision (player w)
  ∧ ∀ q, processors (audioDeviceStopped w) q = processors w q.
Proof.
  unfold audioDeviceStopped. cbv zeta. destruct (setSize _ _ _ _) as [tb h].
  destruct (processor (player w)) as [p|] eqn:Hp;
    [destruct (isPrepared (player w))|]; simpl; rewrite ?Hp; split_and!; try done.
  intros q. by destruct (decide (q = p)) as [->|].
Qed.

(** A start with a hosted processor whose prepared flag is clear. *)
Lemma audioDeviceAboutToStart_unprepared device w p :
  processor (player w) = Some p → isPrepared (player w) = false →
  ∃ configure precision,
    trace (audioDeviceAboutToStart device w)
    = trace w
      ++ (if PrimFloat.ltb 0 (getCurrentSampleRate device)
             && (0 <? getCurrentBufferSizeSamples device)
          then [ProcessorCall None p configure;
                ProcessorCall None p (setProcessingPrecision precision);
                ProcessorCall None p
                  (prepareToPlay (getCurrentSampleRate device)
                                 (getCurrentBufferSizeSamples device))]
          else [])
    ∧ isRelease configure = false ∧ isPrepare configure = false.
Proof.
  intros Hp Hprepared.
  destruct (audioDeviceAboutToStart_unfold device w)
    as (w0 & -> & Htrace & _ & Hp0 & Hprepared0 & Hrate & Hsize).
  rewrite Hp, Hprepared.
  assert (processor (player w0) ≠ None) as Hne0 by congruence.
  destruct (setProcessor_player w0 None Hne0)
    as (Hp2 & Hprepared2 & _ & Hrate2 & Hsize2 & _).
  set (w2 := setProcessor None w0) in *.
  assert (processor (player w2) ≠ Some p) as Hne2 by congruence.
  destruct (attachHooks_shape w2 p) as (configure & precision & Hhooks & ? & ? & _).
  exists configure, precision. split_and!; try done.
  rewrite (setProcessor_trace w2) by done.
  subst w2. rewrite (setProcessor_trace w0) by done.
  unfold attachCalls at 2. unfold releasedByAttach at 1 2. unfold attachCalls.
  rewrite Hprepared2, Hp2, Hprepared0, Hprepared. unfold configurationKnown.
  rewrite Hrate2, Hsize2, Hhooks, Hrate2, Hsize2, Htrace, Hrate, Hsize.
  simpl. rewrite !app_nil_r. by destruct (_ && _).
Qed.

(** X9.  A stop followed by a start pairs the calls: a prepared processor is
    released once by the stop, and the start, finding the flag clear,
    releases nothing and prepares the processor once (when the device
    reports a positive sample rate and block size). *)
Theorem stop_start_cycle device w p :
  processor (player w) = Some p → isPrepared (player w) = true →
  ∃ configure precision,
    trace (audioDeviceAboutToStart device (audioDeviceStopped w))
    = trace w
      ++ [ProcessorCall (Some p) p releaseResources]
      ++ (if PrimFloat.ltb 0 (getCurrentSampleRate device)
             && (0 <? getCurrentBufferSizeSamples device)
          then [ProcessorCall None p configure;
                ProcessorCall None p (setProcessingPrecision precision);
                ProcessorCall None p
                  (prepareToPlay (getCurrentSampleRate device)
                                 (getCurrentBufferSizeSamples device))]
          else [])
    ∧ isRelease configure = false ∧ isPrepare configure = false.
Proof.
  intros Hp Hprepared.
  destruct (audioDeviceStopped_player w) as (Hp' & Hflag & _).
  destruct (audioDeviceAboutToStart_unprepared device (audioDeviceStopped w) p)
    as (configure & precision & Htrace & ? & ?); [congruence | done |].
  exists configure, precision. split_and!; try done.
  rewrite Htrace, audioDeviceStopped_trace, Hp, Hprepared. by rewrite <- app_assoc.
Qed.

(** X10.  A start records the device: its sample rate, its block size, the
    numbers of its active input and output channels, and the device itself.
    The hosted handle stays.  With no processor hosted nothing is called
    and the prepared flag and the sample counter stay as well; with one
    hosted, the re-attach sets the flag and restarts the counter at zero. *)
Theorem audioDeviceAboutToStart_records_device device w :
  sampleRate (player (audioDeviceAboutToStart device w)) = getCurrentSampleRate device
  ∧ blockSize (player (audioDeviceAboutToStart device w))
    = getCurrentBufferSizeSamples device
  ∧ deviceChannels (player (audioDeviceAboutToStart device w))
    = mkNumChannels (countNumberOfSetBits (getActiveInputChannels device))
                    (countNumberOfSetBits (getActiveOutputChannels device))
  ∧ currentDevice (player (audioDeviceAboutToStart device w)) = Some device
  ∧ processor (player (audioDeviceAboutToStart device w)) = processor (player w)
  ∧ (processor (player w) = None →
       trace (audioDeviceAboutToStart device w) = trace w
       ∧ isPrepared (player (audioDeviceAboutToStart device w)) = isPrepared (player w)
       ∧ sampleCount (player (audioDeviceAboutToStart device w))
         = sampleCount (player w))
  ∧ (is_Some (processor (player w)) →
       isPrepared (player (audioDeviceAboutToStart device w)) = true
       ∧ sampleCount (player (audioDeviceAboutToStart device w)) = 0).
Proof.
  destruct (audioDeviceAboutToStart_unfold_full device w)
    as (w0 & -> & Htrace & _ & Hp0 & Hprepared0 & _ & Hcount0 & Hrate & Hsize
        & Hchannels & _ & Hdevice & _).
  destruct (processor (player w)) as [p|] eqn:Hp.
  - set (w1 := if isPrepared (player w) then call p releaseResources w0 else w0).
    assert (player w1 = player w0) as Hplayer1
      by (subst w1; destruct (isPrepared (player w)); rewrite ?player_call;
          reflexivity).
    assert (processor (player w1) ≠ None) as Hne1 by (rewrite Hplayer1; congruence).
    destruct (setProcessor_player w1 None Hne1)
      as (Hp2 & _ & _ & Hrate2 & Hsize2 & _ & Hchannels2).
    destruct (setProcessor_layouts w1 None Hne1) as (_ & Hdevice2 & _).
    set (w2 := setProcessor None w1) in *.
    assert (processor (player w2) ≠ Some p) as Hne2 by congruence.
    destruct (setProcessor_player w2 (Some p) Hne2)
      as (Hp3 & Hprepared3 & Hcount3 & Hrate3 & Hsize3 & _ & Hchannels3).
    destruct (setProcessor_layouts w2 (Some p) Hne2) as (_ & Hdevice3 & _).
    split_and!; try congruence. done.
  - by split_and!.
Qed.

(** X11.  A change of the double-precision mode touches nothing of the
    hosting state: the hosted handle, the prepared flag, the sample counter,
    the sample rate, the block size, the recorded layouts, the channel
    pointers and the memory stay, whether or not it re-prepares a
    processor; the mode flag ends up as requested, and with no processor
    hosted nothing is called. *)
Theorem setDoublePrecisionProcessing_keeps_hosting_state mode w :
  isDoublePrecision (player (setDoublePrecisionProcessing mode w)) = mode
  ∧ processor (player (setDoublePrecisionProcessing mode w)) = processor (player w)
  ∧ isPrepared (player (setDoublePrecisionProcessing mode w)) = isPrepared (player w)
  ∧ sampleCount (player (setDoublePrecisionProcessing mode w)) = sampleCount (player w)
  ∧ sampleRate (player (setDoublePrecisionProcessing mode w)) = sampleRate (player w)
  ∧ blockSize (player (setDoublePrecisionProcessing mode w)) = blockSize (player w)
  ∧ deviceChannels (player (setDoublePrecisionProcessing mode w))
    = deviceChannels (player w)
  ∧ actualProcessorChannels (player (setDoublePrecisionProcessing mode w))
    = actualProcessorChannels (player w)
  ∧ channels (player (setDoublePrecisionProcessing mode w)) = channels (player w)
  ∧ memory (setDoublePrecisionProcessing mode w) = memory w
  ∧ (processor (player w) = None →
       trace (setDoublePrecisionProcessing mode w) = trace w).
Proof.
  unfold setDoublePrecisionProcessing.
  destruct (decide (mode ≠ isDoublePrecision (player w))) as [Hchange|Hsame].
  - cbv zeta. simpl. destruct (processor (player w)) as [p|] eqn:Hp; simpl;
      by split_and!.
  - split_and!; try done.
    by destruct (decide (mode = isDoublePrecision (player w))).
Qed.

(** X12.  The prepared flag does not follow a change of mode.  After a
    device stop, a change of mode with a processor hosted still releases it
    again and prepares it, with the cleared sample rate 0 and block size 0;
    the flag stays clear, so that a further device stop makes no call and
    the processor stays prepared. *)
Theorem mode_change_after_stop w p mode :
  processor (player w) = Some p → mode ≠ isDoublePrecision (player w) →
  ∃ precision,
    trace (setDoublePrecisionProcessing mode (audioDeviceStopped w))
    = trace (audioDeviceStopped w)
      ++ [ProcessorCall (Some p) p releaseResources;
          ProcessorCall (Some p) p (setProcessingPrecision precision);
          ProcessorCall (Some p) p (prepareToPlay 0%float 0)]
    ∧ isPrepared (player (setDoublePrecisionProcessing mode (audioDeviceStopped w)))
      = false
    ∧ trace (audioDeviceStopped
               (setDoublePrecisionProcessing mode (audioDeviceStopped w)))
      = trace (setDoublePrecisionProcessing mode (audioDeviceStopped w)).
Proof.
  intros Hp Hmode.
  destruct (audioDeviceStopped_player w) as (Hp1 & Hflag1 & Hrate1 & Hsize1 & Hmode1 & _).
  set (w1 := audioDeviceStopped w) in *.
  assert (isPrepared (player (setDoublePrecisionProcessing mode w1)) = false
          ∧ processor (player (setDoublePrecisionProcessing mode w1)) = Some p)
    as [Hflag2 Hp2].
  { unfold setDoublePrecisionProcessing. rewrite decide_True by congruence.
    cbv zeta. simpl. rewrite Hp1, Hp. simpl. by rewrite Hflag1, Hp1. }
  exists (if supportsDoublePrecisionProcessing (processors w1 p) && mode
          then doublePrecision else singlePrecision).
  split_and!; [|done|].
  - unfold setDoublePrecisionProcessing. rewrite decide_True by congruence.
    cbv zeta.
    assert (processor (player (update (set_currentWorkgroup None) w1)) = Some p) as ->
      by (simpl; congruence).
    unfold update at 1. cbn [trace]. rewrite reprepareProcessor_trace.
    cbn [update player trace sampleRate blockSize processor set_currentWorkgroup].
    by rewrite Hp1, Hp, Hrate1, Hsize1.
  - rewrite audioDeviceStopped_trace, Hp2, Hflag2. by rewrite app_nil_r.
Qed.

Lemma countNumberOfSetBits_nonneg n : 0 ≤ countNumberOfSetBits n.
Proof.
  destruct n as [|p]; [done|]. simpl.
  induction p as [p IH|p IH|]; simpl; lia.
Qed.

Lemma attachFrom_room w processorToPlay :
  countLayout (deviceChannels (player w)) →
  countLayout (actualProcessorChannels (player w)) →
  (∀ p, processorToPlay = Some p → isCount (ins (getBusesLayout (processors w p)))) →
  channelsHaveRoom (player (attachFrom processorToPlay w)).
Proof.
  intros Hdevice Hactual Hdefault. unfold channelsHaveRoom, attachFrom.
  match goal with |- context [swapProcessor ?a ?b] =>
    destruct (swapProcessor_channels a b) as (-> & -> & _) end.
  apply resizeChannels_room.
  - destruct processorToPlay as [p|]; [|done].
    destruct (configurationKnown _); [|done]. by rewrite prepareProcessor_player.
  - destruct processorToPlay as [p|]; [|done].
    destruct (configurationKnown _); [|done]. rewrite prepareProcessor_player. simpl.
    apply findMostSuitableLayout_count; [done|]. simpl. by apply Hdefault.
Qed.

(** X13.  An attach leaves room for the callback.  When the channel counts
    involved are counts (non-negative [int]s: the device's, the layout
    recorded so far, and the input count of the new processor's default
    layout), then after [setProcessor] with a handle other than the hosted
    one the assertion of [initialiseIoBuffers] holds of what the callback
    will pass: [channels] has at least as many entries as the larger of
    [(size_t) actualProcessorChannels.ins] and
    [(size_t) actualProcessorChannels.outs]. *)
Theorem setProcessor_makes_room w processorToPlay :
  processor (player w) ≠ processorToPlay →
  countLayout (deviceChannels (player w)) →
  countLayout (actualProcessorChannels (player w)) →
  (∀ p, processorToPlay = Some p → isCount (ins (getBusesLayout (processors w p)))) →
  channelsHaveRoom (player (setProcessor processorToPlay w)).
Proof.
  intros Hne Hdevice Hactual Hdefault.
  rewrite setProcessor_unfold by done. by apply attachFrom_room.
Qed.

(** X14.  A device start leaves room for the callback as well, with or
    without a processor hosted: when the device has fewer than 2^31 active
    inputs and outputs, and the layout recorded so far and the input count
    of the hosted processor's default layout are counts, then after
    [audioDeviceAboutToStart] the assertion of [initialiseIoBuffers] holds
    of what the callback will pass. *)
Theorem audioDeviceAboutToStart_makes_room device w :
  countNumberOfSetBits (getActiveInputChannels device) < 2 ^ 31 →
  countNumberOfSetBits (getActiveOutputChannels device) < 2 ^ 31 →
  countLayout (actualProcessorChannels (player w)) →
  (∀ p, processor (player w) = Some p → isCount (ins (getBusesLayout (processors w p)))) →
  channelsHaveRoom (player (audioDeviceAboutToStart device w)).
Proof.
  intros Hin Hout Hactual Hdefault.
  pose proof (countNumberOfSetBits_nonneg (getActiveInputChannels device)) as Hin0.
  pose proof (countNumberOfSetBits_nonneg (getActiveOutputChannels device)) as Hout0.
  destruct (audioDeviceAboutToStart_unfold_full device w)
    as (w0 & -> & _ & Hprocs0 & Hp0 & _ & _ & _ & _ & _ & Hchannels0 & Hactual0 & _ & _
        & Hlength0).
  destruct (processor (player w)) as [p|] eqn:Hp.
  - set (w1 := if isPrepared (player w) then call p releaseResources w0 else w0).
    assert (player w1 = player w0) as Hplayer1
      by (subst w1; destruct (isPrepared (player w)); rewrite ?player_call;
          reflexivity).
    assert (sameAnswers (processors w0 p) (processors w1 p)) as Hsame1.
    { subst w1. destruct (isPrepared (player w)); [by apply call_sameAnswers|].
      apply sameAnswers_refl. }
    assert (processor (player w1) ≠ None) as Hne1 by (rewrite Hplayer1; congruence).
    destruct (setProcessor_player w1 None Hne1) as (Hp2 & _ & _ & _ & _ & _ & Hchannels2).
    destruct (setProcessor_layouts w1 None Hne1) as (Hactual2 & _).
    pose proof (setProcessor_sameAnswers w1 None p) as Hsame2.
    set (w2 := setProcessor None w1) in *. clearbody w2.
    rewrite setProcessor_unfold by congruence. apply attachFrom_room.
    + change (countLayout (deviceChannels (player w2))).
      rewrite Hchannels2, Hplayer1, Hchannels0. by split.
    + change (countLayout (actualProcessorChannels (player w2))).
      by rewrite Hactual2, Hplayer1, Hactual0.
    + intros q [= <-]. change (isCount (ins (getBusesLayout (processors w2 p)))).
      rewrite <- (sa_getBusesLayout _ _ Hsame2), <- (sa_getBusesLayout _ _ Hsame1),
        Hprocs0. by apply Hdefault.
  - unfold channelsHaveRoom. rewrite Hlength0, Hactual0.
    destruct Hactual. by apply max4_room.
Qed.

End MoreLifecycle.

(** ** The per-block callback *)

Lemma readBuffer_Some chans n h buffer :
  readBuffer chans n h = Some buffer →
  length buffer = length chans
  ∧ ∀ i c, chans !! i = Some c →
      ∃ d, h !! c = Some d ∧ buffer !! i = Some (take n d).
Proof.
  unfold readBuffer. intros Hread. apply mapM_Some in Hread.
  split; [symmetry; by eapply Forall2_length|].
  intros i c Hc.
  destruct (Forall2_lookup_l _ _ _ _ _ Hread Hc) as (x & Hx & Hfx).
  simpl in Hfx. destruct (h !! c) as [d|]; [|done]. simpl in Hfx.
  case_decide; [|done]. exists d. split; [done|]. congruence.
Qed.

(** Writing a block back through distinct channel pointers. *)
Lemma writeBuffer_effect (chans : list ptr) (n : nat) (data : list (list sample))
    (h0 : heap) :
  NoDup chans → Forall (holdsSamples h0 n) chans →
  ∃ h,
    writeBuffer chans n data h0 = Some h
    ∧ (∀ i c, chans !! i = Some c →
         ∃ d0, h0 !! c = Some d0
               ∧ h !! c = Some (take n (default [] (data !! i))
                                ++ drop (length (take n (default [] (data !! i)))) d0))
    ∧ (∀ c, c ∉ chans → h !! c = h0 !! c).
Proof.
  intros Hnd Hholds. unfold writeBuffer.
  match goal with |- context [for_loop _ _ ?body _] =>
    edestruct (for_loop_inv (St := heap) body) with
      (I := λ (i : nat) (h : heap),
              (∀ j c, (j < i)%nat → chans !! j = Some c →
                 ∃ d0, h0 !! c = Some d0
                       ∧ h !! c
                         = Some (take n (default [] (data !! j))
                                 ++ drop (length (take n (default [] (data !! j)))) d0))
              ∧ (∀ j c, (i ≤ j)%nat → chans !! j = Some c → h !! c = h0 !! c)
              ∧ (∀ c, c ∉ chans → h !! c = h0 !! c))
      (lo := 0%nat) (hi := length chans) (s := h0)
      as (h & Hrun & Hwritten & _ & Hframe)
  end.
  - lia.
  - split_and!; [intros; lia | done | done].
  - intros i h [_ Hi] (Hwritten & Hlater & Hframe).
    destruct (lookup_lt_is_Some_2 chans i Hi) as [c Hc]. cbv beta. rewrite Hc. simpl.
    destruct (Forall_lookup_1 _ _ _ _ Hholds Hc) as (d0 & Hd0 & Hlen).
    rewrite (Hlater i c) by done. rewrite Hd0. simpl. rewrite decide_True by done.
    eexists. split; [done|]. split_and!.
    + intros j c' Hj Hc'. destruct (decide (j = i)) as [->|Hne].
      * assert (c' = c) as -> by congruence.
        exists d0. by rewrite lookup_insert_eq.
      * assert (c' ≠ c) as Hcc.
        { intros ->. apply Hne. by eapply NoDup_lookup. }
        rewrite lookup_insert_ne by done. apply Hwritten; [lia | done].
    + intros j c' Hj Hc'.
      assert (c' ≠ c) as Hcc.
      { intros ->. assert (j = i) by (by eapply NoDup_lookup). lia. }
      rewrite lookup_insert_ne by done. apply (Hlater j); [lia | done].
    + intros c' Hc'.
      assert (c' ≠ c) as Hcc.
      { intros ->. apply Hc'. by eapply list_elem_of_lookup_2. }
      rewrite lookup_insert_ne by done. by apply Hframe.
  - exists h. split_and!; [done | | done].
    intros i c Hc. apply Hwritten; [|done]. by eapply lookup_lt_Some.
Qed.

Section MoreCallback.
Context `{Collaborators}.

#[local] Arguments hostedBlock : simpl never.
#[local] Arguments exchangeWorkgroup : simpl never.
#[local] Arguments clearOutputs : simpl never.
#[local] Arguments initialiseIoBuffers : simpl never.
#[local] Arguments runProcessBlock : simpl never.

Lemma sameConfiguration_refl pl : sameConfiguration pl pl.
Proof. by split. Qed.

Lemma setPlayHead_round_trip proc playHead :
  getPlayHead proc = None →
  applyHook (setPlayHead None) (applyHook (setPlayHead (Some playHead)) proc) = proc.
Proof. destruct proc. simpl. by intros ->. Qed.

Lemma forwardMidi_effect w :
  trace (forwardMidi w)
  = trace w ++ midiSends (midiOutput (player w)) (incomingMidi (player w))
                 (sampleRate (player w))
  ∧ player (forwardMidi w) = player w
  ∧ processors (forwardMidi w) = processors w
  ∧ memory (forwardMidi w) = memory w.
Proof.
  unfold forwardMidi, midiSends.
  destruct (midiOutput (player w)) as [out|];
    [destruct (isBackgroundThreadRunning out)|]; split_and!; try done.
  simpl. by rewrite app_nil_r.
Qed.

(** The processing step of a running block. *)
Lemma runProcessBlock_effect p totalNumChannels numSamples w :
  (Z.to_nat totalNumChannels ≤ length (channels (player w)))%nat →
  Forall (holdsSamples (memory w) (Z.to_nat numSamples))
    (take (Z.to_nat totalNumChannels) (channels (player w))) →
  ∃ w' buffer,
    runProcessBlock p totalNumChannels numSamples w = Some w'
    ∧ readBuffer (take (Z.to_nat totalNumChannels) (channels (player w)))
        (Z.to_nat numSamples) (memory w) = Some buffer
    ∧ writeBuffer (take (Z.to_nat totalNumChannels) (channels (player w)))
        (Z.to_nat numSamples)
        (processedBlock p (isUsingDoublePrecision (processors w p)) buffer
           (incomingMidi (player w))).1
        (memory w) = Some (memory w')
    ∧ incomingMidi (player w')
      = (processedBlock p (isUsingDoublePrecision (processors w p)) buffer
           (incomingMidi (player w))).2
    ∧ sameConfiguration (player w) (player w')
    ∧ channels (player w') = channels (player w)
    ∧ sampleCount (player w') = sampleCount (player w)
    ∧ currentWorkgroup (player w') = currentWorkgroup (player w)
    ∧ messageCollector (player w') = messageCollector (player w)
    ∧ trace w' = trace w ++ [ProcessorCall (processor (player w)) p processBlock]
    ∧ (∀ q, processors w' q = processors w q)
    ∧ keepsBlocks (memory w) (Z.to_nat numSamples) (memory w').
Proof.
  intros Htotal Hholds. unfold runProcessBlock. rewrite decide_True by done.
  destruct (readBuffer_runs _ _ _ Hholds) as [buffer Hread]. rewrite Hread. simpl.
  assert (∀ q, processors (call p processBlock w) q = processors w q) as Hsame.
  { intros q. rewrite processors_call. by destruct (decide (q = p)) as [->|]. }
  unfold processedBlock.
  destruct (isUsingDoublePrecision (processors w p)).
  - destruct (processBlockDouble p (map (map floatToDouble) buffer)
                (incomingMidi (player w))) as [converted midi] eqn:Hprocessed.
    edestruct writeBuffer_runs as (h & Hwrite & Hkeeps); [exact Hholds|].
    simpl. rewrite Hwrite. simpl.
    eexists _, buffer. rewrite Hprocessed. split; [reflexivity|]. by split_and!.
  - destruct (processBlockFloat p buffer (incomingMidi (player w)))
      as [processed midi] eqn:Hprocessed.
    edestruct writeBuffer_runs as (h & Hwrite & Hkeeps); [exact Hholds|].
    simpl. rewrite Hwrite. simpl.
    eexists _, buffer. rewrite Hprocessed. split; [reflexivity|]. by split_and!.
Qed.

Lemma clearOutputs_keeps outputChannelData numSamples w :
  Forall (holdsSamples (memory w) (Z.to_nat numSamples)) outputChannelData →
  ∃ h,
    clearOutputs outputChannelData numSamples w = Some (set_memory h w)
    ∧ keepsBlocks (memory w) (Z.to_nat numSamples) h.
Proof.
  intros Hholds. unfold clearOutputs.
  destruct (clearSamples_loop _ _ _ Hholds) as (h & -> & Hkeeps & _).
  by exists h.
Qed.

Lemma sameConfiguration_step pl pl1 pl' :
  sameConfiguration pl1 pl' →
  processor pl1 = processor pl → sampleRate pl1 = sampleRate pl →
  blockSize pl1 = blockSize pl → isPrepared pl1 = isPrepared pl →
  isDoublePrecision pl1 = isDoublePrecision pl →
  deviceChannels pl1 = deviceChannels pl →
  defaultProcessorChannels pl1 = defaultProcessorChannels pl →
  actualProcessorChannels pl1 = actualProcessorChannels pl →
  tempBuffer pl1 = tempBuffer pl → midiOutput pl1 = midiOutput pl →
  currentDevice pl1 = currentDevice pl →
  length (channels pl1) = length (channels pl) →
  sameConfiguration pl pl'.
Proof. intros []. intros. split; congruence. Qed.

(** The block from the declaration of [playHead] on. *)
Lemma hostedBlock_effect p outputChannelData totalNumChannels numSamples hostTimeNs w :
  Forall (holdsSamples (memory w) (Z.to_nat numSamples)) outputChannelData →
  (Z.to_nat totalNumChannels ≤ length (channels (player w)))%nat →
  Forall (holdsSamples (memory w) (Z.to_nat numSamples))
    (take (Z.to_nat totalNumChannels) (channels (player w))) →
  ∃ w',
    hostedBlock p outputChannelData totalNumChannels numSamples hostTimeNs w = Some w'
    ∧ sameConfiguration (player w) (player w')
    ∧ channels (player w') = channels (player w)
    ∧ sampleCount (player w') = to_uint64 (sampleCount (player w) + to_uint64 numSamples)
    ∧ currentWorkgroup (player w') = currentWorkgroup (player w)
    ∧ messageCollector (player w') = messageCollector (player w)
    ∧ (∀ q, processors w' q = processors w q)
    ∧ trace w'
      = trace w
        ++ match getPlayHead (processors w p) with
           | None =>
               [ProcessorCall (processor (player w)) p
                  (setPlayHead
                     (Some (PlayHead hostTimeNs (sampleCount (player w))
                              (PrimFloat.div (uint64_to_double (sampleCount (player w)))
                                             (sampleRate (player w))))))]
           | Some _ => []
           end
        ++ (if isSuspended (processors w p) then []
            else ProcessorCall (processor (player w)) p processBlock
                 :: midiSends (midiOutput (player w)) (incomingMidi (player w'))
                      (sampleRate (player w)))
        ++ match getPlayHead (processors w p) with
           | None => [ProcessorCall (processor (player w)) p (setPlayHead None)]
           | Some _ => []
           end
    ∧ (isSuspended (processors w p) = false →
         ∃ buffer,
           readBuffer (take (Z.to_nat totalNumChannels) (channels (player w)))
             (Z.to_nat numSamples) (memory w) = Some buffer
           ∧ writeBuffer (take (Z.to_nat totalNumChannels) (channels (player w)))
               (Z.to_nat numSamples)
               (processedBlock p (isUsingDoublePrecision (processors w p)) buffer
                  (incomingMidi (player w))).1
               (memory w) = Some (memory w')
           ∧ incomingMidi (player w')
             = (processedBlock p (isUsingDoublePrecision (processors w p)) buffer
                  (incomingMidi (player w))).2)
    ∧ keepsBlocks (memory w) (Z.to_nat numSamples) (memory w').
Proof.
  intros Houts Htotal Hholds. unfold hostedBlock. cbv zeta.
  destruct (getPlayHead (processors w p)) as [ph|] eqn:Hph;
    destruct (isSuspended (processors w p)) eqn:Hsuspended.
  - cbn [processors update]. rewrite Hsuspended. simpl negb. cbv iota.
    edestruct clearOutputs_keeps as (h & -> & Hkeeps); [exact Houts|].
    eexists. split; [reflexivity|]. split_and!; try done.
    simpl. by rewrite app_nil_r.
  - cbn [processors update]. rewrite Hsuspended. simpl negb. cbv iota.
    edestruct (runProcessBlock_effect p totalNumChannels numSamples)
      as (w1 & buffer & -> & Hread & Hwrite & Hmidi & Hsame & Hchannels & Hcount
          & Hgroup & Hcollector & Htrace & Hprocs & Hkeeps);
      [exact Htotal | exact Hholds |].
    cbn [mbind option_bind].
    destruct (forwardMidi_effect w1) as (Htrace2 & Hplayer2 & Hprocs2 & Hmemory2).
    exists (forwardMidi w1). split; [reflexivity|].
    rewrite Hplayer2, Hprocs2, Hmemory2, Htrace2.
    split_and!; try done.
    + eapply sameConfiguration_step; [exact Hsame|..]; reflexivity.
    + rewrite Htrace. destruct Hsame as [_ Hrate _ _ _ _ _ _ _ Hout _ _].
      rewrite Hout, Hrate. simpl. by rewrite <- !app_assoc, app_nil_r.
    + intros _. by exists buffer.
  - cbn [processors update]. rewrite processors_call_same. simpl isSuspended.
    rewrite Hsuspended. simpl negb. cbv iota.
    edestruct clearOutputs_keeps as (h & -> & Hkeeps); [exact Houts|].
    eexists. split; [reflexivity|]. split_and!; try done.
    + intros q. simpl. destruct (decide (q = p)) as [->|]; [|done].
      rewrite decide_True by done. by apply setPlayHead_round_trip.
    + simpl. by rewrite <- app_assoc.
  - cbn [processors update]. rewrite processors_call_same. simpl isSuspended.
    rewrite Hsuspended. simpl negb. cbv iota.
    edestruct (runProcessBlock_effect p totalNumChannels numSamples)
      as (w1 & buffer & -> & Hread & Hwrite & Hmidi & Hsame & Hchannels & Hcount
          & Hgroup & Hcollector & Htrace & Hprocs & Hkeeps);
      [exact Htotal | exact Hholds |].
    cbn [mbind option_bind].
    destruct (forwardMidi_effect w1) as (Htrace2 & Hplayer2 & Hprocs2 & Hmemory2).
    eexists. split; [reflexivity|].
    rewrite player_call, Hplayer2.
    split_and!; try done.
    + eapply sameConfiguration_step; [exact Hsame|..]; reflexivity.
    + intros q. rewrite processors_call, Hprocs2, !Hprocs.
      destruct (decide (q = p)) as [->|]; [|simpl; by rewrite decide_False].
      simpl. rewrite decide_True by done. by apply setPlayHead_round_trip.
    + rewrite trace_call, Hplayer2, Htrace2, Htrace.
      destruct Hsame as [Hp Hrate _ _ _ _ _ _ _ Hout _ _].
      rewrite Hout, Hrate, Hp. simpl. by rewrite <- !app_assoc.
    + intros _. exists buffer.
      cbn [processors update] in Hwrite, Hmidi.
      rewrite processors_call_same in Hwrite, Hmidi.
      change (isUsingDoublePrecision (applyHook (setPlayHead ?x) ?a))
        with (isUsingDoublePrecision a) in *.
      rewrite <- Hmemory2 in Hwrite. split_and!; [exact Hread | exact Hwrite | exact Hmidi].
    + intros c Hc. rewrite <- Hmemory2 in Hkeeps. by apply Hkeeps.
Qed.

(** A well-defined callback up to the test [processor != nullptr]: the
    state [w0] the test is made in. *)
Lemma callback_start inputChannelData outputChannelData numSamples hostTimeNs w :
  BlockReady inputChannelData outputChannelData numSamples w →
  ∃ st w0,
    RoutingInv inputChannelData
      (slotTargets outputChannelData (tempBuffer (player w))
         (Z.to_nat (ins (actualProcessorChannels (player w))))
         (Z.to_nat (outs (actualProcessorChannels (player w)))))
      (memory w) (Z.to_nat numSamples)
      (Z.to_nat (ins (actualProcessorChannels (player w)))) (channels (player w))
      (Z.to_nat (ins (actualProcessorChannels (player w)))
       `max` Z.to_nat (outs (actualProcessorChannels (player w)))) st
    ∧ audioDeviceIOCallbackWithContext inputChannelData outputChannelData numSamples
        hostTimeNs w
      = match processor (player w) with
        | Some p =>
            device ← currentDevice (player w);
            hostedBlock p outputChannelData
              (jmax (ins (actualProcessorChannels (player w)))
                    (outs (actualProcessorChannels (player w))))
              numSamples hostTimeNs (exchangeWorkgroup p device w0)
        | None => clearOutputs outputChannelData numSamples w0
        end
    ∧ player w0
      = set_channels (io_channels st)
          (set_messageCollector
             (removeNextBlockOfMessages (messageCollector (player w)) [] numSamples).1
             (set_incomingMidi
                (removeNextBlockOfMessages (messageCollector (player w)) [] numSamples).2
                (player w)))
    ∧ memory w0 = io_heap st
    ∧ trace w0 = trace w
    ∧ processors w0 = processors w.
Proof.
  intros [Hins Houts Hrouting Hdevice Houtputs].
  destruct (initialiseIoBuffers_runs _ _ _ _ _ _ _ _ Hrouting) as (st & Hrun & Hinv).
  unfold audioDeviceIOCallbackWithContext.
  destruct (removeNextBlockOfMessages _ _ _) as [collector midi]. cbv zeta.
  simpl. rewrite !to_size_t_small by done. rewrite Hrun. simpl.
  exists st. eexists (set_memory (io_heap st) (update (set_channels (io_channels st)) _)).
  split; [exact Hinv|]. split; [reflexivity|]. done.
Qed.

(** What a well-defined callback does, in one statement. *)
Lemma callback_effect inputChannelData outputChannelData numSamples hostTimeNs w :
  BlockReady inputChannelData outputChannelData numSamples w →
  ∃ w' st,
    audioDeviceIOCallbackWithContext inputChannelData outputChannelData numSamples
      hostTimeNs w = Some w'
    ∧ RoutingInv inputChannelData
        (slotTargets outputChannelData (tempBuffer (player w))
           (Z.to_nat (ins (actualProcessorChannels (player w))))
           (Z.to_nat (outs (actualProcessorChannels (player w)))))
        (memory w) (Z.to_nat numSamples)
        (Z.to_nat (ins (actualProcessorChannels (player w)))) (channels (player w))
        (Z.to_nat (ins (actualProcessorChannels (player w)))
         `max` Z.to_nat (outs (actualProcessorChannels (player w)))) st
    ∧ sameConfiguration (player w) (player w')
    ∧ keepsBlocks (memory w) (Z.to_nat numSamples) (memory w')
    ∧ channels (player w') = io_channels st
    ∧ messageCollector (player w')
      = (removeNextBlockOfMessages (messageCollector (player w)) [] numSamples).1
    ∧ (∀ q, processors w' q = processors w q)
    ∧ match processor (player w) with
      | None =>
          trace w' = trace w
          ∧ sampleCount (player w') = sampleCount (player w)
          ∧ currentWorkgroup (player w') = currentWorkgroup (player w)
      | Some p =>
          ∃ device,
            currentDevice (player w) = Some device
            ∧ sampleCount (player w')
              = to_uint64 (sampleCount (player w) + to_uint64 numSamples)
            ∧ currentWorkgroup (player w') = getWorkgroup device
            ∧ trace w'
              = trace w ++ blockCalls w p device hostTimeNs (incomingMidi (player w'))
            ∧ (isSuspended (processors w p) = false →
                 ∃ buffer,
                   readBuffer
                     (take (Z.to_nat (ins (actualProcessorChannels (player w)))
                            `max` Z.to_nat (outs (actualProcessorChannels (player w))))
                           (io_channels st))
                     (Z.to_nat numSamples) (io_heap st) = Some buffer
                   ∧ writeBuffer
                       (take (Z.to_nat (ins (actualProcessorChannels (player w)))
                              `max` Z.to_nat (outs (actualProcessorChannels (player w))))
                             (io_channels st))
                       (Z.to_nat numSamples)
                       (processedBlock p (isUsingDoublePrecision (processors w p)) buffer
                          (removeNextBlockOfMessages (messageCollector (player w)) []
                             numSamples).2).1
                       (io_heap st) = Some (memory w')
                   ∧ incomingMidi (player w')
                     = (processedBlock p (isUsingDoublePrecision (processors w p)) buffer
                          (removeNextBlockOfMessages (messageCollector (player w)) []
                             numSamples).2).2)
      end.
Proof.
  intros Hready.
  destruct (callback_start _ _ _ hostTimeNs _ Hready)
    as (st & w0 & Hinv & -> & Hplayer0 & Hmemory0 & Htrace0 & Hprocs0).
  pose proof Hready as [Hins Houts Hrouting Hdevice Houtputs].
  assert (Forall (holdsSamples (memory w0) (Z.to_nat numSamples)) outputChannelData)
    as Houts0.
  { rewrite Hmemory0. eapply Forall_impl; [exact Houtputs|].
    exact (ri_holds _ _ _ _ _ _ _ _ Hinv). }
  destruct (processor (player w)) as [p|] eqn:Hp.
  - destruct Hdevice as [device Hcurrent]; [done|].
    rewrite Hcurrent. cbn [mbind option_bind].
    destruct (exchangeWorkgroup_effect p device w0)
      as (Htrace1 & Hplayer1 & Hmemory1 & Hprocs1).
    set (w1 := exchangeWorkgroup p device w0) in *.
    assert (channels (player w1) = io_channels st) as Hchannels1
      by (by rewrite Hplayer1, Hplayer0).
    edestruct (hostedBlock_effect p outputChannelData
                 (jmax (ins (actualProcessorChannels (player w)))
                       (outs (actualProcessorChannels (player w))))
                 numSamples hostTimeNs w1)
      as (w' & Hrun & Hsame & Hchannels & Hcount & Hgroup & Hcollector & Hprocs
          & Htrace & Hflow & Hkeeps).
    { by rewrite Hmemory1. }
    { rewrite Hchannels1, (ri_length _ _ _ _ _ _ _ _ Hinv), jmax_to_nat by lia.
      apply (rr_channels _ _ _ _ _ _ _ _ Hrouting). }
    { rewrite Hchannels1, Hmemory1, Hmemory0, jmax_to_nat by lia.
      apply Forall_lookup_2. intros j c Hj.
      apply lookup_take_Some in Hj as [Hj Hlt].
      rewrite (ri_slots _ _ _ _ _ _ _ _ Hinv) in Hj by done.
      apply (ri_holds _ _ _ _ _ _ _ _ Hinv).
      exact (Forall_lookup_1 _ _ _ _ (rr_targets _ _ _ _ _ _ _ _ Hrouting) Hj). }
    exists w', st. split; [exact Hrun|]. split; [exact Hinv|].
    rewrite Hplayer1, Hplayer0 in Hcount, Hgroup, Hcollector, Htrace.
    rewrite Hchannels1, Hmemory1, Hmemory0, Hplayer1, Hplayer0, Hprocs1, Hprocs0,
      jmax_to_nat in Hflow by lia.
    rewrite Hprocs1, Hprocs0, Htrace1, Htrace0, Hplayer0 in Htrace.
    cbn [sampleCount currentWorkgroup messageCollector midiOutput sampleRate processor
         incomingMidi set_channels set_messageCollector set_incomingMidi
         set_currentWorkgroup] in Hcount, Hgroup, Hcollector, Htrace, Hflow.
    split_and!.
    + eapply sameConfiguration_step; [exact Hsame|..];
        rewrite Hplayer1, Hplayer0; try reflexivity.
      exact (ri_length _ _ _ _ _ _ _ _ Hinv).
    + intros c Hc. apply Hkeeps. rewrite Hmemory1, Hmemory0.
      by apply (ri_holds _ _ _ _ _ _ _ _ Hinv).
    + by rewrite Hchannels.
    + exact Hcollector.
    + intros q. by rewrite Hprocs, Hprocs1, Hprocs0.
    + exists device. split_and!; [done | exact Hcount | exact Hgroup | | exact Hflow].
      rewrite Htrace, Hp. unfold blockCalls. cbv zeta.
      rewrite <- !app_assoc. do 2 f_equal.
      by destruct (getPlayHead (processors w p)).
  - destruct (clearOutputs_keeps _ _ _ Houts0) as (h & Hrun & Hkeeps).
    exists (set_memory h w0), st. split; [exact Hrun|]. split; [exact Hinv|].
    cbn [player set_memory processors trace memory]. rewrite Hplayer0, Hprocs0.
    split_and!; try done.
    + split; try done. exact (ri_length _ _ _ _ _ _ _ _ Hinv).
    + intros c Hc. apply Hkeeps. rewrite Hmemory0.
      by apply (ri_holds _ _ _ _ _ _ _ _ Hinv).
Qed.

Lemma BlockReady_next inputChannelData outputChannelData numSamples w w' :
  BlockReady inputChannelData outputChannelData numSamples w →
  sameConfiguration (player w) (player w') →
  keepsBlocks (memory w) (Z.to_nat numSamples) (memory w') →
  BlockReady inputChannelData outputChannelData numSamples w'.
Proof.
  intros [Hins Houts Hrouting Hdevice Houtputs] Hsame Hkeeps.
  destruct Hsame as [Hp _ _ _ _ _ _ Hactual Htemp _ Hcurrent Hlength].
  split; rewrite ?Hactual, ?Htemp, ?Hp, ?Hcurrent; try done.
  - destruct Hrouting as [? ? Hroom ? ? ? ? Htargets Hinputs].
    split; try done.
    + by rewrite Hlength.
    + eapply Forall_impl; [exact Htargets | exact Hkeeps].
    + eapply Forall_impl; [exact Hinputs | exact Hkeeps].
  - eapply Forall_impl; [exact Houtputs | exact Hkeeps].
Qed.

(** X15.  A well-defined callback returns, leaves the configuration of the
    player as it was (the hosted handle, the prepared flag, the sample rate,
    the block size, the precision mode, the recorded layouts, the scratch
    buffer, the MIDI output, the device, and the length of [channels]), and
    leaves the callback well defined for the next block on the same device
    buffers. *)
Theorem callback_keeps_configuration inputChannelData outputChannelData numSamples
    hostTimeNs w :
  BlockReady inputChannelData outputChannelData numSamples w →
  ∃ w',
    audioDeviceIOCallbackWithContext inputChannelData outputChannelData numSamples
      hostTimeNs w = Some w'
    ∧ sameConfiguration (player w) (player w')
    ∧ BlockReady inputChannelData outputChannelData numSamples w'.
Proof.
  intros Hready.
  destruct (callback_effect _ _ _ hostTimeNs _ Hready)
    as (w' & st & Hrun & _ & Hsame & Hkeeps & _).
  exists w'. split; [exact Hrun|]. split; [exact Hsame|].
  by eapply BlockReady_next.
Qed.

(** X16.  The sample counter counts the samples of the blocks: after [k]
    well-defined callbacks in a row with a processor hosted, suspended or
    not, it has advanced by [k * numSamples], modulo 2^64; with no
    processor hosted it stands still.  All [k] callbacks return. *)
Theorem sample_counter_after_blocks inputChannelData outputChannelData numSamples
    hostTimeNs k w :
  BlockReady inputChannelData outputChannelData numSamples w →
  0 ≤ sampleCount (player w) < 2 ^ 64 →
  ∃ w',
    runBlocks k inputChannelData outputChannelData numSamples hostTimeNs w = Some w'
    ∧ sampleCount (player w')
      = match processor (player w) with
        | Some _ => (sampleCount (player w) + Z.of_nat k * numSamples) mod 2 ^ 64
        | None => sampleCount (player w)
        end.
Proof.
  revert w. induction k as [|k IH]; intros w Hready Hrange.
  - exists w. split; [done|]. destruct (processor (player w)); [|done].
    rewrite Z.mul_0_l, Z.add_0_r, Z.mod_small; [done | lia].
  - destruct (callback_effect _ _ _ hostTimeNs _ Hready)
      as (w1 & st & Hrun & _ & Hsame & Hkeeps & _ & _ & _ & Hhosted).
    pose proof (BlockReady_next _ _ _ _ _ Hready Hsame Hkeeps) as Hready1.
    pose proof (rr_numSamples _ _ _ _ _ _ _ _ (br_routing _ _ _ _ Hready)) as Hn.
    pose proof (sc_processor _ _ Hsame) as Hp1.
    cbn [runBlocks]. rewrite Hrun. cbn [mbind option_bind].
    destruct (processor (player w)) as [p|] eqn:Hp.
    + destruct Hhosted as (device & _ & Hcount & _).
      destruct (IH w1 Hready1) as (w' & Hrun' & Hcount').
      { rewrite Hcount. unfold to_uint64. apply Z.mod_pos_bound. lia. }
      exists w'. split; [exact Hrun'|].
      rewrite Hcount', Hp1, Hcount. unfold to_uint64.
      rewrite (Z.mod_small numSamples) by lia.
      rewrite Zplus_mod_idemp_l. f_equal. lia.
    + destruct Hhosted as (_ & Hcount & _).
      destruct (IH w1 Hready1) as (w' & Hrun' & Hcount'); [by rewrite Hcount|].
      exists w'. split; [exact Hrun'|]. by rewrite Hcount', Hp1, Hcount.
Qed.

(** X17.  The calls of a well-defined block with processor [p] hosted, in
    order: the notice of a changed workgroup, if it changed; the
    installation of the callback's own position source, if [p] had none;
    unless [p] is suspended, one [processBlock] and then the MIDI it left,
    handed to the MIDI output if there is one (queued with the sample rate
    when the output's background thread runs, sent at once otherwise); and
    the removal of the position source, if it was installed.  Nothing else
    is called. *)
Theorem hosted_block_calls inputChannelData outputChannelData numSamples hostTimeNs w
    p device :
  BlockReady inputChannelData outputChannelData numSamples w →
  processor (player w) = Some p → currentDevice (player w) = Some device →
  ∃ w',
    audioDeviceIOCallbackWithContext inputChannelData outputChannelData numSamples
      hostTimeNs w = Some w'
    ∧ trace w' = trace w ++ blockCalls w p device hostTimeNs (incomingMidi (player w')).
Proof.
  intros Hready Hp Hcurrent.
  destruct (callback_effect _ _ _ hostTimeNs _ Hready)
    as (w' & st & Hrun & _ & _ & _ & _ & _ & _ & Hhosted).
  rewrite Hp in Hhosted. destruct Hhosted as (device' & Hcurrent' & _ & _ & Htrace & _).
  assert (device' = device) as -> by congruence.
  exists w'. split; [exact Hrun | exact Htrace].
Qed.

(** The audio and the MIDI of a running block. *)
Lemma running_block_flow inputChannelData outputChannelData numSamples hostTimeNs w p :
  BlockReady inputChannelData outputChannelData numSamples w →
  processor (player w) = Some p → isSuspended (processors w p) = false →
  ∃ w' routed,
    audioDeviceIOCallbackWithContext inputChannelData outputChannelData numSamples
      hostTimeNs w = Some w'
    ∧ length routed
      = (Z.to_nat (ins (actualProcessorChannels (player w)))
         `max` Z.to_nat (outs (actualProcessorChannels (player w))))%nat
    ∧ (∀ i, (i < Z.to_nat (ins (actualProcessorChannels (player w)))
               `max` Z.to_nat (outs (actualProcessorChannels (player w))))%nat →
         routed !! i
         = expectedSlot inputChannelData (memory w) (Z.to_nat numSamples)
             (Z.to_nat (ins (actualProcessorChannels (player w)))) i)
    ∧ incomingMidi (player w')
      = (processedBlock p (isUsingDoublePrecision (processors w p)) routed
           (removeNextBlockOfMessages (messageCollector (player w)) [] numSamples).2).2
    ∧ (∀ i c,
         slotTargets outputChannelData (tempBuffer (player w))
           (Z.to_nat (ins (actualProcessorChannels (player w))))
           (Z.to_nat (outs (actualProcessorChannels (player w)))) !! i = Some c →
         ∃ d, memory w' !! c = Some d
              ∧ take (length
                        (take (Z.to_nat numSamples)
                           (default []
                              ((processedBlock p
                                  (isUsingDoublePrecision (processors w p)) routed
                                  (removeNextBlockOfMessages
                                     (messageCollector (player w)) [] numSamples).2).1
                               !! i)))) d
                = take (Z.to_nat numSamples)
                    (default []
                       ((processedBlock p (isUsingDoublePrecision (processors w p))
                           routed
                           (removeNextBlockOfMessages (messageCollector (player w)) []
                              numSamples).2).1 !! i)))
    ∧ (∀ c,
         c ∉ slotTargets outputChannelData (tempBuffer (player w))
               (Z.to_nat (ins (actualProcessorChannels (player w))))
               (Z.to_nat (outs (actualProcessorChannels (player w)))) →
         memory w' !! c = memory w !! c).
Proof.
  intros Hready Hp Hsuspended.
  destruct (callback_effect _ _ _ hostTimeNs _ Hready)
    as (w' & st & Hrun & Hinv & _ & _ & _ & _ & _ & Hhosted).
  rewrite Hp in Hhosted. destruct Hhosted as (device & _ & _ & _ & _ & Hflow).
  destruct (Hflow Hsuspended) as (buffer & Hread & Hwrite & Hmidi). clear Hflow.
  pose proof (br_routing _ _ _ _ Hready) as Hrouting.
  pose proof (targets_length _ _ _ _ _ _ _ _ Hrouting) as Hlength.
  set (targets := slotTargets outputChannelData (tempBuffer (player w))
                    (Z.to_nat (ins (actualProcessorChannels (player w))))
                    (Z.to_nat (outs (actualProcessorChannels (player w))))) in *.
  set (total := (Z.to_nat (ins (actualProcessorChannels (player w)))
                 `max` Z.to_nat (outs (actualProcessorChannels (player w))))%nat) in *.
  assert (take total (io_channels st) = targets) as Hchans.
  { apply list_eq. intros i. destruct (decide (i < total)%nat) as [Hi|Hi].
    - rewrite lookup_take_lt by done. by apply (ri_slots _ _ _ _ _ _ _ _ Hinv).
    - rewrite lookup_take_ge by lia. symmetry. apply lookup_ge_None_2. lia. }
  rewrite Hchans in Hread, Hwrite.
  destruct (readBuffer_Some _ _ _ _ Hread) as [Hlen Hbuffer].
  edestruct (writeBuffer_effect targets (Z.to_nat numSamples)) with (h0 := io_heap st)
    as (h & Hwrite' & Hwritten & Hframe).
  { exact (rr_distinct _ _ _ _ _ _ _ _ Hrouting). }
  { eapply Forall_impl; [exact (rr_targets _ _ _ _ _ _ _ _ Hrouting)|].
    exact (ri_holds _ _ _ _ _ _ _ _ Hinv). }
  rewrite Hwrite' in Hwrite. injection Hwrite as Hmemory.
  exists w', buffer. split_and!.
  - exact Hrun.
  - by rewrite Hlen.
  - intros i Hi.
    destruct (lookup_lt_is_Some_2 targets i) as [c Hc]; [lia|].
    destruct (Hbuffer i c Hc) as (d & Hd & ->).
    rewrite <- (ri_content _ _ _ _ _ _ _ _ Hinv i c Hi Hc), Hd. done.
  - exact Hmidi.
  - intros i c Hc. destruct (Hwritten i c Hc) as (d0 & _ & Hh).
    eexists. split; [rewrite <- Hmemory; exact Hh|]. by rewrite take_app_length.
  - intros c Hc. rewrite <- Hmemory, Hframe by done.
    apply (ri_frame _ _ _ _ _ _ _ _ Hinv). by rewrite take_ge by lia.
Qed.


(** X19.  A running block with an empty negotiated layout (the layout of a
    MIDI effect, see X5) writes no audio memory at all: the device outputs
    are not silenced, they keep what they held. *)
Theorem empty_layout_block_writes_nothing inputChannelData outputChannelData numSamples
    hostTimeNs w p :
  BlockReady inputChannelData outputChannelData numSamples w →
  processor (player w) = Some p → isSuspended (processors w p) = false →
  ins (actualProcessorChannels (player w)) = 0 →
  outs (actualProcessorChannels (player w)) = 0 →
  ∃ w',
    audioDeviceIOCallbackWithContext inputChannelData outputChannelData numSamples
      hostTimeNs w = Some w'
    ∧ memory w' = memory w.
Proof.
  intros Hready Hp Hsuspended Hins Houts.
  destruct (running_block_flow _ _ _ hostTimeNs _ _ Hready Hp Hsuspended)
    as (w' & routed & Hrun & _ & _ & _ & _ & Hframe).
  exists w'. split; [exact Hrun|]. apply map_eq. intros c. apply Hframe.
  rewrite Hins, Houts. unfold slotTargets. simpl. apply not_elem_of_nil.
Qed.

(** X20.  The routing step comes before the test for a processor and works
    with the layout recorded for the last processor attached: a callback
    that is handed fewer device output channels than the recorded output
    count reads past the end of the output array and is undefined, whether
    or not a processor is hosted. *)
Theorem callback_needs_device_outputs inputChannelData outputChannelData numSamples
    hostTimeNs w :
  (length outputChannelData
   < Z.to_nat (to_size_t (outs (actualProcessorChannels (player w)))))%nat →
  audioDeviceIOCallbackWithContext inputChannelData outputChannelData numSamples
    hostTimeNs w = None.
Proof.
  intros Hlt. unfold audioDeviceIOCallbackWithContext.
  destruct (removeNextBlockOfMessages _ _ _) as [collector midi]. cbv zeta. simpl.
  destruct (initialiseIoBuffers _ _ _ _ _ _ _ _) as [[chans h]|] eqn:Hrun; [|done].
  apply initialiseIoBuffers_Some_room in Hrun. lia.
Qed.

End MoreCallback.

(** * Further concrete runs *)

Section MoreRuns.
#[local] Existing Instance testCollaborators.

Ltac holds_samples :=
  repeat constructor; eexists; (split; [vm_compute; reflexivity | simpl; lia]).

Ltac concrete_fact :=
  first [ lia
        | vm_compute; first [reflexivity | lia | done]
        | apply (bool_decide_unpack _); vm_compute; exact I
        | vm_compute; repeat constructor; eexists;
          (split; [reflexivity | repeat constructor]) ].

Lemma routing_ready_2_1 :
  RoutingReady [10; 11]%nat [20]%nat 3 2 1 (mkAudioBuffer [30; 31]%nat 3)
    [nullptr; nullptr; nullptr] test_heap.
Proof.
  split; try (simpl; lia).
  - apply (bool_decide_unpack _). vm_compute. exact I.
  - apply (bool_decide_unpack _). vm_compute. exact I.
  - unfold slotTargets. simpl. holds_samples.
  - holds_samples.
Defined.

Lemma midiEffectWorld_ready : BlockReady [10]%nat [20; 21]%nat 4 midiEffectWorld.
Proof.
  split; [concrete_fact | concrete_fact | | | concrete_fact].
  - split; concrete_fact.
  - intros _. vm_compute. eauto.
Defined.

Lemma initialiseIoBuffers_slots_alias_witness :
  RoutingReady [10; 11]%nat [20]%nat 3 3 1 (mkAudioBuffer [30; 31]%nat 3)
    [nullptr; nullptr; nullptr] test_heap
  ∧ ∃ channels' h',
      initialiseIoBuffers [10; 11]%nat [20]%nat 3 3 1 (mkAudioBuffer [30; 31]%nat 3)
        [nullptr; nullptr; nullptr] test_heap = Some (channels', h')
      ∧ channels' !! 0%nat = Some 20%nat
      ∧ channels' !! 1%nat = Some 30%nat
      ∧ channels' !! 2%nat = Some 31%nat.
Proof.
  split; [exact routing_ready_3_1|].
  destruct (initialiseIoBuffers_slots_alias _ _ _ _ _ _ _ _ routing_ready_3_1)
    as (channels' & h' & Hrun & _ & Hout & Htemp & _).
  exists channels', h'. split; [exact Hrun|]. split; [|split].
  - apply (Hout 0%nat). lia.
  - apply (Htemp 1%nat). lia.
  - apply (Htemp 2%nat). lia.
Defined.

Lemma initialiseIoBuffers_writes_blocks_only_witness :
  RoutingReady [10; 11]%nat [20]%nat 3 3 1 (mkAudioBuffer [30; 31]%nat 3)
    [nullptr; nullptr; nullptr] test_heap
  ∧ ∃ channels' h',
      initialiseIoBuffers [10; 11]%nat [20]%nat 3 3 1 (mkAudioBuffer [30; 31]%nat 3)
        [nullptr; nullptr; nullptr] test_heap = Some (channels', h')
      ∧ h' !! 21%nat = test_heap !! 21%nat
      ∧ h' !! 99%nat = None.
Proof.
  split; [exact routing_ready_3_1|].
  destruct (initialiseIoBuffers_writes_blocks_only _ _ _ _ _ _ _ _ routing_ready_3_1)
    as (channels' & h' & Hrun & Hframe & _ & Hnone).
  exists channels', h'. split; [exact Hrun|]. split.
  - apply Hframe. apply (bool_decide_unpack _). vm_compute. exact I.
  - apply Hnone. vm_compute. reflexivity.
Defined.

Lemma initialiseIoBuffers_defined_needs_room_witness :
  is_Some (initialiseIoBuffers [10; 11]%nat [20]%nat 3 3 1 (mkAudioBuffer [30; 31]%nat 3)
             [nullptr; nullptr; nullptr] test_heap)
  ∧ (3 `max` 1 ≤ length [nullptr; nullptr; nullptr])%nat
  ∧ (1 ≤ length [20%nat])%nat.
Proof.
  assert (is_Some (initialiseIoBuffers [10; 11]%nat [20]%nat 3 3 1
                     (mkAudioBuffer [30; 31]%nat 3) [nullptr; nullptr; nullptr]
                     test_heap)) as Hrun.
  { vm_compute. eexists. reflexivity. }
  split; [exact Hrun|].
  exact (initialiseIoBuffers_defined_needs_room _ _ _ _ _ _ _ _ Hrun).
Defined.

Lemma initialiseIoBuffers_straight_through_witness :
  RoutingReady [10; 11]%nat [20]%nat 3 2 1 (mkAudioBuffer [30; 31]%nat 3)
    [nullptr; nullptr; nullptr] test_heap
  ∧ (2 ≤ length [10; 11]%nat)%nat
  ∧ ∃ channels' h',
      initialiseIoBuffers [10; 11]%nat [20]%nat 3 2 1 (mkAudioBuffer [30; 31]%nat 3)
        [nullptr; nullptr; nullptr] test_heap = Some (channels', h')
      ∧ ∃ d, test_heap !! 11%nat = Some d ∧ slotSamples channels' h' 3 1 = Some (take 3 d).
Proof.
  split; [exact routing_ready_2_1|]. split; [simpl; lia|].
  destruct (initialiseIoBuffers_straight_through _ _ _ _ _ _ _ _ routing_ready_2_1)
    as (channels' & h' & Hrun & Hcopy); [simpl; lia|].
  exists channels', h'. split; [exact Hrun|].
  destruct (Hcopy 1%nat) as (src & d & Hsrc & Hd & Hslot); [lia|].
  injection Hsrc as <-. exists d. split; [exact Hd | exact Hslot].
Defined.

Lemma midi_effect_attach_witness :
  processor (player deviceOnlyWorld) ≠ Some 4%nat
  ∧ configurationKnown (player deviceOnlyWorld) = true
  ∧ isMidiEffect (processors deviceOnlyWorld 4%nat) = true
  ∧ actualProcessorChannels (player (setProcessor (Some 4%nat) deviceOnlyWorld))
    = mkNumChannels 0 0.
Proof.
  assert (processor (player deviceOnlyWorld) ≠ Some 4%nat) as Hne
    by (vm_compute; discriminate).
  assert (configurationKnown (player deviceOnlyWorld) = true) as Hknown
    by (vm_compute; reflexivity).
  assert (isMidiEffect (processors deviceOnlyWorld 4%nat) = true) as Hmidi
    by (vm_compute; reflexivity).
  split; [exact Hne|]. split; [exact Hknown|]. split; [exact Hmidi|].
  exact (proj1 (midi_effect_attach deviceOnlyWorld 4%nat Hne Hknown Hmidi)).
Defined.

Lemma negotiation_with_several_inputs_witness :
  isMidiEffect (testProcessors 3) = false
  ∧ 1 < ins (deviceChannels (set_deviceChannels (mkNumChannels 2 2) (newPlayer (H := testCollaborators) false [])))
  ∧ findMostSuitableLayout
      (set_deviceChannels (mkNumChannels 2 2) (newPlayer (H := testCollaborators) false [])) (testProcessors 3)
    = (mkNumChannels 2 2, [mkNumChannels 2 2]).
Proof.
  split; [reflexivity|]. split; [simpl; lia|].
  apply (negotiation_with_several_inputs
           (set_deviceChannels (mkNumChannels 2 2) (newPlayer (H := testCollaborators) false []))
           (testProcessors 3)); [reflexivity | simpl; lia].
Defined.

Lemma stop_then_destructor_releases_once_witness :
  processor (player (startedWorld 3)) = Some 3%nat
  ∧ isPrepared (player (startedWorld 3)) = true
  ∧ trace (AudioProcessorPlayer_destructor (audioDeviceStopped (startedWorld 3)))
    = trace (startedWorld 3) ++ [ProcessorCall (Some 3%nat) 3%nat releaseResources]
  ∧ processor (player (AudioProcessorPlayer_destructor
                         (audioDeviceStopped (startedWorld 3)))) = None.
Proof.
  assert (processor (player (startedWorld 3)) = Some 3%nat) as Hp
    by (vm_compute; reflexivity).
  assert (isPrepared (player (startedWorld 3)) = true) as Hprepared
    by (vm_compute; reflexivity).
  split; [exact Hp|]. split; [exact Hprepared|].
  exact (stop_then_destructor_releases_once (startedWorld 3) 3%nat Hp Hprepared).
Defined.

Lemma stop_start_cycle_witness :
  processor (player (startedWorld 3)) = Some 3%nat
  ∧ isPrepared (player (startedWorld 3)) = true
  ∧ ∃ configure precision,
      trace (audioDeviceAboutToStart testDevice (audioDeviceStopped (startedWorld 3)))
      = trace (startedWorld 3)
        ++ [ProcessorCall (Some 3%nat) 3%nat releaseResources]
        ++ [ProcessorCall None 3%nat configure;
            ProcessorCall None 3%nat (setProcessingPrecision precision);
            ProcessorCall None 3%nat (prepareToPlay 44100%float 4)].
Proof.
  assert (processor (player (startedWorld 3)) = Some 3%nat) as Hp
    by (vm_compute; reflexivity).
  assert (isPrepared (player (startedWorld 3)) = true) as Hprepared
    by (vm_compute; reflexivity).
  split; [exact Hp|]. split; [exact Hprepared|].
  destruct (stop_start_cycle testDevice (startedWorld 3) 3%nat Hp Hprepared)
    as (configure & precision & Htrace & _).
  exists configure, precision. exact Htrace.
Defined.

Lemma mode_change_after_stop_witness :
  processor (player (startedWorld 3)) = Some 3%nat
  ∧ true ≠ isDoublePrecision (player (startedWorld 3))
  ∧ ∃ precision,
      trace (setDoublePrecisionProcessing true (audioDeviceStopped (startedWorld 3)))
      = trace (audioDeviceStopped (startedWorld 3))
        ++ [ProcessorCall (Some 3%nat) 3%nat releaseResources;
            ProcessorCall (Some 3%nat) 3%nat (setProcessingPrecision precision);
            ProcessorCall (Some 3%nat) 3%nat (prepareToPlay 0%float 0)]
      ∧ isPrepared (player (setDoublePrecisionProcessing true
                              (audioDeviceStopped (startedWorld 3)))) = false.
Proof.
  assert (processor (player (startedWorld 3)) = Some 3%nat) as Hp
    by (vm_compute; reflexivity).
  assert (true ≠ isDoublePrecision (player (startedWorld 3))) as Hmode
    by (vm_compute; discriminate).
  split; [exact Hp|]. split; [exact Hmode|].
  destruct (mode_change_after_stop (startedWorld 3) 3%nat true Hp Hmode)
    as (precision & Htrace & Hflag & _).
  exists precision. split; [exact Htrace | exact Hflag].
Defined.

Lemma setProcessor_makes_room_witness :
  processor (player deviceOnlyWorld) ≠ Some 3%nat
  ∧ countLayout (deviceChannels (player deviceOnlyWorld))
  ∧ countLayout (actualProcessorChannels (player deviceOnlyWorld))
  ∧ (∀ p, Some 3%nat = Some p
          → isCount (ins (getBusesLayout (processors deviceOnlyWorld p))))
  ∧ actualProcessorChannels (player (setProcessor (Some 3%nat) deviceOnlyWorld))
    = mkNumChannels 2 2
  ∧ channelsHaveRoom (player (setProcessor (Some 3%nat) deviceOnlyWorld)).
Proof.
  assert (processor (player deviceOnlyWorld) ≠ Some 3%nat) as Hne
    by (vm_compute; discriminate).
  assert (countLayout (deviceChannels (player deviceOnlyWorld))) as Hdevice
    by (vm_compute; repeat split; discriminate).
  assert (countLayout (actualProcessorChannels (player deviceOnlyWorld))) as Hactual
    by (vm_compute; repeat split; discriminate).
  assert (∀ p, Some 3%nat = Some p
               → isCount (ins (getBusesLayout (processors deviceOnlyWorld p))))
    as Hdefault.
  { intros p Hp. injection Hp as <-. vm_compute. split; [discriminate | reflexivity]. }
  split; [exact Hne|]. split; [exact Hdevice|]. split; [exact Hactual|].
  split; [exact Hdefault|]. split; [vm_compute; reflexivity|].
  exact (setProcessor_makes_room deviceOnlyWorld (Some 3%nat) Hne Hdevice Hactual
           Hdefault).
Defined.

Lemma audioDeviceAboutToStart_makes_room_witness :
  countNumberOfSetBits (getActiveInputChannels testDevice) < 2 ^ 31
  ∧ countNumberOfSetBits (getActiveOutputChannels testDevice) < 2 ^ 31
  ∧ countLayout (actualProcessorChannels (player (startedWorld 3)))
  ∧ (∀ p, processor (player (startedWorld 3)) = Some p
          → isCount (ins (getBusesLayout (processors (startedWorld 3) p))))
  ∧ processor (player (startedWorld 3)) = Some 3%nat
  ∧ actualProcessorChannels (player (audioDeviceAboutToStart testDevice (startedWorld 3)))
    = mkNumChannels 2 2
  ∧ channelsHaveRoom (player (audioDeviceAboutToStart testDevice (startedWorld 3))).
Proof.
  assert (countNumberOfSetBits (getActiveInputChannels testDevice) < 2 ^ 31) as Hin
    by (vm_compute; reflexivity).
  assert (countNumberOfSetBits (getActiveOutputChannels testDevice) < 2 ^ 31) as Hout
    by (vm_compute; reflexivity).
  assert (countLayout (actualProcessorChannels (player (startedWorld 3)))) as Hactual
    by (vm_compute; repeat split; discriminate).
  assert (processor (player (startedWorld 3)) = Some 3%nat) as Hp
    by (vm_compute; reflexivity).
  assert (∀ p, processor (player (startedWorld 3)) = Some p
               → isCount (ins (getBusesLayout (processors (startedWorld 3) p))))
    as Hdefault.
  { intros p Hq. rewrite Hp in Hq. injection Hq as <-.
    vm_compute. split; [discriminate | reflexivity]. }
  split; [exact Hin|]. split; [exact Hout|]. split; [exact Hactual|].
  split; [exact Hdefault|]. split; [exact Hp|]. split; [vm_compute; reflexivity|].
  exact (audioDeviceAboutToStart_makes_room testDevice (startedWorld 3) Hin Hout Hactual
           Hdefault).
Defined.

Lemma callback_keeps_configuration_witness :
  BlockReady [10]%nat [20; 21]%nat 4 (startedWorld 3)
  ∧ ∃ w',
      audioDeviceIOCallbackWithContext [10]%nat [20; 21]%nat 4 None (startedWorld 3)
      = Some w'
      ∧ sameConfiguration (player (startedWorld 3)) (player w')
      ∧ BlockReady [10]%nat [20; 21]%nat 4 w'.
Proof.
  split; [exact (startedWorld_ready 3 (or_intror eq_refl))|].
  exact (callback_keeps_configuration _ _ _ None _
           (startedWorld_ready 3 (or_intror eq_refl))).
Defined.

Lemma sample_counter_after_blocks_witness :
  BlockReady [10]%nat [20; 21]%nat 4 (startedWorld 2)
  ∧ 0 ≤ sampleCount (player (startedWorld 2)) < 2 ^ 64
  ∧ ∃ w',
      runBlocks 3 [10]%nat [20; 21]%nat 4 None (startedWorld 2) = Some w'
      ∧ sampleCount (player w') = 12.
Proof.
  assert (0 ≤ sampleCount (player (startedWorld 2)) < 2 ^ 64) as Hrange
    by (vm_compute; split; [discriminate | reflexivity]).
  split; [exact (startedWorld_ready 2 (or_introl eq_refl))|]. split; [exact Hrange|].
  destruct (sample_counter_after_blocks [10]%nat [20; 21]%nat 4 None 3 (startedWorld 2)
              (startedWorld_ready 2 (or_introl eq_refl)) Hrange)
    as (w' & Hrun & Hcount).
  exists w'. split; [exact Hrun|].
  transitivity
    (match processor (player (startedWorld 2)) with
     | Some _ => (sampleCount (player (startedWorld 2)) + Z.of_nat 3 * 4) mod 2 ^ 64
     | None => sampleCount (player (startedWorld 2))
     end); [exact Hcount|].
  vm_compute. reflexivity.
Defined.

Lemma hosted_block_calls_witness :
  BlockReady [10]%nat [20; 21]%nat 4 midiEffectWorld
  ∧ processor (player midiEffectWorld) = Some 4%nat
  ∧ currentDevice (player midiEffectWorld) = Some testDevice
  ∧ ∃ w',
      audioDeviceIOCallbackWithContext [10]%nat [20; 21]%nat 4 None midiEffectWorld
      = Some w'
      ∧ trace w'
        = trace midiEffectWorld
          ++ blockCalls midiEffectWorld 4%nat testDevice None (incomingMidi (player w')).
Proof.
  assert (processor (player midiEffectWorld) = Some 4%nat) as Hp
    by (vm_compute; reflexivity).
  assert (currentDevice (player midiEffectWorld) = Some testDevice) as Hdevice
    by (vm_compute; reflexivity).
  split; [exact midiEffectWorld_ready|]. split; [exact Hp|]. split; [exact Hdevice|].
  exact (hosted_block_calls _ _ _ None _ _ _ midiEffectWorld_ready Hp Hdevice).
Defined.


Lemma empty_layout_block_writes_nothing_witness :
  BlockReady [10]%nat [20; 21]%nat 4 midiEffectWorld
  ∧ processor (player midiEffectWorld) = Some 4%nat
  ∧ isSuspended (processors midiEffectWorld 4%nat) = false
  ∧ ins (actualProcessorChannels (player midiEffectWorld)) = 0
  ∧ outs (actualProcessorChannels (player midiEffectWorld)) = 0
  ∧ ∃ w',
      audioDeviceIOCallbackWithContext [10]%nat [20; 21]%nat 4 None midiEffectWorld
      = Some w'
      ∧ memory w' = memory midiEffectWorld.
Proof.
  assert (processor (player midiEffectWorld) = Some 4%nat) as Hp
    by (vm_compute; reflexivity).
  assert (isSuspended (processors midiEffectWorld 4%nat) = false) as Hrunning
    by (vm_compute; reflexivity).
  assert (ins (actualProcessorChannels (player midiEffectWorld)) = 0) as Hins
    by (vm_compute; reflexivity).
  assert (outs (actualProcessorChannels (player midiEffectWorld)) = 0) as Houts
    by (vm_compute; reflexivity).
  split; [exact midiEffectWorld_ready|]. split; [exact Hp|]. split; [exact Hrunning|].
  split; [exact Hins|]. split; [exact Houts|].
  exact (empty_layout_block_writes_nothing _ _ _ None _ _ midiEffectWorld_ready Hp
           Hrunning Hins Houts).
Defined.

(** The state of [staleLayoutWorld] is reached through the player's own
    operations; nothing is hosted in it, and the callback on the one output
    of [monoDevice] is undefined. *)
Lemma callback_needs_device_outputs_witness :
  (length [20%nat]
   < Z.to_nat (to_size_t (outs (actualProcessorChannels (player staleLayoutWorld)))))%nat
  ∧ processor (player staleLayoutWorld) = None
  ∧ actualProcessorChannels (player staleLayoutWorld) = mkNumChannels 1 2
  ∧ audioDeviceIOCallbackWithContext [10]%nat [20]%nat 4 None staleLayoutWorld = None.
Proof.
  assert (length [20%nat]
          < Z.to_nat (to_size_t (outs (actualProcessorChannels
                                         (player staleLayoutWorld)))))%nat as Hlt
    by (vm_compute; lia).
  split; [exact Hlt|]. split; [vm_compute; reflexivity|].
  split; [vm_compute; reflexivity|].
  exact (callback_needs_device_outputs [10]%nat [20]%nat 4 None staleLayoutWorld Hlt).
Defined.

(** The double-precision path on a block of one channel: the test processor
    negates, so the NaN 0xffc00000 comes out as 0x7fc00000 and 1.0f as
    -1.0f. *)
Example double_precision_block :
  processedBlock 1%nat true [[4290772992; 1065353216]] []
  = ([[2143289344; 3212836864]], []).
Proof. vm_compute. reflexivity. Qed.

End MoreRuns.
